(** * Message mutations of the chat API (iris/mutations/message.js)

    A shallow embedding of the two GraphQL mutations [addMessage] and
    [deleteMessage], followed by theorems about authorization, participant
    bookkeeping, content classification and error reporting.

    The mutations are asynchronous functions that talk to the data models,
    the per-request loaders, the image uploader and the language detector.
    Those collaborators live outside this module; they are taken as the
    fields of two records ([Runtime] for the pure helpers, [Models] for the
    stateful services) and every call made to them is logged, with the answer
    it gave, in a trace.

    A request runs its awaits and its promise chains in order, so it is
    embedded as a sequential computation over the store and the trace that
    ends either fulfilled ([Returned]) or rejected ([Thrown]). A collaborator
    fails by rejecting its promise. The calls to the [debug] logger are left
    out. *)

From Stdlib Require Import String Ascii List Bool ZArith Lia PrimFloat.
Import ListNotations.
Local Open Scope string_scope.
Set Warnings "-register-all".

(** ** JavaScript values obtained from [JSON.parse] *)

Inductive JSON : Type :=
| JNull
| JBool (b : bool)
| JNum (n : float)
| JStr (s : string)
| JArr (elems : list JSON)
| JObj (props : list (string * JSON)).

(** Own-property read [o\[k\]]: [None] stands for [undefined]. *)
Fixpoint getProp (k : string) (props : list (string * JSON)) : option JSON :=
  match props with
  | [] => None
  | (k', v) :: rest => if String.eqb k k' then Some v else getProp k rest
  end.

(** Own-property write [o\[k\] = v]: an existing key keeps its place, a new
    key goes last. *)
Fixpoint setProp (k : string) (v : JSON) (props : list (string * JSON))
  : list (string * JSON) :=
  match props with
  | [] => [(k, v)]
  | (k', v') :: rest =>
      if String.eqb k k' then (k, v) :: rest else (k', v') :: setProp k v rest
  end.

(** ** Exceptions *)

Inductive Exn : Type :=
| UserError (message : string)
| TypeError (message : string)
| SyntaxError (message : string)
| UpstreamError (message : string).

(** [err.message] *)
Definition message_of (err : Exn) : string :=
  match err with
  | UserError m | TypeError m | SyntaxError m | UpstreamError m => m
  end.

(** ** Records of the data model *)

Module User.
Record t : Type := { id : string }.
End User.

Module Thread.
(** [communityId] and [channelId] are [None] when the field is absent. *)
Record t : Type :=
  { communityId : option string;
    channelId : option string;
    watercooler : bool }.
End Thread.

Module Permissions.
Record t : Type :=
  { reputation : Z;
    isModerator : bool;
    isOwner : bool }.
End Permissions.

Module File.
(** An upload descriptor. [data] is the raw upload; the metadata object
    built by [addMessage] has only the three named keys, so [data] is
    [None] there. *)
Record t : Type :=
  { name : string;
    size : Z;
    type : string;
    data : option string }.
End File.

Module Content.
Record t : Type := { body : string }.
End Content.

Module Message.
(** [id] and [senderId] are assigned by the store: they are [None] on a
    message that has not been stored. *)
Record t : Type :=
  { id : option string;
    threadId : string;
    threadType : string;
    senderId : option string;
    messageType : string;
    content : Content.t;
    file : option File.t }.

Definition with_body (m : t) (b : string) : t :=
  {| id := id m; threadId := threadId m; threadType := threadType m;
     senderId := senderId m; messageType := messageType m;
     content := {| Content.body := b |}; file := file m |}.

(** [Object.assign({}, m, { content: c, file: f })] *)
Definition assign_content_file (m : t) (c : Content.t) (f : File.t) : t :=
  {| id := id m; threadId := threadId m; threadType := threadType m;
     senderId := senderId m; messageType := messageType m;
     content := c; file := Some f |}.
End Message.

Module ContextPermissions.
(** The view attached to a returned message. [communityId] is [None] when
    the view has no such key and [Some c] when the key is there with
    value [c] ([c = None] being [undefined]). *)
Record t : Type :=
  { communityId : option (option string);
    reputation : Z;
    isModerator : bool;
    isOwner : bool }.
End ContextPermissions.

(** What the promise returned by [addMessage] is fulfilled with. *)
Inductive AddResult : Type :=
| Plain (m : Message.t)
| Enriched (m : Message.t) (contextPermissions : ContextPermissions.t)
| ErrorValue (err : Exn).

(** ** Calls to the collaborators

    One constructor per imported function. A call that is awaited (or chained
    with [then]) carries the answer it got: [inl msg] for a promise rejected
    with an error whose message is [msg], [inr v] for a promise fulfilled with
    [v]. The calls whose promise is dropped carry only their arguments. *)

Definition Answer (A : Type) : Type := (string + A)%type.

Inductive Event : Type :=
| EvGetThread (threadId : string) (r : Answer (option Thread.t))
| EvSetDirectMessageThreadLastActive (threadId : string)
| EvSetUserLastSeenInDirectMessageThread (threadId userId : string)
| EvCreateParticipantInThread (threadId userId : string)
| EvCreateParticipantWithoutNotificationsInThread (threadId userId : string)
| EvStoreMessage (m : Message.t) (userId : string) (r : Answer Message.t)
| EvLoadThread (threadId : string) (r : Answer (option Thread.t))
| EvLoadUserPermissionsInCommunity (senderId communityId : option string)
    (r : Answer (option Permissions.t))
| EvUploadImage (file : option File.t) (namespace threadId : string)
    (r : Answer string)
| EvGetMessage (id : string) (r : Answer (option Message.t))
| EvGetUserPermissionsInCommunity (communityId : option string)
    (userId : string) (r : Answer (option Permissions.t))
| EvGetUserPermissionsInChannel (channelId : option string)
    (userId : string) (r : Answer (option Permissions.t))
| EvDeleteMessage (userId id : string) (r : Answer unit)
| EvUserHasMessagesInThread (threadId : string) (senderId : option string)
    (r : Answer bool)
| EvDeleteParticipantInThread (threadId : string) (senderId : option string)
    (r : Answer unit)
| EvConsoleError (err : Exn).

(** ** The pure helpers: engine built-ins, draft-utils, lang-detector *)

Record Runtime : Type :=
  { (** [JSON.parse]: [inl msg] is a [SyntaxError] with message [msg] *)
    JSON_parse : string -> string + JSON;
    JSON_stringify : JSON -> string;
    (** [String.prototype.toLowerCase] *)
    toLowerCase : string -> string;
    (** the conversions behind the comparison [x > 0] *)
    StringToNumber : string -> float;
    NumberToString : float -> string;
    (** the engine's text for a failed read; the argument is the source
        expression that failed *)
    TypeError_message : string -> string;
    (** [toPlainText(toState(raw))] of shared/draft-utils; [inl] when it
        throws *)
    toPlainText_toState : JSON -> Exn + string;
    (** [detectLang] of lang-detector; [inl] when it throws *)
    detectLang : string -> Exn + string }.

(** ** The stateful services, over a store of type [World] *)

Record Models (World : Type) : Type :=
  { getThread : string -> World -> Answer (option Thread.t) * World;
    setDirectMessageThreadLastActive : string -> World -> World;
    setUserLastSeenInDirectMessageThread : string -> string -> World -> World;
    createParticipantInThread : string -> string -> World -> World;
    createParticipantWithoutNotificationsInThread :
      string -> string -> World -> World;
    storeMessage : Message.t -> string -> World -> Answer Message.t * World;
    (** [loaders.thread.load] *)
    loadThread : string -> World -> Answer (option Thread.t) * World;
    (** [loaders.userPermissionsInCommunity.load] *)
    loadUserPermissionsInCommunity :
      option string -> option string -> World ->
      Answer (option Permissions.t) * World;
    uploadImage :
      option File.t -> string -> string -> World -> Answer string * World;
    getMessage : string -> World -> Answer (option Message.t) * World;
    getUserPermissionsInCommunity :
      option string -> string -> World -> Answer (option Permissions.t) * World;
    getUserPermissionsInChannel :
      option string -> string -> World -> Answer (option Permissions.t) * World;
    deleteMessage : string -> string -> World -> Answer unit * World;
    userHasMessagesInThread :
      string -> option string -> World -> Answer bool * World;
    deleteParticipantInThread :
      string -> option string -> World -> Answer unit * World }.

Arguments getThread {World}.
Arguments setDirectMessageThreadLastActive {World}.
Arguments setUserLastSeenInDirectMessageThread {World}.
Arguments createParticipantInThread {World}.
Arguments createParticipantWithoutNotificationsInThread {World}.
Arguments storeMessage {World}.
Arguments loadThread {World}.
Arguments loadUserPermissionsInCommunity {World}.
Arguments uploadImage {World}.
Arguments getMessage {World}.
Arguments getUserPermissionsInCommunity {World}.
Arguments getUserPermissionsInChannel {World}.
Arguments deleteMessage {World}.
Arguments userHasMessagesInThread {World}.
Arguments deleteParticipantInThread {World}.

(** ** The monad of a request: store, trace, and a settled promise *)

Inductive Outcome (A : Type) : Type :=
| Returned (a : A)
| Thrown (err : Exn).
Arguments Returned {A}.
Arguments Thrown {A}.

Record State (World : Type) : Type :=
  { world : World; trace : list Event }.
Arguments world {World}.
Arguments trace {World}.

Definition M (World A : Type) : Type :=
  State World -> Outcome A * State World.

Definition ret {World A} (a : A) : M World A := fun st => (Returned a, st).

Definition throw {World A} (err : Exn) : M World A :=
  fun st => (Thrown err, st).

Definition bind {World A B} (c : M World A) (k : A -> M World B) : M World B :=
  fun st =>
    match c st with
    | (Returned a, st') => k a st'
    | (Thrown err, st') => (Thrown err, st')
    end.

(** [p.catch(h)], and [try { c } catch (err) { h }] *)
Definition catch {World A} (c : M World A) (h : Exn -> M World A) : M World A :=
  fun st =>
    match c st with
    | (Returned a, st') => (Returned a, st')
    | (Thrown err, st') => h err st'
    end.

(** A call whose promise is awaited or chained. *)
Definition call {World A} (ev : Answer A -> Event)
    (f : World -> Answer A * World) : M World A :=
  fun st =>
    let (r, w) := f (world st) in
    let st' := {| world := w; trace := trace st ++ [ev r] |} in
    match r with
    | inl msg => (Thrown (UpstreamError msg), st')
    | inr a => (Returned a, st')
    end.

(** A call whose promise is dropped. *)
Definition fire {World} (ev : Event) (f : World -> World) : M World unit :=
  fun st => (Returned tt, {| world := f (world st); trace := trace st ++ [ev] |}).

(** [console.error(err)] *)
Definition console_error {World} (err : Exn) : M World unit :=
  fun st =>
    (Returned tt, {| world := world st; trace := trace st ++ [EvConsoleError err] |}).

Definition when {World} (b : bool) (c : M World unit) : M World unit :=
  if b then c else ret tt.

Declare Scope js_scope.
Delimit Scope js_scope with js.
Notation "x <- c ;; k" := (bind c (fun x => k))
  (at level 61, c at next level, right associativity) : js_scope.
Notation "c ;; k" := (bind c (fun _ => k))
  (at level 61, right associativity) : js_scope.

(** ** Reading the parsed draft.js document *)

Section Coercions.
Variable R : Runtime.

(** [Array.prototype.join] over already converted elements *)
Fixpoint join_comma (l : list string) : string :=
  match l with
  | [] => ""
  | [s] => s
  | s :: rest => s ++ "," ++ join_comma rest
  end.

(** [String(v)] for a value that came out of [JSON.parse]; [None] when the
    conversion throws. An object is converted by the [toString] it finds: the
    inherited one, unless the object has an own [toString] key, and a value
    read from JSON is never callable, so the conversion throws a type error.
    An array joins the conversions of its elements. *)
Fixpoint ToString (v : JSON) : option string :=
  match v with
  | JNull => Some "null"
  | JBool true => Some "true"
  | JBool false => Some "false"
  | JNum n => Some (NumberToString R n)
  | JStr s => Some s
  | JArr elems =>
      option_map join_comma
        ((fix each (l : list JSON) : option (list string) :=
            match l with
            | [] => Some []
            | e :: rest =>
                match match e with JNull => Some "" | _ => ToString e end with
                | None => None
                | Some s => option_map (cons s) (each rest)
                end
            end) elems)
  | JObj props =>
      match getProp "toString" props with
      | Some _ => None
      | None => Some "[object Object]"
      end
  end.

(** [Number(v)]; [None] when the conversion throws *)
Definition ToNumber (v : JSON) : option float :=
  match v with
  | JNull => Some 0%float
  | JBool true => Some 1%float
  | JBool false => Some 0%float
  | JNum n => Some n
  | JStr s => Some (StringToNumber R s)
  | JArr _ | JObj _ => option_map (StringToNumber R) (ToString v)
  end.

(** [x > 0], where the argument [None] is [undefined] and the result [None]
    is a thrown type error *)
Definition gt_zero (x : option JSON) : option bool :=
  match x with
  | None => Some false
  | Some v => option_map (PrimFloat.ltb 0%float) (ToNumber v)
  end.

(** [blocks && blocks.length > 0]; [None] when the comparison throws *)
Definition has_positive_length (blocks : option JSON) : option bool :=
  match blocks with
  | Some (JArr elems) => Some (Nat.ltb 0 (List.length elems))
  | Some (JStr s) => Some (Nat.ltb 0 (String.length s))
  | Some (JObj props) => gt_zero (getProp "length" props)
  | Some (JNum _) | Some (JBool _) | Some JNull | None => Some false
  end.

(** [blocks\[0\]], for [blocks] that passed [has_positive_length] *)
Definition first_block (blocks : option JSON) : option JSON :=
  match blocks with
  | Some (JArr elems) => List.hd_error elems
  | Some (JStr s) => Some (JStr (String.substring 0 1 s))
  | Some (JObj props) => getProp "0" props
  | _ => None
  end.

(** [b.type === 'code-block']; [None] when reading [type] throws *)
Definition type_is_code_block (b : option JSON) : option bool :=
  match b with
  | None | Some JNull => None
  | Some (JObj props) =>
      match getProp "type" props with
      | Some (JStr t) => Some (String.eqb t "code-block")
      | _ => Some false
      end
  | Some _ => Some false
  end.

(** [b.data = d] *)
Definition set_data (d : JSON) (b : JSON) : JSON :=
  match b with
  | JObj props => JObj (setProp "data" d props)
  | _ => b
  end.

(** [blocks\[0\].data = d] *)
Definition set_first_block_data (d : JSON) (blocks : JSON) : JSON :=
  match blocks with
  | JArr (b :: rest) => JArr (set_data d b :: rest)
  | JObj props =>
      match getProp "0" props with
      | Some b => JObj (setProp "0" (set_data d b) props)
      | None => blocks
      end
  | _ => blocks
  end.

(** [parsedMessage.blocks\[0\].data = d] *)
Definition set_document_first_block_data (d : JSON) (parsedMessage : JSON)
  : JSON :=
  match parsedMessage with
  | JObj props =>
      match getProp "blocks" props with
      | Some blocks =>
          JObj (setProp "blocks" (set_first_block_data d blocks) props)
      | None => parsedMessage
      end
  | _ => parsedMessage
  end.

(** [{ syntax: lang.toLowerCase() }] *)
Definition syntax_data (lang : string) : JSON :=
  JObj [("syntax", JStr (toLowerCase R lang))].

(** [lang && lang !== 'Unknown'], where [None] is [undefined] *)
Definition lang_is_known (lang : option string) : bool :=
  match lang with
  | None => false
  | Some l => negb (String.eqb l "") && negb (String.eqb l "Unknown")
  end.
End Coercions.

(** ** The mutations *)

Module Mutation.
Section WithCollaborators.
Context {World : Type}.
Variable R : Runtime.
Variable Md : Models World.

Local Open Scope js_scope.
Local Abbreviation Req := (M World).

(** [thread && thread.watercooler] *)
Definition is_watercooler (thread : option Thread.t) : bool :=
  match thread with
  | Some t => Thread.watercooler t
  | None => false
  end.

(** [thread && !thread.watercooler] *)
Definition is_not_watercooler (thread : option Thread.t) : bool :=
  match thread with
  | Some t => negb (Thread.watercooler t)
  | None => false
  end.

(** [a !== b] for a sender id that may be [undefined] *)
Definition differs (a : option string) (b : string) : bool :=
  match a with
  | Some s => negb (String.eqb s b)
  | None => true
  end.

(** Lines 78-83: the guarded language detection. Either failure is printed
    with [console.error] and leaves [lang] undefined. *)
Definition guess_language (parsedMessage : JSON) : Req (option string) :=
  match toPlainText_toState R parsedMessage with
  | inl err => console_error err ;; ret None
  | inr text =>
      match detectLang R text with
      | inl err => console_error err ;; ret None
      | inr lang => ret (Some lang)
      end
  end.

(** Lines 71-93: the [draftjs] branch; the result is the message that goes
    on to [storeMessage]. *)
Definition tag_code_language (message : Message.t) : Req Message.t :=
  match JSON_parse R (Content.body (Message.content message)) with
  | inl msg => throw (SyntaxError msg)
  | inr parsedMessage =>
      blocks <-
        match parsedMessage with
        | JNull => throw (TypeError (TypeError_message R "{ blocks } = parsedMessage"))
        | JObj props => ret (getProp "blocks" props)
        | _ => ret None
        end ;;
      match has_positive_length R blocks with
      | None => throw (TypeError (TypeError_message R "blocks.length > 0"))
      | Some false => ret message
      | Some true =>
          match type_is_code_block (first_block blocks) with
          | None => throw (TypeError (TypeError_message R "blocks[0].type"))
          | Some false => ret message
          | Some true =>
              lang <- guess_language parsedMessage ;;
              if lang_is_known lang then
                match lang with
                | Some l =>
                    ret (Message.with_body message
                           (JSON_stringify R
                              (set_document_first_block_data (syntax_data R l)
                                 parsedMessage)))
                | None => ret message
                end
              else ret message
          end
      end
  end.

(** Lines 96-112: the continuation after [storeMessage] on the text path. *)
Definition attach_context_permissions (message : Message.t) : Req AddResult :=
  if String.eqb (Message.threadType message) "directMessageThread"
  then ret (Plain message)
  else
    loaded <- call (EvLoadThread (Message.threadId message))
                (loadThread Md (Message.threadId message)) ;;
    match loaded with
    | None => throw (TypeError (TypeError_message R "{ communityId } = await loaders.thread.load(message.threadId)"))
    | Some thread =>
        let communityId := Thread.communityId thread in
        permissions <-
          call (EvLoadUserPermissionsInCommunity (Message.senderId message) communityId)
            (loadUserPermissionsInCommunity Md (Message.senderId message) communityId) ;;
        ret (Enriched message
               {| ContextPermissions.communityId := None;
                  ContextPermissions.reputation :=
                    match permissions with
                    | Some p => Permissions.reputation p | None => 0%Z end;
                  ContextPermissions.isModerator :=
                    match permissions with
                    | Some p => Permissions.isModerator p | None => false end;
                  ContextPermissions.isOwner :=
                    match permissions with
                    | Some p => Permissions.isOwner p | None => false end |})
    end.

(** Lines 133-150: the continuation after [storeMessage] on the media
    path. *)
Definition attach_context_permissions_media (message : Message.t)
  : Req AddResult :=
  if String.eqb (Message.threadType message) "directMessageThread"
  then ret (Plain message)
  else
    loaded <- call (EvLoadThread (Message.threadId message))
                (loadThread Md (Message.threadId message)) ;;
    match loaded with
    | None => throw (TypeError (TypeError_message R "{ communityId } = await loaders.thread.load(message.threadId)"))
    | Some thread =>
        let communityId := Thread.communityId thread in
        permissions <-
          call (EvLoadUserPermissionsInCommunity (Message.senderId message) communityId)
            (loadUserPermissionsInCommunity Md (Message.senderId message) communityId) ;;
        ret (Enriched message
               {| ContextPermissions.communityId := Some communityId;
                  ContextPermissions.reputation :=
                    match permissions with
                    | Some p => Permissions.reputation p | None => 0%Z end;
                  ContextPermissions.isModerator :=
                    match permissions with
                    | Some p => Permissions.isModerator p | None => false end;
                  ContextPermissions.isOwner :=
                    match permissions with
                    | Some p => Permissions.isOwner p | None => false end |})
    end.

(** Lines 118-131: the message rebuilt around the uploaded url. *)
Definition build_media_message (message : Message.t) (url : string)
  : Req Message.t :=
  match Message.file message with
  | None => throw (TypeError (TypeError_message R "message.file.name"))
  | Some f =>
      ret (Message.assign_content_file message
             {| Content.body := url |}
             {| File.name := File.name f;
                File.size := File.size f;
                File.type := File.type f;
                File.data := None |})
  end.

(** [err => new UserError(err.message)] *)
Definition as_user_error (err : Exn) : Req AddResult :=
  ret (ErrorValue (UserError (message_of err))).

(** Lines 47-67: the thread lookup and the calls made per thread kind. *)
Definition thread_side_effects (message : Message.t) (currentUser : User.t)
  : Req unit :=
  thread <- call (EvGetThread (Message.threadId message))
              (getThread Md (Message.threadId message)) ;;
  when (String.eqb (Message.threadType message) "directMessageThread")
    (fire (EvSetDirectMessageThreadLastActive (Message.threadId message))
       (setDirectMessageThreadLastActive Md (Message.threadId message)) ;;
     fire (EvSetUserLastSeenInDirectMessageThread (Message.threadId message)
             (User.id currentUser))
       (setUserLastSeenInDirectMessageThread Md (Message.threadId message)
          (User.id currentUser))) ;;
  when (String.eqb (Message.threadType message) "story"
        && is_not_watercooler thread)
    (fire (EvCreateParticipantInThread (Message.threadId message)
             (User.id currentUser))
       (createParticipantInThread Md (Message.threadId message)
          (User.id currentUser))) ;;
  when (is_watercooler thread)
    (fire (EvCreateParticipantWithoutNotificationsInThread
             (Message.threadId message) (User.id currentUser))
       (createParticipantWithoutNotificationsInThread Md
          (Message.threadId message) (User.id currentUser))).

(** Lines 70-154: classification, persistence and enrichment. *)
Definition classify_and_store (message : Message.t) (currentUser : User.t)
  : Req AddResult :=
  if String.eqb (Message.messageType message) "text"
     || String.eqb (Message.messageType message) "draftjs"
  then
    message' <-
      (if String.eqb (Message.messageType message) "draftjs"
       then tag_code_language message
       else ret message) ;;
    catch
      (stored <- call (EvStoreMessage message' (User.id currentUser))
                   (storeMessage Md message' (User.id currentUser)) ;;
       attach_context_permissions stored)
      as_user_error
  else if String.eqb (Message.messageType message) "media"
  then
    catch
      (url <- call (EvUploadImage (Message.file message) "threads"
                      (Message.threadId message))
                (uploadImage Md (Message.file message) "threads"
                   (Message.threadId message)) ;;
       newMessage <- build_media_message message url ;;
       stored <- call (EvStoreMessage newMessage (User.id currentUser))
                   (storeMessage Md newMessage (User.id currentUser)) ;;
       attach_context_permissions_media stored)
      as_user_error
  else ret (ErrorValue (UserError "Unknown message type")).

(** Lines 36-155. *)
Definition addMessage (message : Message.t) (user : option User.t)
  : Req AddResult :=
  match user with
  | None => ret (ErrorValue (UserError "You must be signed in to send a message."))
  | Some currentUser =>
      thread_side_effects message currentUser ;;
      classify_and_store message currentUser
  end.

(** Lines 184-188: [||] evaluates left to right and stops at the first
    true flag; reading a flag of an absent record throws. *)
Definition canModerate (channelPermissions communityPermissions : option Permissions.t)
  : Req bool :=
  match channelPermissions with
  | None => throw (TypeError (TypeError_message R "channelPermissions.isOwner"))
  | Some channel =>
      if Permissions.isOwner channel then ret true
      else
        match communityPermissions with
        | None => throw (TypeError (TypeError_message R "communityPermissions.isOwner"))
        | Some community =>
            if Permissions.isOwner community then ret true
            else if Permissions.isModerator channel then ret true
            else ret (Permissions.isModerator community)
        end
  end.

(** Lines 169-193: the permission check for a requester who is not the
    sender. *)
Definition authorize (message : Message.t) (currentUser : User.t) : Req unit :=
  if differs (Message.senderId message) (User.id currentUser) then
    if String.eqb (Message.threadType message) "directMessageThread"
    then throw (UserError "You can only delete your own messages.")
    else
      found <- call (EvGetThread (Message.threadId message))
                 (getThread Md (Message.threadId message)) ;;
      match found with
      | None => throw (TypeError (TypeError_message R "thread.communityId"))
      | Some thread =>
          communityPermissions <-
            call (EvGetUserPermissionsInCommunity (Thread.communityId thread)
                    (User.id currentUser))
              (getUserPermissionsInCommunity Md (Thread.communityId thread)
                 (User.id currentUser)) ;;
          channelPermissions <-
            call (EvGetUserPermissionsInChannel (Thread.channelId thread)
                    (User.id currentUser))
              (getUserPermissionsInChannel Md (Thread.channelId thread)
                 (User.id currentUser)) ;;
          allowed <- canModerate channelPermissions communityPermissions ;;
          if negb allowed
          then throw (UserError "You don't have permission to delete this message.")
          else ret tt
      end
  else ret tt.

(** Lines 197-213: the store deletion and the participant clean-up. *)
Definition delete_and_retract (message : Message.t) (currentUser : User.t)
    (id : string) : Req bool :=
  call (EvDeleteMessage (User.id currentUser) id)
    (deleteMessage Md (User.id currentUser) id) ;;
  if String.eqb (Message.threadType message) "directMessageThread"
  then ret true
  else
    hasMoreMessages <-
      call (EvUserHasMessagesInThread (Message.threadId message)
              (Message.senderId message))
        (userHasMessagesInThread Md (Message.threadId message)
           (Message.senderId message)) ;;
    if (hasMoreMessages : bool) then ret true
    else
      call (EvDeleteParticipantInThread (Message.threadId message)
              (Message.senderId message))
        (deleteParticipantInThread Md (Message.threadId message)
           (Message.senderId message)) ;;
      ret true.

(** Lines 156-214. *)
Definition deleteMessage (id : string) (user : option User.t) : Req bool :=
  match user with
  | None => throw (UserError "You must be signed in to delete a message.")
  | Some currentUser =>
      found <- call (EvGetMessage id) (getMessage Md id) ;;
      match found with
      | None => throw (UserError "This message does not exist.")
      | Some message =>
          authorize message currentUser ;;
          delete_and_retract message currentUser id
      end
  end.

End WithCollaborators.
End Mutation.

(** ** An in-memory instance of the collaborators

    A small store with the services implemented over association lists, and
    a runtime whose helpers are simple total functions. The theorems below
    hold for every instance; this one serves to run the mutations on
    concrete requests. *)

Module InMemory.

Record World : Type :=
  { threads : list (string * Thread.t);
    messages : list Message.t;
    (** thread id, user id, notifications enabled *)
    participants : list (string * string * bool);
    (** roles by user id *)
    communityRoles : list (string * Permissions.t);
    channelRoles : list (string * Permissions.t);
    lastActive : list string;
    lastSeen : list (string * string);
    (** names of the services whose promise rejects *)
    rejecting : list string }.

Definition rejects (service : string) (w : World) : bool :=
  existsb (String.eqb service) (rejecting w).

Definition answer {A : Type} (service : string) (w : World) (a : A)
  : Answer A * World :=
  if rejects service w then (inl (service ++ " failed"), w) else (inr a, w).

Fixpoint assoc {A : Type} (k : string) (l : list (string * A)) : option A :=
  match l with
  | [] => None
  | (k', a) :: rest => if String.eqb k k' then Some a else assoc k rest
  end.

Definition same_id (a b : option string) : bool :=
  match a, b with
  | Some x, Some y => String.eqb x y
  | None, None => true
  | _, _ => false
  end.

Definition set_messages (w : World) (ms : list Message.t) : World :=
  {| threads := threads w; messages := ms; participants := participants w;
     communityRoles := communityRoles w; channelRoles := channelRoles w;
     lastActive := lastActive w; lastSeen := lastSeen w;
     rejecting := rejecting w |}.

Definition set_participants (w : World) (ps : list (string * string * bool))
  : World :=
  {| threads := threads w; messages := messages w; participants := ps;
     communityRoles := communityRoles w; channelRoles := channelRoles w;
     lastActive := lastActive w; lastSeen := lastSeen w;
     rejecting := rejecting w |}.

Definition set_times (w : World) (la : list string)
    (ls : list (string * string)) : World :=
  {| threads := threads w; messages := messages w;
     participants := participants w;
     communityRoles := communityRoles w; channelRoles := channelRoles w;
     lastActive := la; lastSeen := ls; rejecting := rejecting w |}.

Definition stored_form (m : Message.t) (userId : string) (w : World)
  : Message.t :=
  {| Message.id := Some ("m" ++ Message.threadId m ++ "-new");
     Message.threadId := Message.threadId m;
     Message.threadType := Message.threadType m;
     Message.senderId := Some userId;
     Message.messageType := Message.messageType m;
     Message.content := Message.content m;
     Message.file := Message.file m |}.

Definition models : Models World :=
  {| getThread := fun tid w => answer "getThread" w (assoc tid (threads w));
     setDirectMessageThreadLastActive :=
       fun tid w => set_times w (tid :: lastActive w) (lastSeen w);
     setUserLastSeenInDirectMessageThread :=
       fun tid uid w => set_times w (lastActive w) ((tid, uid) :: lastSeen w);
     createParticipantInThread :=
       fun tid uid w => set_participants w ((tid, uid, true) :: participants w);
     createParticipantWithoutNotificationsInThread :=
       fun tid uid w => set_participants w ((tid, uid, false) :: participants w);
     storeMessage :=
       fun m uid w =>
         if rejects "storeMessage" w then (inl "storeMessage failed", w)
         else (inr (stored_form m uid w),
               set_messages w (stored_form m uid w :: messages w));
     loadThread := fun tid w => answer "loadThread" w (assoc tid (threads w));
     loadUserPermissionsInCommunity :=
       fun sid _ w =>
         answer "loadUserPermissionsInCommunity" w
           (match sid with
            | Some s => assoc s (communityRoles w)
            | None => None
            end);
     uploadImage :=
       fun f ns tid w =>
         answer "uploadImage" w
           ("https://images.example/" ++ ns ++ "/" ++ tid ++ "/" ++
            match f with Some f' => File.name f' | None => "undefined" end);
     getMessage :=
       fun id w =>
         answer "getMessage" w
           (find (fun m => same_id (Message.id m) (Some id)) (messages w));
     getUserPermissionsInCommunity :=
       fun _ uid w =>
         answer "getUserPermissionsInCommunity" w (assoc uid (communityRoles w));
     getUserPermissionsInChannel :=
       fun _ uid w =>
         answer "getUserPermissionsInChannel" w (assoc uid (channelRoles w));
     deleteMessage :=
       fun _ id w =>
         if rejects "deleteMessage" w then (inl "deleteMessage failed", w)
         else (inr tt,
               set_messages w
                 (filter (fun m => negb (same_id (Message.id m) (Some id)))
                    (messages w)));
     userHasMessagesInThread :=
       fun tid sid w =>
         answer "userHasMessagesInThread" w
           (existsb
              (fun m => String.eqb (Message.threadId m) tid
                        && same_id (Message.senderId m) sid)
              (messages w));
     deleteParticipantInThread :=
       fun tid sid w =>
         if rejects "deleteParticipantInThread" w
         then (inl "deleteParticipantInThread failed", w)
         else (inr tt,
               set_participants w
                 (filter
                    (fun p => negb (String.eqb (fst (fst p)) tid
                                    && same_id (Some (snd (fst p))) sid))
                    (participants w))) |}.

(** *** The runtime *)

Definition lower_ascii (c : ascii) : ascii :=
  let n := nat_of_ascii c in
  if (Nat.leb 65 n && Nat.leb n 90)%bool then ascii_of_nat (n + 32) else c.

Fixpoint lower (s : string) : string :=
  match s with
  | EmptyString => EmptyString
  | String c rest => String (lower_ascii c) (lower rest)
  end.

Definition quote (s : string) : string :=
  String (ascii_of_nat 34) (s ++ String (ascii_of_nat 34) EmptyString).

Fixpoint commas (l : list string) : string :=
  match l with
  | [] => ""
  | [s] => s
  | s :: rest => s ++ "," ++ commas rest
  end.

(** A serializer for documents without numbers or escapes. *)
Fixpoint stringify (v : JSON) : string :=
  match v with
  | JNull => "null"
  | JBool true => "true"
  | JBool false => "false"
  | JNum _ => "0"
  | JStr s => quote s
  | JArr elems => "[" ++ commas (map stringify elems) ++ "]"
  | JObj props =>
      "{" ++ commas (map (fun kv => quote (fst kv) ++ ":" ++ stringify (snd kv))
                       props) ++ "}"
  end.

Definition code_block (text : string) (data : list (string * JSON)) : JSON :=
  JObj [("type", JStr "code-block"); ("text", JStr text); ("data", JObj data)].

Definition plain_block (text : string) : JSON :=
  JObj [("type", JStr "unstyled"); ("text", JStr text); ("data", JObj [])].

Definition document (blocks : list JSON) : JSON :=
  JObj [("blocks", JArr blocks); ("entityMap", JObj [])].

(** The documents the parser knows. *)
Definition js_document : JSON :=
  document [code_block "const x = 1;" [("wrap", JBool true)];
            plain_block "see above"].

Definition crash_document : JSON := document [code_block "boom" []].

Definition prose_document : JSON :=
  document [code_block "lorem ipsum" [("wrap", JBool true)]].

Definition null_first_document : JSON := document [JNull].

Definition known_documents : list JSON :=
  [js_document; crash_document; prose_document; null_first_document].

Definition parse (s : string) : string + JSON :=
  match find (fun d => String.eqb s (stringify d)) known_documents with
  | Some d => inr d
  | None => inl "Unexpected token in JSON"
  end.

Definition block_text (b : JSON) : string :=
  match b with
  | JObj props =>
      match getProp "text" props with Some (JStr t) => t | _ => "" end
  | _ => ""
  end.

Definition plain_text (raw : JSON) : Exn + string :=
  match raw with
  | JObj props =>
      match getProp "blocks" props with
      | Some (JArr blocks) => inr (commas (map block_text blocks))
      | _ => inl (TypeError "blocks is not iterable")
      end
  | _ => inl (TypeError "raw content expected")
  end.

Definition detect (text : string) : Exn + string :=
  if String.prefix "const " text then inr "JavaScript"
  else if String.prefix "def " text then inr "Python"
  else if String.eqb text "boom" then inl (TypeError "detector crashed")
  else inr "Unknown".

Definition runtime : Runtime :=
  {| JSON_parse := parse;
     JSON_stringify := stringify;
     toLowerCase := lower;
     StringToNumber := fun _ => PrimFloat.nan;
     NumberToString := fun _ => "NaN";
     TypeError_message := fun e => "Cannot read properties: " ++ e;
     toPlainText_toState := plain_text;
     detectLang := detect |}.

(** *** Sample data *)

Definition alice : User.t := {| User.id := "alice" |}.
Definition bob : User.t := {| User.id := "bob" |}.
Definition carol : User.t := {| User.id := "carol" |}.

Definition channel_thread : Thread.t :=
  {| Thread.communityId := Some "c1"; Thread.channelId := Some "ch1";
     Thread.watercooler := false |}.

Definition watercooler_thread : Thread.t :=
  {| Thread.communityId := Some "c1"; Thread.channelId := Some "ch1";
     Thread.watercooler := true |}.

Definition stored (id threadId threadType senderId body : string) : Message.t :=
  {| Message.id := Some id; Message.threadId := threadId;
     Message.threadType := threadType; Message.senderId := Some senderId;
     Message.messageType := "text";
     Message.content := {| Content.body := body |}; Message.file := None |}.

Definition draft (threadId threadType messageType body : string)
    (file : option File.t) : Message.t :=
  {| Message.id := None; Message.threadId := threadId;
     Message.threadType := threadType; Message.senderId := None;
     Message.messageType := messageType;
     Message.content := {| Content.body := body |}; Message.file := file |}.

Definition moderator : Permissions.t :=
  {| Permissions.reputation := 12; Permissions.isModerator := true;
     Permissions.isOwner := false |}.

Definition member : Permissions.t :=
  {| Permissions.reputation := 3; Permissions.isModerator := false;
     Permissions.isOwner := false |}.

Definition photo : File.t :=
  {| File.name := "cat.png"; File.size := 2048; File.type := "image/png";
     File.data := Some "raw-bytes" |}.

(** alice has two messages in thread t1 and one in the direct-message thread
    d1; bob has one message in t1. carol moderates the community and is a
    plain member of the channel; bob has a community record only. *)
Definition m1 : Message.t := stored "m1" "t1" "story" "alice" "hello".
Definition m2 : Message.t := stored "m2" "t1" "story" "alice" "again".
Definition m3 : Message.t := stored "m3" "t1" "story" "bob" "hi".
Definition m4 : Message.t :=
  stored "m4" "d1" "directMessageThread" "alice" "psst".

Definition world0 : World :=
  {| threads := [("t1", channel_thread); ("w1", watercooler_thread)];
     messages := [m1; m2; m3; m4];
     participants := [("t1", "alice", true); ("t1", "bob", true)];
     communityRoles := [("carol", moderator); ("bob", member)];
     channelRoles := [("carol", member)];
     lastActive := [];
     lastSeen := [];
     rejecting := [] |}.

Definition with_rejecting (services : list string) (w : World) : World :=
  {| threads := threads w; messages := messages w;
     participants := participants w;
     communityRoles := communityRoles w; channelRoles := channelRoles w;
     lastActive := lastActive w; lastSeen := lastSeen w;
     rejecting := services |}.

Definition start (w : World) : State World := {| world := w; trace := [] |}.

(** *** Sample requests *)

Definition text_request : Message.t := draft "t1" "story" "text" "hello there" None.


Definition crash_request : Message.t :=
  draft "t1" "story" "draftjs" (stringify crash_document) None.

Definition media_request : Message.t :=
  draft "w1" "story" "media" "" (Some photo).




(** The pieces of [crash_document]. *)
Definition crash_first : list (string * JSON) :=
  [("type", JStr "code-block"); ("text", JStr "boom"); ("data", JObj [])].

Definition crash_props : list (string * JSON) :=
  [("blocks", JArr [JObj crash_first]); ("entityMap", JObj [])].

(** *** More users, records and requests *)

Definition dave : User.t := {| User.id := "dave" |}.
Definition erin : User.t := {| User.id := "erin" |}.

Definition owner : Permissions.t :=
  {| Permissions.reputation := 40; Permissions.isModerator := false;
     Permissions.isOwner := true |}.

Definition m5 : Message.t := stored "m5" "t9" "story" "alice" "lost".

(** [world0] with dave owning the channel and erin moderating it, neither
    with a community record, and with alice's message m5 in a thread t9
    that the thread store does not have. *)
Definition world1 : World :=
  {| threads := threads world0;
     messages := messages world0 ++ [m5];
     participants := participants world0;
     communityRoles := communityRoles world0;
     channelRoles := channelRoles world0 ++ [("dave", owner); ("erin", moderator)];
     lastActive := [];
     lastSeen := [];
     rejecting := [] |}.

Definition direct_request : Message.t :=
  draft "d1" "directMessageThread" "text" "psst again" None.

Definition sticker_request : Message.t :=
  draft "t1" "story" "sticker" "wave" None.

Definition broken_request : Message.t :=
  draft "t1" "story" "draftjs" "{not json" None.

(** A document that opens with an unstyled block, and a runtime whose parser
    knows it too. *)
Definition plain_first : list (string * JSON) :=
  [("type", JStr "unstyled"); ("text", JStr "just words"); ("data", JObj [])].

Definition plain_props : list (string * JSON) :=
  [("blocks", JArr [JObj plain_first]); ("entityMap", JObj [])].

Definition parse_more (s : string) : string + JSON :=
  if String.eqb s (stringify (JObj plain_props)) then inr (JObj plain_props)
  else parse s.

Definition runtime1 : Runtime :=
  {| JSON_parse := parse_more;
     JSON_stringify := stringify;
     toLowerCase := lower;
     StringToNumber := fun _ => PrimFloat.nan;
     NumberToString := fun _ => "NaN";
     TypeError_message := fun e => "Cannot read properties: " ++ e;
     toPlainText_toState := plain_text;
     detectLang := detect |}.

Definition plain_request : Message.t :=
  draft "t1" "story" "draftjs" (stringify (JObj plain_props)) None.

Definition null_first_request : Message.t :=
  draft "t1" "story" "draftjs" (stringify null_first_document) None.

Definition fileless_request : Message.t := draft "t1" "story" "media" "" None.

Definition misfiled_request : Message.t :=
  draft "t1" "directMessageThread" "text" "wrong room" None.

Definition orphan_request : Message.t := draft "t9" "story" "text" "anyone?" None.

(** A document whose block list is an object with a length that cannot be
    converted to a number, and a runtime whose parser knows it. *)
Definition odd_props : list (string * JSON) :=
  [("blocks", JObj [("length", JObj [("toString", JBool true)])])].

Definition parse_odd (s : string) : string + JSON :=
  if String.eqb s (stringify (JObj odd_props)) then inr (JObj odd_props)
  else parse s.

Definition runtime2 : Runtime :=
  {| JSON_parse := parse_odd;
     JSON_stringify := stringify;
     toLowerCase := lower;
     StringToNumber := fun _ => PrimFloat.nan;
     NumberToString := fun _ => "NaN";
     TypeError_message := fun e => "Cannot read properties: " ++ e;
     toPlainText_toState := plain_text;
     detectLang := detect |}.

Definition odd_request : Message.t :=
  draft "t1" "story" "draftjs" (stringify (JObj odd_props)) None.

(** What the store is handed for [media_request]. *)
Definition media_stored : Message.t :=
  Message.assign_content_file media_request
    {| Content.body := "https://images.example/threads/w1/cat.png" |}
    {| File.name := "cat.png"; File.size := 2048; File.type := "image/png";
       File.data := None |}.

End InMemory.

(** ** Predicates on errors, roles and traces *)

Local Open Scope list_scope.

(** The requester holds one of the four roles that allow moderation. *)
Definition has_moderation_role (channel community : Permissions.t) : bool :=
  Permissions.isOwner channel || Permissions.isOwner community
  || Permissions.isModerator channel || Permissions.isModerator community.

Definition is_participant_creation (e : Event) : bool :=
  match e with
  | EvCreateParticipantInThread _ _
  | EvCreateParticipantWithoutNotificationsInThread _ _ => true
  | _ => false
  end.

Definition is_store (e : Event) : bool :=
  match e with EvStoreMessage _ _ _ => true | _ => false end.

(** The lookups made by the permission check of [deleteMessage]. *)
Definition is_authorization_lookup (e : Event) : bool :=
  match e with
  | EvGetThread _ _
  | EvGetUserPermissionsInCommunity _ _ _
  | EvGetUserPermissionsInChannel _ _ _ => true
  | _ => false
  end.

(** The calls of the participant clean-up of [deleteMessage]. *)
Definition is_retraction (e : Event) : bool :=
  match e with
  | EvUserHasMessagesInThread _ _ _
  | EvDeleteParticipantInThread _ _ _ => true
  | _ => false
  end.

(** The calls made before classification in [addMessage]. *)
Definition is_thread_side_effect (e : Event) : bool :=
  match e with
  | EvGetThread _ _
  | EvSetDirectMessageThreadLastActive _
  | EvSetUserLastSeenInDirectMessageThread _ _
  | EvCreateParticipantInThread _ _
  | EvCreateParticipantWithoutNotificationsInThread _ _ => true
  | _ => false
  end.

(** The calls made from classification on in [addMessage]. *)
Definition is_classification (e : Event) : bool :=
  match e with
  | EvStoreMessage _ _ _
  | EvUploadImage _ _ _ _
  | EvLoadThread _ _
  | EvLoadUserPermissionsInCommunity _ _ _
  | EvConsoleError _ => true
  | _ => false
  end.


Definition is_loader (e : Event) : bool :=
  match e with
  | EvLoadThread _ _ | EvLoadUserPermissionsInCommunity _ _ _ => true
  | _ => false
  end.

Definition is_upload (e : Event) : bool :=
  match e with EvUploadImage _ _ _ _ => true | _ => false end.

Definition is_console_error (e : Event) : bool :=
  match e with EvConsoleError _ => true | _ => false end.

(** The time-stamp calls made for a message of a direct-message thread. *)
Definition direct_message_events (message : Message.t) (currentUser : User.t)
  : list Event :=
  if String.eqb (Message.threadType message) "directMessageThread"
  then [EvSetDirectMessageThreadLastActive (Message.threadId message);
        EvSetUserLastSeenInDirectMessageThread (Message.threadId message)
          (User.id currentUser)]
  else [].

(** The participant registrations made once the thread lookup answered
    [thread]. *)
Definition registration_events (message : Message.t) (currentUser : User.t)
    (thread : option Thread.t) : list Event :=
  (if String.eqb (Message.threadType message) "story"
      && Mutation.is_not_watercooler thread
   then [EvCreateParticipantInThread (Message.threadId message)
           (User.id currentUser)]
   else [])
  ++ (if Mutation.is_watercooler thread
      then [EvCreateParticipantWithoutNotificationsInThread
              (Message.threadId message) (User.id currentUser)]
      else []).

(** The store once the time-stamp calls of a direct-message thread have been
    made on [w], in the order of lines 51-52; [w] itself for any other
    message. *)
Definition direct_message_world {World : Type} (Md : Models World)
    (message : Message.t) (currentUser : User.t) (w : World) : World :=
  if String.eqb (Message.threadType message) "directMessageThread"
  then setUserLastSeenInDirectMessageThread Md (Message.threadId message)
         (User.id currentUser)
         (setDirectMessageThreadLastActive Md (Message.threadId message) w)
  else w.

(** The store once the participant registrations of lines 58-67 have been
    made on [w], the thread lookup having answered [thread]. *)
Definition registration_world {World : Type} (Md : Models World)
    (message : Message.t) (currentUser : User.t) (thread : option Thread.t)
    (w : World) : World :=
  let registered :=
    if String.eqb (Message.threadType message) "story"
       && Mutation.is_not_watercooler thread
    then createParticipantInThread Md (Message.threadId message)
           (User.id currentUser) w
    else w in
  if Mutation.is_watercooler thread
  then createParticipantWithoutNotificationsInThread Md
         (Message.threadId message) (User.id currentUser) registered
  else registered.

(** The state in which classification starts: the store and the trace left
    by the thread lookup, answered [thread] in store [w1], and by the calls
    made per thread kind. *)
Definition after_thread_calls {World : Type} (Md : Models World)
    (message : Message.t) (currentUser : User.t) (st : State World)
    (thread : option Thread.t) (w1 : World) : State World :=
  {| world :=
       registration_world Md message currentUser thread
         (direct_message_world Md message currentUser w1);
     trace :=
       trace st
       ++ EvGetThread (Message.threadId message) (inr thread)
       :: direct_message_events message currentUser
       ++ registration_events message currentUser thread |}.

(** The view attached to a stored message, from the loaded thread and the
    loaded permission record; [media] tells which of the two continuations
    builds it. *)
Definition context_view (media : bool) (thread : Thread.t)
    (permissions : option Permissions.t) : ContextPermissions.t :=
  {| ContextPermissions.communityId :=
       if media then Some (Thread.communityId thread) else None;
     ContextPermissions.reputation :=
       match permissions with
       | Some p => Permissions.reputation p | None => 0%Z end;
     ContextPermissions.isModerator :=
       match permissions with
       | Some p => Permissions.isModerator p | None => false end;
     ContextPermissions.isOwner :=
       match permissions with
       | Some p => Permissions.isOwner p | None => false end |}.


(** The metadata object written for an uploaded file. *)
Definition file_metadata (f : File.t) : File.t :=
  {| File.name := File.name f; File.size := File.size f;
     File.type := File.type f; File.data := None |}.

(** The time-stamp calls of a direct-message thread. *)
Definition is_timestamp (e : Event) : bool :=
  match e with
  | EvSetDirectMessageThreadLastActive _
  | EvSetUserLastSeenInDirectMessageThread _ _ => true
  | _ => false
  end.

(** The calls that [addMessage] has in its text. *)
Definition is_submission_call (e : Event) : bool :=
  match e with
  | EvGetThread _ _
  | EvSetDirectMessageThreadLastActive _
  | EvSetUserLastSeenInDirectMessageThread _ _
  | EvCreateParticipantInThread _ _
  | EvCreateParticipantWithoutNotificationsInThread _ _
  | EvStoreMessage _ _ _
  | EvLoadThread _ _
  | EvLoadUserPermissionsInCommunity _ _ _
  | EvUploadImage _ _ _ _
  | EvConsoleError _ => true
  | _ => false
  end.

(** The calls that [deleteMessage] has in its text. *)
Definition is_deletion_call (e : Event) : bool :=
  match e with
  | EvGetMessage _ _
  | EvGetThread _ _
  | EvGetUserPermissionsInCommunity _ _ _
  | EvGetUserPermissionsInChannel _ _ _
  | EvDeleteMessage _ _ _
  | EvUserHasMessagesInThread _ _ _
  | EvDeleteParticipantInThread _ _ _ => true
  | _ => false
  end.

(** The thread loader found nothing: the error thrown by the destructuring
    that follows. *)
Definition missing_thread (R : Runtime) (e : Event) : option Exn :=
  match e with
  | EvLoadThread _ (inr None) =>
      Some (TypeError
              (TypeError_message R
                 "{ communityId } = await loaders.thread.load(message.threadId)"))
  | _ => None
  end.

(** [halts_with f c]: [c] only appends to the trace, and a call of [c] that
    [f] maps to an error ends [c] by throwing that error. *)
Definition halts_with {World A : Type} (f : Event -> option Exn)
    (c : M World A) : Prop :=
  forall st, exists new,
    trace (snd (c st)) = trace st ++ new
    /\ forall ev err,
         In ev new -> f ev = Some err -> fst (c st) = Thrown err.

(** The message of the rejection a call was answered with, if it was. *)
Definition rejection_of (e : Event) : option string :=
  match e with
  | EvGetThread _ (inl msg)
  | EvStoreMessage _ _ (inl msg)
  | EvLoadThread _ (inl msg)
  | EvLoadUserPermissionsInCommunity _ _ (inl msg)
  | EvUploadImage _ _ _ (inl msg)
  | EvGetMessage _ (inl msg)
  | EvGetUserPermissionsInCommunity _ _ (inl msg)
  | EvGetUserPermissionsInChannel _ _ (inl msg)
  | EvDeleteMessage _ _ (inl msg)
  | EvUserHasMessagesInThread _ _ (inl msg)
  | EvDeleteParticipantInThread _ _ (inl msg) => Some msg
  | _ => None
  end.

(** A call that did not give what the request needs to go on: a rejected
    promise, or a thread loader that found nothing. *)
Definition is_failure (e : Event) : bool :=
  match rejection_of e with
  | Some _ => true
  | None => match e with EvLoadThread _ (inr None) => true | _ => false end
  end.

(** What a submission settles with once [storeMessage] has answered [r] and
    the loaders have been called as in [rest]. *)
Definition settles (media : bool) (r : Answer Message.t) (rest : list Event)
    (out : Outcome AddResult) : Prop :=
  match r with
  | inl msg => out = Returned (ErrorValue (UserError msg)) /\ rest = []
  | inr stored =>
      (Message.threadType stored = "directMessageThread" ->
       out = Returned (Plain stored) /\ rest = [])
      /\ (Message.threadType stored <> "directMessageThread" ->
          (exists text,
             out = Returned (ErrorValue (UserError text))
             /\ existsb is_failure rest = true
             /\ forall ev msg,
                  In ev rest -> rejection_of ev = Some msg -> text = msg)
          \/ (exists thread permissions,
                out = Returned
                        (Enriched stored (context_view media thread permissions))
                /\ rest
                   = [EvLoadThread (Message.threadId stored) (inr (Some thread));
                      EvLoadUserPermissionsInCommunity (Message.senderId stored)
                        (Thread.communityId thread) (inr permissions)]))
  end.


(** [emits p c]: whatever the state, [c] only appends events accepted by
    [p] to the trace. *)
Definition emits {World A : Type} (p : Event -> bool) (c : M World A) : Prop :=
  forall st, exists new,
    trace (snd (c st)) = trace st ++ new /\ forallb p new = true.

(** ** Laws of the request monad *)

Section MonadLaws.
Context {World : Type}.

Lemma bind_returned {A B} (c : M World A) (k : A -> M World B) st a st' :
  c st = (Returned a, st') -> bind c k st = k a st'.
Proof. intros H. unfold bind. rewrite H. reflexivity. Qed.

Lemma bind_thrown {A B} (c : M World A) (k : A -> M World B) st err st' :
  c st = (Thrown err, st') -> bind c k st = (Thrown err, st').
Proof. intros H. unfold bind. rewrite H. reflexivity. Qed.

Lemma call_fulfilled {A} (ev : Answer A -> Event) f (st : State World) a w :
  f (world st) = (inr a, w) ->
  call ev f st = (Returned a, {| world := w; trace := trace st ++ [ev (inr a)] |}).
Proof. intros H. unfold call. rewrite H. reflexivity. Qed.

Lemma call_rejected {A} (ev : Answer A -> Event) f (st : State World) msg w :
  f (world st) = (inl msg, w) ->
  call ev f st
  = (Thrown (UpstreamError msg),
     {| world := w; trace := trace st ++ [ev (inl msg)] |}).
Proof. intros H. unfold call. rewrite H. reflexivity. Qed.

Lemma emits_ret {A} p (a : A) : emits p (ret (World := World) a).
Proof. intros st. exists []. simpl. rewrite app_nil_r. auto. Qed.

Lemma emits_throw {A} p err : emits p (throw (World := World) (A := A) err).
Proof. intros st. exists []. simpl. rewrite app_nil_r. auto. Qed.

Lemma emits_bind {A B} p (c : M World A) (k : A -> M World B) :
  emits p c -> (forall a, emits p (k a)) -> emits p (bind c k).
Proof.
  intros Hc Hk st. unfold bind.
  destruct (Hc st) as [new1 [E1 F1]].
  destruct (c st) as [[a | err] st1]; simpl in *.
  - destruct (Hk a st1) as [new2 [E2 F2]].
    exists (new1 ++ new2). rewrite E2, E1, app_assoc, forallb_app, F1, F2. auto.
  - exists new1. auto.
Qed.

Lemma emits_catch {A} p (c : M World A) h :
  emits p c -> (forall err, emits p (h err)) -> emits p (catch c h).
Proof.
  intros Hc Hh st. unfold catch.
  destruct (Hc st) as [new1 [E1 F1]].
  destruct (c st) as [[a | err] st1]; simpl in *.
  - exists new1. auto.
  - destruct (Hh err st1) as [new2 [E2 F2]].
    exists (new1 ++ new2). rewrite E2, E1, app_assoc, forallb_app, F1, F2. auto.
Qed.

Lemma emits_call {A} p (ev : Answer A -> Event) f :
  (forall r, p (ev r) = true) -> emits (World := World) p (call ev f).
Proof.
  intros Hp st. unfold call. destruct (f (world st)) as [r w].
  exists [ev r]. destruct r; simpl; rewrite Hp; auto.
Qed.

Lemma emits_fire p ev f : p ev = true -> emits (World := World) p (fire ev f).
Proof. intros Hp st. exists [ev]. simpl. rewrite Hp. auto. Qed.

Lemma emits_console_error p err :
  p (EvConsoleError err) = true -> emits (World := World) p (console_error err).
Proof. intros Hp st. exists [EvConsoleError err]. simpl. rewrite Hp. auto. Qed.

Lemma emits_when p b (c : M World unit) : emits p c -> emits p (when b c).
Proof. intros Hc. destruct b; simpl; [exact Hc | apply emits_ret]. Qed.

Lemma emits_weaken {A} (p q : Event -> bool) (c : M World A) :
  (forall e, p e = true -> q e = true) -> emits p c -> emits q c.
Proof.
  intros Hpq Hc st. destruct (Hc st) as [new [E F]]. exists new. split; [exact E |].
  rewrite forallb_forall in *. auto.
Qed.

End MonadLaws.

Ltac emits_step :=
  first
    [ apply emits_bind; [| intros ?]
    | apply emits_catch; [| intros ?]
    | apply emits_when
    | apply emits_ret
    | apply emits_throw
    | apply emits_call; intros ?; reflexivity
    | apply emits_fire; reflexivity
    | apply emits_console_error; reflexivity ].

(** ** Facts about property reads and writes *)



Lemma differs_true_iff (a : option string) (b : string) :
  Mutation.differs a b = true <-> a <> Some b.
Proof.
  destruct a as [s |]; simpl.
  - destruct (String.eqb_spec s b) as [-> | Hne]; simpl; split; intros H;
      congruence.
  - split; intros; congruence.
Qed.

Lemma differs_same (b : string) : Mutation.differs (Some b) b = false.
Proof. simpl. rewrite String.eqb_refl. reflexivity. Qed.

(** ** Deletion *)

Section Deletion.
Context {World : Type}.
Variable R : Runtime.
Variable Md : Models World.

(** The store deletion and the clean-up either return [true] or pass on the
    rejection of one of their three calls. *)
Lemma delete_and_retract_outcome message currentUser id (st : State World) :
  fst (Mutation.delete_and_retract Md message currentUser id st) = Returned true
  \/ exists msg,
      fst (Mutation.delete_and_retract Md message currentUser id st)
      = Thrown (UpstreamError msg).
Proof.
  unfold Mutation.delete_and_retract, bind, call, ret.
  destruct (deleteMessage Md _ _ _) as [[msg | []] w1]; simpl;
    [right; eauto |].
  destruct (String.eqb _ _); [left; reflexivity |].
  destruct (userHasMessagesInThread Md _ _ _) as [[msg | [|]] w2]; simpl;
    [right; eauto | left; reflexivity |].
  destruct (deleteParticipantInThread Md _ _ _) as [[msg | []] w3]; simpl;
    [right; eauto | left; reflexivity].
Qed.

(** The first call of the store deletion is the store's [deleteMessage], made
    in the name of the requester. *)
Lemma delete_and_retract_trace message currentUser id (st : State World) :
  exists r w rest,
    deleteMessage Md (User.id currentUser) id (world st) = (r, w)
    /\ trace (snd (Mutation.delete_and_retract Md message currentUser id st))
       = trace st ++ EvDeleteMessage (User.id currentUser) id r :: rest
    /\ forallb is_retraction rest = true.
Proof.
  unfold Mutation.delete_and_retract, bind, call, ret.
  destruct (deleteMessage Md _ _ _) as [[msg | []] w1]; simpl.
  { exists (inl msg), w1, []. auto. }
  destruct (String.eqb _ _); simpl.
  { exists (inr tt), w1, []. auto. }
  destruct (userHasMessagesInThread Md _ _ _) as [[msg | [|]] w2]; simpl;
    try (eexists _, _, [_]; rewrite <- app_assoc; simpl; auto; fail).
  destruct (deleteParticipantInThread Md _ _ _) as [[msg | []] w3]; simpl;
    eexists _, _, [_; _]; rewrite <- !app_assoc; simpl; auto.
Qed.

(** When the message is found, [deleteMessage] is the permission check
    followed by the store deletion. *)
Lemma deleteMessage_found id currentUser (st : State World) message w1 :
  getMessage Md id (world st) = (inr (Some message), w1) ->
  Mutation.deleteMessage R Md id (Some currentUser) st
  = bind (Mutation.authorize R Md message currentUser)
      (fun _ => Mutation.delete_and_retract Md message currentUser id)
      {| world := w1;
         trace := trace st ++ [EvGetMessage id (inr (Some message))] |}.
Proof.
  intros Hget. unfold Mutation.deleteMessage.
  erewrite bind_returned by (apply call_fulfilled; exact Hget).
  reflexivity.
Qed.

(** The permission check only reads: the thread and the two permission
    records. *)
Lemma authorize_emits message currentUser :
  emits is_authorization_lookup (Mutation.authorize R Md message currentUser).
Proof.
  unfold Mutation.authorize.
  destruct (Mutation.differs _ _); [| emits_step].
  destruct (String.eqb _ _); [emits_step |].
  emits_step; [emits_step |].
  destruct a as [thread |]; [| emits_step].
  do 2 (emits_step; [emits_step |]). emits_step.
  - unfold Mutation.canModerate.
    destruct a0 as [channel |]; [| emits_step].
    destruct (Permissions.isOwner channel); [emits_step |].
    destruct a as [community |]; [| emits_step].
    destruct (Permissions.isOwner community); [emits_step |].
    destruct (Permissions.isModerator channel); emits_step.
  - destruct (negb _); emits_step.
Qed.

(** C4. With no authenticated user, [addMessage] returns the sign-in error
    and [deleteMessage] throws its sign-in error; in both cases the store and
    the trace are exactly as before, so nothing is stored, deleted,
    registered, retracted or time-stamped. *)
Theorem unauthenticated_requests_change_nothing
    (message : Message.t) (id : string) (st : State World) :
  Mutation.addMessage R Md message None st
  = (Returned (ErrorValue (UserError "You must be signed in to send a message.")),
     st)
  /\ Mutation.deleteMessage R Md id None st
     = (Thrown (UserError "You must be signed in to delete a message."), st).
Proof. split; reflexivity. Qed.

(** C3. A requester who is the sender of the message skips the permission
    check whatever the thread type and whatever roles the requester has: right
    after the message is fetched the store's delete is called, no thread or
    permission lookup is made, and the result is not a permission error. A
    requester who is not the sender of a direct-message-thread message gets
    the own-messages-only error, whatever roles the permission services would
    report, and nothing is deleted. *)
Theorem sender_may_delete_and_direct_messages_are_own_only
    (id : string) (currentUser : User.t) (st : State World)
    (message : Message.t) (w1 : World) :
  getMessage Md id (world st) = (inr (Some message), w1) ->
  (Message.senderId message = Some (User.id currentUser) ->
   exists r w2 rest,
     deleteMessage Md (User.id currentUser) id w1 = (r, w2)
     /\ trace (snd (Mutation.deleteMessage R Md id (Some currentUser) st))
        = trace st
          ++ EvGetMessage id (inr (Some message))
          :: EvDeleteMessage (User.id currentUser) id r :: rest
     /\ forallb (fun e => negb (is_authorization_lookup e)) rest = true
     /\ (fst (Mutation.deleteMessage R Md id (Some currentUser) st) = Returned true
         \/ exists msg,
             fst (Mutation.deleteMessage R Md id (Some currentUser) st)
             = Thrown (UpstreamError msg)))
  /\ (Message.senderId message <> Some (User.id currentUser) ->
      Message.threadType message = "directMessageThread" ->
      Mutation.deleteMessage R Md id (Some currentUser) st
      = (Thrown (UserError "You can only delete your own messages."),
         {| world := w1;
            trace := trace st ++ [EvGetMessage id (inr (Some message))] |})).
Proof.
  intros Hget. rewrite (deleteMessage_found _ _ _ _ _ Hget). split.
  - intros Hsender. unfold Mutation.authorize.
    rewrite Hsender, differs_same.
    set (st1 := {| world := w1; trace := _ |}).
    change (bind (ret tt) ?k st1) with (k tt st1). cbv beta.
    destruct (delete_and_retract_trace message currentUser id st1)
      as (r & w2 & rest & Hdel & Htrace & Hrest).
    exists r, w2, rest. repeat split.
    + exact Hdel.
    + rewrite Htrace. unfold st1. simpl. rewrite <- app_assoc. reflexivity.
    + rewrite forallb_forall in *. intros e He. specialize (Hrest e He).
      destruct e; simpl in *; congruence.
    + apply delete_and_retract_outcome.
  - intros Hother Hdm. unfold Mutation.authorize.
    apply differs_true_iff in Hother. rewrite Hother, Hdm. reflexivity.
Qed.

(** C1, amended. For a requester who is not the sender of a message in a
    thread that is not a direct-message thread, once the thread and both of
    the requester's permission records have been found: holding one of the
    four roles lets the request through to the store's delete, which returns
    [true] unless one of the store's calls is rejected; holding none ends the
    request with the no-permission error before anything is deleted. *)
Theorem moderation_role_decides_deletion
    (id : string) (currentUser : User.t) (st : State World)
    (message : Message.t) (thread : Thread.t)
    (channel community : Permissions.t) (w1 w2 w3 w4 : World) :
  getMessage Md id (world st) = (inr (Some message), w1) ->
  Message.senderId message <> Some (User.id currentUser) ->
  Message.threadType message <> "directMessageThread" ->
  getThread Md (Message.threadId message) w1 = (inr (Some thread), w2) ->
  getUserPermissionsInCommunity Md (Thread.communityId thread)
    (User.id currentUser) w2 = (inr (Some community), w3) ->
  getUserPermissionsInChannel Md (Thread.channelId thread)
    (User.id currentUser) w3 = (inr (Some channel), w4) ->
  let checked :=
    {| world := w4;
       trace :=
         trace st
         ++ [EvGetMessage id (inr (Some message));
             EvGetThread (Message.threadId message) (inr (Some thread));
             EvGetUserPermissionsInCommunity (Thread.communityId thread)
               (User.id currentUser) (inr (Some community));
             EvGetUserPermissionsInChannel (Thread.channelId thread)
               (User.id currentUser) (inr (Some channel))] |} in
  let result := Mutation.deleteMessage R Md id (Some currentUser) st in
  (has_moderation_role channel community = true ->
   result = Mutation.delete_and_retract Md message currentUser id checked
   /\ (exists r rest,
         trace (snd result)
         = trace checked ++ EvDeleteMessage (User.id currentUser) id r :: rest)
   /\ (fst result = Returned true
       \/ exists msg, fst result = Thrown (UpstreamError msg)))
  /\ (has_moderation_role channel community = false ->
      result
      = (Thrown (UserError "You don't have permission to delete this message."),
         checked))
  /\ (fst result = Returned true <->
      has_moderation_role channel community = true
      /\ fst (Mutation.delete_and_retract Md message currentUser id checked)
         = Returned true).
Proof.
  intros Hget Hother Hkind Hthread Hcommunity Hchannel checked result.
  assert (Hrun :
    result
    = if has_moderation_role channel community
      then Mutation.delete_and_retract Md message currentUser id checked
      else (Thrown (UserError "You don't have permission to delete this message."),
            checked)).
  { unfold result. rewrite (deleteMessage_found _ _ _ _ _ Hget).
    unfold Mutation.authorize.
    apply differs_true_iff in Hother. rewrite Hother.
    apply String.eqb_neq in Hkind. rewrite Hkind.
    unfold bind at 1 2. unfold call at 1. cbn [world trace].
    rewrite Hthread. cbn [world trace].
    unfold bind at 1. unfold call at 1. cbn [world trace].
    rewrite Hcommunity. cbn [world trace].
    unfold bind at 1. unfold call at 1. cbn [world trace].
    rewrite Hchannel. cbn [world trace].
    unfold checked, has_moderation_role, Mutation.canModerate, bind, ret, throw.
    rewrite <- !app_assoc. cbn [app].
    destruct (Permissions.isOwner channel), (Permissions.isOwner community),
      (Permissions.isModerator channel), (Permissions.isModerator community);
      reflexivity. }
  rewrite Hrun. split; [| split].
  - intros Hrole. rewrite Hrole. split; [reflexivity | split].
    + destruct (delete_and_retract_trace message currentUser id checked)
        as (r & w5 & rest & _ & Htrace & _).
      exists r, rest. exact Htrace.
    + apply delete_and_retract_outcome.
  - intros Hrole. rewrite Hrole. reflexivity.
  - destruct (has_moderation_role channel community); simpl.
    + tauto.
    + split; [discriminate | intros [Hr _]; discriminate].
Qed.

(** The store deletion and the clean-up, call by call: each call is made on
    the store left by the call before it, and the request ends in the state
    left by its last call. *)
Lemma delete_and_retract_exact message currentUser id (st : State World)
    (r : Answer unit) (w1 : World) :
  deleteMessage Md (User.id currentUser) id (world st) = (r, w1) ->
  let run := Mutation.delete_and_retract Md message currentUser id st in
  let deleted := [EvDeleteMessage (User.id currentUser) id r] in
  match r with
  | inl msg =>
      run = (Thrown (UpstreamError msg),
             {| world := w1; trace := trace st ++ deleted |})
  | inr _ =>
      (Message.threadType message = "directMessageThread" ->
       run = (Returned true, {| world := w1; trace := trace st ++ deleted |}))
      /\ (Message.threadType message <> "directMessageThread" ->
          forall (h : Answer bool) (w2 : World),
            userHasMessagesInThread Md (Message.threadId message)
              (Message.senderId message) w1 = (h, w2) ->
            let asked :=
              deleted
              ++ [EvUserHasMessagesInThread (Message.threadId message)
                    (Message.senderId message) h] in
            match h with
            | inl msg =>
                run = (Thrown (UpstreamError msg),
                       {| world := w2; trace := trace st ++ asked |})
            | inr true =>
                run = (Returned true,
                       {| world := w2; trace := trace st ++ asked |})
            | inr false =>
                forall (p : Answer unit) (w3 : World),
                  deleteParticipantInThread Md (Message.threadId message)
                    (Message.senderId message) w2 = (p, w3) ->
                  run
                  = (match p with
                     | inl msg => Thrown (UpstreamError msg)
                     | inr _ => Returned true
                     end,
                     {| world := w3;
                        trace :=
                          trace st
                          ++ asked
                          ++ [EvDeleteParticipantInThread
                                (Message.threadId message)
                                (Message.senderId message) p] |})
            end)
  end.
Proof.
  intros Hdel run deleted. unfold run, deleted, Mutation.delete_and_retract.
  destruct r as [msg | []].
  { erewrite bind_thrown by (apply call_rejected; exact Hdel). reflexivity. }
  erewrite bind_returned by (apply call_fulfilled; exact Hdel).
  split.
  { intros Hdm. rewrite Hdm. reflexivity. }
  intros Hdm. apply String.eqb_neq in Hdm. rewrite Hdm.
  intros h w2 Hasked. cbv zeta.
  destruct h as [msg | [|]].
  - erewrite bind_thrown by (apply call_rejected; exact Hasked).
    cbn [trace]. rewrite <- app_assoc. reflexivity.
  - erewrite bind_returned by (apply call_fulfilled; exact Hasked).
    cbn [trace]. rewrite <- app_assoc. reflexivity.
  - erewrite bind_returned by (apply call_fulfilled; exact Hasked).
    intros p w3 Hgone. destruct p as [msg | []].
    + erewrite bind_thrown by (apply call_rejected; exact Hgone).
      cbn [trace]. rewrite <- !app_assoc. reflexivity.
    + erewrite bind_returned by (apply call_fulfilled; exact Hgone).
      cbn [trace]. rewrite <- !app_assoc. reflexivity.
Qed.

(** C8. When [deleteMessage] completes, it returns [true], the permission
    check has only read, and the store's delete was carried out on the store
    the check left. For a message of a direct-message thread the request
    ends there: the final store is the one the delete left, and no clean-up
    call is made. For any other message the store is then asked, on the
    store the delete left, whether the sender still has messages in the
    thread; if so the request ends in the store that question left, with
    the participant record untouched; if not, the sender's participant
    record for the thread is deleted on that store, and the final store is
    the one this deletion left. *)
Theorem successful_deletion_retracts_last_participant
    (id : string) (currentUser : User.t) (st : State World)
    (message : Message.t) (w1 : World) (b : bool) :
  getMessage Md id (world st) = (inr (Some message), w1) ->
  fst (Mutation.deleteMessage R Md id (Some currentUser) st) = Returned b ->
  exists (auth : list Event) (w2 w3 : World),
    b = true
    /\ Mutation.authorize R Md message currentUser
         {| world := w1;
            trace := trace st ++ [EvGetMessage id (inr (Some message))] |}
       = (Returned tt,
          {| world := w2;
             trace := trace st ++ EvGetMessage id (inr (Some message)) :: auth |})
    /\ forallb is_authorization_lookup auth = true
    /\ deleteMessage Md (User.id currentUser) id w2 = (inr tt, w3)
    /\ let final := snd (Mutation.deleteMessage R Md id (Some currentUser) st) in
       let deleted :=
         trace st
         ++ EvGetMessage id (inr (Some message))
         :: auth ++ [EvDeleteMessage (User.id currentUser) id (inr tt)] in
       (Message.threadType message = "directMessageThread" ->
        final = {| world := w3; trace := deleted |})
       /\ (Message.threadType message <> "directMessageThread" ->
           exists (hasMoreMessages : bool) (w4 : World),
             userHasMessagesInThread Md (Message.threadId message)
               (Message.senderId message) w3 = (inr hasMoreMessages, w4)
             /\ (hasMoreMessages = true ->
                 final
                 = {| world := w4;
                      trace :=
                        deleted
                        ++ [EvUserHasMessagesInThread (Message.threadId message)
                              (Message.senderId message) (inr true)] |})
             /\ (hasMoreMessages = false ->
                 exists w5 : World,
                   deleteParticipantInThread Md (Message.threadId message)
                     (Message.senderId message) w4 = (inr tt, w5)
                   /\ final
                      = {| world := w5;
                           trace :=
                             deleted
                             ++ [EvUserHasMessagesInThread
                                   (Message.threadId message)
                                   (Message.senderId message) (inr false);
                                 EvDeleteParticipantInThread
                                   (Message.threadId message)
                                   (Message.senderId message) (inr tt)] |})).
Proof.
  intros Hget. rewrite (deleteMessage_found _ _ _ _ _ Hget).
  set (st1 := {| world := w1; trace := _ |}).
  destruct (authorize_emits message currentUser st1) as (auth & Hauth & Hlook).
  destruct (Mutation.authorize R Md message currentUser st1)
    as [[[] | err] [w2 t2]] eqn:Hcheck;
    [erewrite bind_returned by exact Hcheck
    | erewrite bind_thrown by exact Hcheck; discriminate].
  cbn [snd trace] in Hauth. unfold st1 in Hauth. cbn [trace] in Hauth.
  rewrite <- app_assoc in Hauth. cbn [app] in Hauth. subst t2.
  set (st2 := {| world := w2; trace := _ |}).
  destruct (deleteMessage Md (User.id currentUser) id w2) as [r w3] eqn:Hdel.
  pose proof (delete_and_retract_exact message currentUser id st2 r w3 Hdel)
    as Hrun.
  cbv zeta in Hrun.
  intros Hb.
  destruct r as [msg | []]; [rewrite Hrun in Hb; discriminate |].
  destruct Hrun as [Hdm Hother].
  exists auth, w2, w3.
  split.
  { destruct (delete_and_retract_outcome message currentUser id st2)
      as [Htrue | [msg Hthrown]]; congruence. }
  split; [reflexivity |]. split; [exact Hlook |]. split; [exact Hdel |].
  split.
  { intros Heq. rewrite (Hdm Heq). cbn [snd]. unfold st2. cbn [trace]. f_equal.
    repeat first [rewrite <- app_assoc | rewrite <- app_comm_cons].
    reflexivity. }
  intros Hne. specialize (Hother Hne).
  destruct (userHasMessagesInThread Md (Message.threadId message)
              (Message.senderId message) w3) as [h w4] eqn:Hasked.
  specialize (Hother h w4 eq_refl).
  destruct h as [msg | [|]]; [rewrite Hother in Hb; discriminate | |].
  - exists true, w4. split; [reflexivity |]. split; [| discriminate].
    intros _. rewrite Hother. cbn [snd]. unfold st2. cbn [trace]. f_equal.
    repeat first [rewrite <- app_assoc | rewrite <- app_comm_cons].
    reflexivity.
  - destruct (deleteParticipantInThread Md (Message.threadId message)
                (Message.senderId message) w4) as [p w5] eqn:Hgone.
    specialize (Hother p w5 eq_refl).
    destruct p as [msg | []]; [rewrite Hother in Hb; discriminate |].
    exists false, w4. split; [reflexivity |]. split; [discriminate |].
    intros _. exists w5. split; [exact Hgone |].
    rewrite Hother. cbn [snd]. unfold st2. cbn [trace]. f_equal.
    repeat first [rewrite <- app_assoc | rewrite <- app_comm_cons].
    reflexivity.
Qed.

End Deletion.

Ltac split_in H :=
  repeat
    match type of H with
    | In _ (_ ++ _) => apply in_app_or in H; destruct H as [H | H]
    | In _ (_ :: _) => destruct H as [H | H]
    | In _ [] => destruct H
    end.

Section PropagationLaws.
Context {World : Type}.





End PropagationLaws.


(** ** Submission *)

Lemma filter_rejected {A} (p q : A -> bool) (l : list A) :
  forallb p l = true -> (forall a, p a = true -> q a = false) ->
  filter q l = [].
Proof.
  intros Hall Hpq. induction l as [| a l IH]; simpl in *; [reflexivity |].
  apply andb_true_iff in Hall. destruct Hall as [Ha Hl].
  rewrite (Hpq a Ha). auto.
Qed.

Lemma forallb_not_in {A} (p : A -> bool) (l : list A) (a : A) :
  forallb p l = true -> p a = false -> ~ In a l.
Proof.
  intros Hall Ha Hin. rewrite forallb_forall in Hall.
  rewrite (Hall a Hin) in Ha. discriminate.
Qed.

Section Submission.
Context {World : Type}.
Variable R : Runtime.
Variable Md : Models World.

(** The calls made before classification, exactly, from the answer of the
    thread lookup. *)
Lemma thread_side_effects_run message currentUser (st : State World) r w1 :
  getThread Md (Message.threadId message) (world st) = (r, w1) ->
  match r with
  | inl msg =>
      Mutation.thread_side_effects Md message currentUser st
      = (Thrown (UpstreamError msg),
         {| world := w1;
            trace := trace st ++ [EvGetThread (Message.threadId message) (inl msg)] |})
  | inr thread =>
      exists w2,
        Mutation.thread_side_effects Md message currentUser st
        = (Returned tt,
           {| world := w2;
              trace :=
                trace st
                ++ EvGetThread (Message.threadId message) (inr thread)
                :: direct_message_events message currentUser
                ++ registration_events message currentUser thread |})
  end.
Proof.
  intros Hget. unfold Mutation.thread_side_effects.
  destruct r as [msg | thread].
  - erewrite bind_thrown by (apply call_rejected; exact Hget). reflexivity.
  - erewrite bind_returned by (apply call_fulfilled; exact Hget).
    unfold direct_message_events, registration_events, bind, when, fire, ret.
    destruct (String.eqb (Message.threadType message) "directMessageThread");
      destruct (String.eqb (Message.threadType message) "story"
                && Mutation.is_not_watercooler thread);
      destruct (Mutation.is_watercooler thread);
      cbn [world trace]; eexists; rewrite <- ?app_assoc; reflexivity.
Qed.

Lemma guess_language_emits parsedMessage :
  emits (World := World) is_console_error
    (Mutation.guess_language R parsedMessage).
Proof.
  unfold Mutation.guess_language.
  destruct (toPlainText_toState R parsedMessage) as [err | text].
  - emits_step; emits_step.
  - destruct (detectLang R text) as [err | lang];
      [emits_step; emits_step | emits_step].
Qed.

(** The [draftjs] branch calls no collaborator; it only prints the
    detector's error. *)
Lemma tag_code_language_emits message :
  emits (World := World) is_console_error
    (Mutation.tag_code_language R message).
Proof.
  unfold Mutation.tag_code_language.
  destruct (JSON_parse R _) as [msg | parsedMessage]; [emits_step |].
  emits_step.
  - destruct parsedMessage; emits_step.
  - destruct (has_positive_length R a) as [[|] |]; try emits_step.
    destruct (type_is_code_block _) as [[|] |]; try emits_step.
    + apply guess_language_emits.
    + destruct (lang_is_known a0); [| emits_step].
      destruct a0; emits_step.
Qed.

Lemma attach_context_permissions_emits message :
  emits is_classification (Mutation.attach_context_permissions R Md message).
Proof.
  unfold Mutation.attach_context_permissions.
  destruct (String.eqb _ _); [emits_step |].
  emits_step; [emits_step |].
  destruct a as [thread |]; [| emits_step].
  emits_step; emits_step.
Qed.

Lemma attach_context_permissions_media_emits message :
  emits is_classification
    (Mutation.attach_context_permissions_media R Md message).
Proof.
  unfold Mutation.attach_context_permissions_media.
  destruct (String.eqb _ _); [emits_step |].
  emits_step; [emits_step |].
  destruct a as [thread |]; [| emits_step].
  emits_step; emits_step.
Qed.

(** From classification on, no call touches the thread's time stamps or its
    participants. *)
Lemma classify_and_store_emits message currentUser :
  emits is_classification
    (Mutation.classify_and_store R Md message currentUser).
Proof.
  unfold Mutation.classify_and_store.
  destruct (String.eqb _ "text" || String.eqb _ "draftjs").
  - emits_step.
    + destruct (String.eqb _ _); [| emits_step].
      apply (emits_weaken is_console_error); [| apply tag_code_language_emits].
      intros []; simpl; congruence.
    + emits_step; [| unfold Mutation.as_user_error; emits_step].
      emits_step; [emits_step | apply attach_context_permissions_emits].
  - destruct (String.eqb _ "media"); [| emits_step].
    emits_step; [| unfold Mutation.as_user_error; emits_step].
    emits_step; [emits_step |].
    emits_step.
    { unfold Mutation.build_media_message.
      destruct (Message.file message); emits_step. }
    emits_step; [emits_step | apply attach_context_permissions_media_emits].
Qed.

(** The thread calls, exactly: they leave the store on which the time stamps
    and the registration of the thread kind have been carried out. *)
Lemma thread_side_effects_exact message currentUser (st : State World)
    thread w1 :
  getThread Md (Message.threadId message) (world st) = (inr thread, w1) ->
  Mutation.thread_side_effects Md message currentUser st
  = (Returned tt, after_thread_calls Md message currentUser st thread w1).
Proof.
  intros Hget. unfold Mutation.thread_side_effects.
  erewrite bind_returned by (apply call_fulfilled; exact Hget).
  unfold after_thread_calls, direct_message_world, registration_world,
    direct_message_events, registration_events, bind, when, fire, ret.
  destruct (String.eqb (Message.threadType message) "directMessageThread");
    destruct (String.eqb (Message.threadType message) "story"
              && Mutation.is_not_watercooler thread);
    destruct (Mutation.is_watercooler thread);
    cbn [world trace]; rewrite <- ?app_assoc; reflexivity.
Qed.

(** Once the thread lookup has answered, a signed-in submission is
    classification started in the state the thread calls left. *)
Lemma addMessage_exact message currentUser (st : State World) thread w1 :
  getThread Md (Message.threadId message) (world st) = (inr thread, w1) ->
  Mutation.addMessage R Md message (Some currentUser) st
  = Mutation.classify_and_store R Md message currentUser
      (after_thread_calls Md message currentUser st thread w1).
Proof.
  intros Hget. unfold Mutation.addMessage.
  erewrite bind_returned by (apply thread_side_effects_exact; exact Hget).
  reflexivity.
Qed.

(** C5. Once the thread lookup has answered: a [story] message into an
    existing thread that is not a watercooler registers the sender as a
    participant with notifications, and that is the only registration:
    classification starts on the store that [createParticipantInThread]
    left. A message into an existing watercooler thread registers the sender
    without notifications, and that is the only registration: classification
    starts on the store that [createParticipantWithoutNotificationsInThread]
    left. No submission makes both registrations. When the thread does not
    exist, or exists, is no watercooler and the message is no [story]
    message, no registration is made: classification starts on the store
    that the lookup and the time stamps left. *)
Theorem participant_registration_follows_thread_kind
    (message : Message.t) (currentUser : User.t) (st : State World)
    (r : Answer (option Thread.t)) (w1 : World) :
  getThread Md (Message.threadId message) (world st) = (r, w1) ->
  let run := Mutation.addMessage R Md message (Some currentUser) st in
  let classify := Mutation.classify_and_store R Md message currentUser in
  let timed := direct_message_world Md message currentUser w1 in
  let looked := fun thread : option Thread.t =>
    trace st
    ++ EvGetThread (Message.threadId message) (inr thread)
    :: direct_message_events message currentUser in
  (exists new,
     trace (snd run) = trace st ++ new
     /\ (forall thread,
           r = inr (Some thread) ->
           Message.threadType message = "story" ->
           Thread.watercooler thread = false ->
           filter is_participant_creation new
           = [EvCreateParticipantInThread (Message.threadId message)
                (User.id currentUser)])
     /\ (forall thread,
           r = inr (Some thread) ->
           Thread.watercooler thread = true ->
           filter is_participant_creation new
           = [EvCreateParticipantWithoutNotificationsInThread
                (Message.threadId message) (User.id currentUser)])
     /\ (forall threadId userId threadId' userId',
           ~ (In (EvCreateParticipantInThread threadId userId) new
              /\ In (EvCreateParticipantWithoutNotificationsInThread
                       threadId' userId') new))
     /\ (r = inr None -> filter is_participant_creation new = []))
  /\ (forall thread,
        r = inr (Some thread) ->
        Message.threadType message = "story" ->
        Thread.watercooler thread = false ->
        run
        = classify
            {| world :=
                 createParticipantInThread Md (Message.threadId message)
                   (User.id currentUser) w1;
               trace :=
                 trace st
                 ++ [EvGetThread (Message.threadId message) (inr (Some thread));
                     EvCreateParticipantInThread (Message.threadId message)
                       (User.id currentUser)] |})
  /\ (forall thread,
        r = inr (Some thread) ->
        Thread.watercooler thread = true ->
        run
        = classify
            {| world :=
                 createParticipantWithoutNotificationsInThread Md
                   (Message.threadId message) (User.id currentUser) timed;
               trace :=
                 looked (Some thread)
                 ++ [EvCreateParticipantWithoutNotificationsInThread
                       (Message.threadId message) (User.id currentUser)] |})
  /\ (r = inr None ->
      run = classify {| world := timed; trace := looked None |})
  /\ (forall thread,
        r = inr (Some thread) ->
        Message.threadType message <> "story" ->
        Thread.watercooler thread = false ->
        run = classify {| world := timed; trace := looked (Some thread) |}).
Proof.
  intros Hget run classify timed looked.
  assert (Hexact : forall thread,
            r = inr thread ->
            run = classify (after_thread_calls Md message currentUser st thread w1)).
  { intros thread ->. apply addMessage_exact. exact Hget. }
  split; [| split; [| split; [| split]]].
  2:{ intros thread Hr Hstory Hwater. rewrite (Hexact _ Hr).
      unfold after_thread_calls, registration_world, direct_message_world,
        registration_events, direct_message_events.
      rewrite Hstory. cbn. rewrite Hwater. reflexivity. }
  2:{ intros thread Hr Hwater. rewrite (Hexact _ Hr).
      unfold after_thread_calls, registration_world, registration_events,
        looked, timed.
      cbn [Mutation.is_watercooler Mutation.is_not_watercooler].
      rewrite Hwater, andb_false_r. cbn [negb app].
      rewrite <- app_assoc. reflexivity. }
  2:{ intros Hr. rewrite (Hexact _ Hr).
      unfold after_thread_calls, registration_world, registration_events,
        looked, timed.
      cbn [Mutation.is_watercooler Mutation.is_not_watercooler].
      rewrite andb_false_r. cbn [app]. rewrite app_nil_r. reflexivity. }
  2:{ intros thread Hr Hstory Hwater. rewrite (Hexact _ Hr).
      apply String.eqb_neq in Hstory.
      unfold after_thread_calls, registration_world, registration_events,
        looked, timed.
      cbn [Mutation.is_watercooler Mutation.is_not_watercooler].
      rewrite Hstory, Hwater. cbn [andb app]. rewrite app_nil_r.
      reflexivity. }
  assert (Hnew : exists new,
    trace (snd (Mutation.addMessage R Md message (Some currentUser) st))
    = trace st ++ new
    /\ filter is_participant_creation new
       = match r with
         | inr thread => registration_events message currentUser thread
         | inl _ => []
         end).
  { unfold Mutation.addMessage.
    pose proof (thread_side_effects_run message currentUser st r w1 Hget) as Hrun.
    destruct r as [msg | thread].
    - erewrite bind_thrown by exact Hrun. eexists. split; reflexivity.
    - destruct Hrun as [w2 Hrun]. erewrite bind_returned by exact Hrun.
      match goal with |- context [Mutation.classify_and_store _ _ _ _ ?s] =>
        destruct (classify_and_store_emits message currentUser s)
          as (rest & Hrest & Hclass) end.
      rewrite Hrest. cbn [trace]. rewrite <- app_assoc. cbn [app].
      eexists. split; [reflexivity |].
      cbn [filter is_participant_creation]. rewrite !filter_app.
      rewrite (filter_rejected is_classification is_participant_creation rest Hclass)
        by (intros []; simpl; congruence).
      rewrite app_nil_r.
      unfold direct_message_events, registration_events.
      destruct (String.eqb (Message.threadType message) "directMessageThread");
        destruct (String.eqb (Message.threadType message) "story"
                  && Mutation.is_not_watercooler thread);
        destruct (Mutation.is_watercooler thread); reflexivity. }
  destruct Hnew as (new & Htrace & Hfilter). exists new.
  split; [exact Htrace |]. split; [| split; [| split]].
  - intros thread -> Hstory Hwater. rewrite Hfilter.
    unfold registration_events. simpl. rewrite Hstory, Hwater. reflexivity.
  - intros thread -> Hwater. rewrite Hfilter.
    unfold registration_events. simpl. rewrite Hwater, andb_false_r. reflexivity.
  - intros threadId userId threadId' userId' [Hcreate Hquiet].
    assert (Hc : In (EvCreateParticipantInThread threadId userId)
                   (filter is_participant_creation new))
      by (apply filter_In; auto).
    assert (Hq : In (EvCreateParticipantWithoutNotificationsInThread
                       threadId' userId')
                   (filter is_participant_creation new))
      by (apply filter_In; auto).
    rewrite Hfilter in Hc, Hq. destruct r as [msg | thread]; [contradiction |].
    unfold registration_events in Hc, Hq.
    destruct thread as [thread |]; simpl in Hc, Hq.
    + destruct (Thread.watercooler thread);
        rewrite ?andb_false_r, ?andb_true_r in Hc, Hq;
        destruct (String.eqb (Message.threadType message) "story");
        simpl in Hc, Hq; intuition discriminate.
    + rewrite andb_false_r in Hc. contradiction.
  - intros ->. rewrite Hfilter. unfold registration_events. simpl.
    rewrite andb_false_r. reflexivity.
Qed.

(** The two continuations that follow [storeMessage], case by case. *)
Lemma attach_run (media : bool) stored (st : State World) :
  let c :=
    if media then Mutation.attach_context_permissions_media R Md stored
    else Mutation.attach_context_permissions R Md stored in
  exists rest,
    trace (snd (c st)) = trace st ++ rest
    /\ forallb is_loader rest = true
    /\ (Message.threadType stored = "directMessageThread" ->
        fst (c st) = Returned (Plain stored) /\ rest = [])
    /\ (Message.threadType stored <> "directMessageThread" ->
        (exists err,
           fst (c st) = Thrown err
           /\ existsb is_failure rest = true
           /\ forall ev msg,
                In ev rest -> rejection_of ev = Some msg ->
                err = UpstreamError msg)
        \/ (exists thread permissions,
              fst (c st)
              = Returned (Enriched stored (context_view media thread permissions))
              /\ rest
                 = [EvLoadThread (Message.threadId stored) (inr (Some thread));
                    EvLoadUserPermissionsInCommunity (Message.senderId stored)
                      (Thread.communityId thread) (inr permissions)])).
Proof.
  assert (Hboth : forall c,
    c = Mutation.attach_context_permissions_media R Md stored /\ media = true
    \/ c = Mutation.attach_context_permissions R Md stored /\ media = false ->
    exists rest,
      trace (snd (c st)) = trace st ++ rest
      /\ forallb is_loader rest = true
      /\ (Message.threadType stored = "directMessageThread" ->
          fst (c st) = Returned (Plain stored) /\ rest = [])
      /\ (Message.threadType stored <> "directMessageThread" ->
          (exists err,
             fst (c st) = Thrown err
             /\ existsb is_failure rest = true
             /\ forall ev msg,
                  In ev rest -> rejection_of ev = Some msg ->
                  err = UpstreamError msg)
          \/ (exists thread permissions,
                fst (c st)
                = Returned (Enriched stored (context_view media thread permissions))
                /\ rest
                   = [EvLoadThread (Message.threadId stored) (inr (Some thread));
                      EvLoadUserPermissionsInCommunity (Message.senderId stored)
                        (Thread.communityId thread) (inr permissions)]))).
  { intros c [[-> ->] | [-> ->]];
      unfold Mutation.attach_context_permissions_media,
        Mutation.attach_context_permissions, bind, call, ret, throw;
      (destruct (String.eqb_spec (Message.threadType stored) "directMessageThread")
         as [Hdm | Hdm];
       [ exists []; cbn; rewrite app_nil_r; repeat split; tauto |]);
      (destruct (loadThread Md _ _) as [[msg | [thread |]] w1]; cbn [world trace];
       [ eexists; cbn; repeat split; [contradiction.. |];
         intros _; left; eexists; repeat split;
         intros ev m [<- | []] He; cbn in He; congruence
       | 
       | eexists; cbn; repeat split; [contradiction.. |];
         intros _; left; eexists; repeat split;
         intros ev m [<- | []] He; cbn in He; congruence ]);
      (destruct (loadUserPermissionsInCommunity Md _ _ _)
         as [[msg | permissions] w2]; cbn [world trace fst snd];
       rewrite <- app_assoc; cbn [app];
       eexists; (split; [reflexivity |]); (split; [reflexivity |]);
       (split; [contradiction |]); intros _;
       [ left; eexists; repeat split;
         intros ev m [<- | [<- | []]] He; cbn in He; congruence
       | right; exists thread, permissions; split; reflexivity ]). }
  intros c. apply Hboth. unfold c. destruct media; auto.
Qed.

(** [storeMessage] followed by one of the two continuations. *)
Lemma store_then_attach_run (media : bool) m userId (st : State World) :
  let c :=
    bind (call (EvStoreMessage m userId) (storeMessage Md m userId))
      (fun stored =>
         if media then Mutation.attach_context_permissions_media R Md stored
         else Mutation.attach_context_permissions R Md stored) in
  exists r rest,
    trace (snd (c st)) = trace st ++ EvStoreMessage m userId r :: rest
    /\ forallb is_loader rest = true
    /\ match r with
       | inl msg => fst (c st) = Thrown (UpstreamError msg) /\ rest = []
       | inr stored =>
           (Message.threadType stored = "directMessageThread" ->
            fst (c st) = Returned (Plain stored) /\ rest = [])
           /\ (Message.threadType stored <> "directMessageThread" ->
               (exists err,
                  fst (c st) = Thrown err
                  /\ existsb is_failure rest = true
                  /\ forall ev msg,
                       In ev rest -> rejection_of ev = Some msg ->
                       err = UpstreamError msg)
               \/ (exists thread permissions,
                     fst (c st)
                     = Returned
                         (Enriched stored (context_view media thread permissions))
                     /\ rest
                        = [EvLoadThread (Message.threadId stored)
                             (inr (Some thread));
                           EvLoadUserPermissionsInCommunity
                             (Message.senderId stored)
                             (Thread.communityId thread) (inr permissions)]))
       end.
Proof.
  intros c.
  destruct (storeMessage Md m userId (world st)) as [[msg | stored] w1] eqn:Hs.
  - assert (Hc : c st
                 = (Thrown (UpstreamError msg),
                    {| world := w1;
                       trace := trace st ++ [EvStoreMessage m userId (inl msg)] |})).
    { unfold c. erewrite bind_thrown by (apply call_rejected; exact Hs).
      reflexivity. }
    rewrite Hc. exists (inl msg), []. cbn. auto.
  - set (st1 := {| world := w1;
                   trace := trace st ++ [EvStoreMessage m userId (inr stored)] |}).
    assert (Hc : c st
                 = (if media
                    then Mutation.attach_context_permissions_media R Md stored
                    else Mutation.attach_context_permissions R Md stored) st1).
    { unfold c. erewrite bind_returned by (apply call_fulfilled; exact Hs).
      reflexivity. }
    rewrite Hc.
    destruct (attach_run media stored st1) as (rest & Htrace & Hload & Hdm & Hother).
    exists (inr stored), rest. rewrite Htrace. unfold st1. cbn [trace].
    rewrite <- app_assoc. cbn [app]. auto.
Qed.

Lemma catch_bind_returned {A B} (c : M World A) (k : A -> M World B) h st a st' :
  c st = (Returned a, st') -> catch (bind c k) h st = catch (k a) h st'.
Proof. intros H. unfold catch, bind. rewrite H. reflexivity. Qed.

Lemma catch_bind_thrown {A B} (c : M World A) (k : A -> M World B) h st err st' :
  c st = (Thrown err, st') -> catch (bind c k) h st = h err st'.
Proof. intros H. unfold catch, bind. rewrite H. reflexivity. Qed.

(** The promise chain from [storeMessage] to [catch]. *)
Lemma caught_store_run (media : bool) m userId (st : State World) :
  let c :=
    catch
      (bind (call (EvStoreMessage m userId) (storeMessage Md m userId))
         (fun stored =>
            if media then Mutation.attach_context_permissions_media R Md stored
            else Mutation.attach_context_permissions R Md stored))
      Mutation.as_user_error in
  exists r rest,
    trace (snd (c st)) = trace st ++ EvStoreMessage m userId r :: rest
    /\ forallb is_loader rest = true
    /\ settles media r rest (fst (c st)).
Proof.
  intros c. unfold c, catch.
  destruct (store_then_attach_run media m userId st) as (r & rest & Htrace & Hload & Hout).
  cbv zeta in Htrace, Hout.
  destruct (bind _ _ st) as [[res | err] st1]; cbn [fst snd] in *;
    exists r, rest; (split; [exact Htrace |]); (split; [exact Hload |]);
    unfold settles; destruct r as [msg | stored].
  - destruct Hout; discriminate.
  - destruct Hout as [Hdm Hother]. split; [exact Hdm |].
    intros Hne. destruct (Hother Hne) as [(err & He & _) | Hgood];
      [discriminate | right; exact Hgood].
  - destruct Hout as [He ->]. injection He as ->. auto.
  - destruct Hout as [Hdm Hother]. split.
    + intros Heq. destruct (Hdm Heq); discriminate.
    + intros Hne. destruct (Hother Hne) as [(err' & He & Hfail & Hrej) | Hgood].
      * injection He as <-. left. exists (message_of err). repeat split; auto.
        intros ev msg Hin Hr. rewrite (Hrej ev msg Hin Hr). reflexivity.
      * destruct Hgood as (? & ? & ? & _). discriminate.
Qed.

(** Classification, persistence and enrichment, case by case: either no
    message reaches [storeMessage], or exactly one does and the request
    settles on the store's and the loaders' answers. *)
Lemma classify_and_store_run message currentUser (st : State World) :
  let run := Mutation.classify_and_store R Md message currentUser st in
  (exists pre,
     trace (snd run) = trace st ++ pre
     /\ forallb (fun e => is_console_error e || is_upload e) pre = true)
  \/ (exists pre m r rest,
        trace (snd run)
        = trace st ++ pre ++ EvStoreMessage m (User.id currentUser) r :: rest
        /\ forallb (fun e => is_console_error e || is_upload e) pre = true
        /\ forallb is_loader rest = true
        /\ settles (String.eqb (Message.messageType message) "media") r rest
             (fst run)
        /\ (Message.messageType message = "media" ->
            exists url f,
              pre = [EvUploadImage (Message.file message) "threads"
                       (Message.threadId message) (inr url)]
              /\ Message.file message = Some f
              /\ m = Message.assign_content_file message
                       {| Content.body := url |} (file_metadata f))
        /\ (Message.messageType message = "text" -> pre = [] /\ m = message)).
Proof.
  intros run. unfold run, Mutation.classify_and_store.
  destruct (String.eqb_spec (Message.messageType message) "text") as [Htext | Htext];
    cbn [orb].
  { right.
    change (bind (ret message) ?k st) with (k message st). cbv beta.
    destruct (caught_store_run false message (User.id currentUser) st)
      as (r & rest & Htrace & Hload & Hout).
    exists [], message, r, rest. cbn [app]. rewrite Htext. cbn.
    repeat split; auto. intros Hmedia; discriminate. }
  destruct (String.eqb_spec (Message.messageType message) "draftjs") as [Hdraft | Hdraft].
  { destruct (tag_code_language_emits message st) as (log & Hlog & Hconsole).
    assert (Hpre : forallb (fun e => is_console_error e || is_upload e) log = true).
    { rewrite forallb_forall in *. intros e He. rewrite (Hconsole e He). reflexivity. }
    destruct (Mutation.tag_code_language R message st) as [[m | err] st1] eqn:Htag;
      cbn [snd] in Hlog;
      [erewrite bind_returned by exact Htag | erewrite bind_thrown by exact Htag].
    - right.
      destruct (caught_store_run false m (User.id currentUser) st1)
        as (r & rest & Htrace & Hload & Hout).
      exists log, m, r, rest. rewrite Hdraft. cbn [String.eqb].
      cbv zeta in Htrace, Hout. rewrite Htrace, Hlog, <- app_assoc.
      repeat split; auto; intros; congruence.
    - left. exists log. auto. }
  destruct (String.eqb_spec (Message.messageType message) "media") as [Hmedia | Hmedia].
  { destruct (uploadImage Md (Message.file message) "threads"
                (Message.threadId message) (world st)) as [[msg | url] w1] eqn:Hup.
    - left. erewrite catch_bind_thrown by (apply call_rejected; exact Hup).
      eexists. split; reflexivity.
    - erewrite catch_bind_returned by (apply call_fulfilled; exact Hup).
      unfold Mutation.build_media_message.
      destruct (Message.file message) as [f |] eqn:Hfile.
      + right. set (st1 := {| world := w1; trace := _ |}).
        erewrite catch_bind_returned by reflexivity.
        destruct (caught_store_run true
                    (Message.assign_content_file message {| Content.body := url |}
                       (file_metadata f)) (User.id currentUser) st1)
          as (r & rest & Htrace & Hload & Hout).
        cbv zeta in Htrace, Hout. unfold file_metadata in *.
        eexists _, _, r, rest. rewrite Htrace. unfold st1. cbn [trace].
        rewrite <- app_assoc.
        split; [reflexivity |]. split; [reflexivity |]. split; [exact Hload |].
        split; [exact Hout |]. split; [| intros; congruence].
        intros _. exists url, f. auto.
      + left. erewrite catch_bind_thrown by reflexivity.
        eexists. split; reflexivity. }
  left. exists []. cbn. rewrite app_nil_r. auto.
Qed.

Lemma side_effect_events message currentUser thread :
  forallb is_thread_side_effect
    (EvGetThread (Message.threadId message) (inr thread)
     :: direct_message_events message currentUser
     ++ registration_events message currentUser thread) = true.
Proof.
  unfold direct_message_events, registration_events.
  destruct (String.eqb (Message.threadType message) "directMessageThread");
    destruct (String.eqb (Message.threadType message) "story"
              && Mutation.is_not_watercooler thread);
    destruct (Mutation.is_watercooler thread); reflexivity.
Qed.

(** A whole submission by a signed-in user: the thread calls, then either
    nothing is stored or exactly one message is. *)
Lemma addMessage_run message currentUser (st : State World) :
  let run := Mutation.addMessage R Md message (Some currentUser) st in
  exists side,
    forallb is_thread_side_effect side = true
    /\ ((exists pre,
           trace (snd run) = trace st ++ side ++ pre
           /\ forallb (fun e => is_console_error e || is_upload e) pre = true)
        \/ (exists pre m r rest,
              trace (snd run)
              = trace st ++ side ++ pre
                ++ EvStoreMessage m (User.id currentUser) r :: rest
              /\ forallb (fun e => is_console_error e || is_upload e) pre = true
              /\ forallb is_loader rest = true
              /\ settles (String.eqb (Message.messageType message) "media") r
                   rest (fst run)
              /\ (Message.messageType message = "media" ->
                  exists url f,
                    pre = [EvUploadImage (Message.file message) "threads"
                             (Message.threadId message) (inr url)]
                    /\ Message.file message = Some f
                    /\ m = Message.assign_content_file message
                             {| Content.body := url |} (file_metadata f))
              /\ (Message.messageType message = "text" ->
                  pre = [] /\ m = message))).
Proof.
  intros run. unfold run, Mutation.addMessage.
  destruct (getThread Md (Message.threadId message) (world st)) as [r w1] eqn:Hget.
  pose proof (thread_side_effects_run message currentUser st r w1 Hget) as Hside.
  destruct r as [msg | thread].
  - erewrite bind_thrown by exact Hside.
    exists [EvGetThread (Message.threadId message) (inl msg)].
    split; [reflexivity |]. left. exists []. rewrite app_nil_r. auto.
  - destruct Hside as [w2 Hside]. erewrite bind_returned by exact Hside.
    eexists. split; [apply (side_effect_events message currentUser thread) |].
    match goal with |- context [Mutation.classify_and_store _ _ _ _ ?s] =>
      destruct (classify_and_store_run message currentUser s)
        as [(pre & Htrace & Hpre) | (pre & m & r & rest & Htrace & Hrest)] end;
      cbv zeta in *; cbn [trace] in Htrace; rewrite <- app_assoc in Htrace.
    + left. exists pre. auto.
    + right. exists pre, m, r, rest. auto.
Qed.

(** The promise chain from [storeMessage] to [catch], exactly: the store's
    answer is logged, the store it left is kept, and a rejection comes back
    as a user error. *)
Lemma caught_store_exact (media : bool) m userId (st : State World) r w :
  storeMessage Md m userId (world st) = (r, w) ->
  catch
    (bind (call (EvStoreMessage m userId) (storeMessage Md m userId))
       (fun stored =>
          if media then Mutation.attach_context_permissions_media R Md stored
          else Mutation.attach_context_permissions R Md stored))
    Mutation.as_user_error st
  = match r with
    | inl msg =>
        (Returned (ErrorValue (UserError msg)),
         {| world := w; trace := trace st ++ [EvStoreMessage m userId r] |})
    | inr stored =>
        catch
          (if media then Mutation.attach_context_permissions_media R Md stored
           else Mutation.attach_context_permissions R Md stored)
          Mutation.as_user_error
          {| world := w; trace := trace st ++ [EvStoreMessage m userId r] |}
    end.
Proof.
  intros Hstore. destruct r as [msg | stored].
  - erewrite catch_bind_thrown by (apply call_rejected; exact Hstore).
    reflexivity.
  - erewrite catch_bind_returned by (apply call_fulfilled; exact Hstore).
    reflexivity.
Qed.

(** The continuation after [storeMessage] under its [catch], exactly, from
    the answers of the two loaders. *)
Lemma enrichment_exact (media : bool) stored (st : State World) :
  let c :=
    catch
      (if media then Mutation.attach_context_permissions_media R Md stored
       else Mutation.attach_context_permissions R Md stored)
      Mutation.as_user_error in
  (Message.threadType stored = "directMessageThread" ->
   c st = (Returned (Plain stored), st))
  /\ (Message.threadType stored <> "directMessageThread" ->
      forall (r : Answer (option Thread.t)) (w1 : World),
        loadThread Md (Message.threadId stored) (world st) = (r, w1) ->
        match r with
        | inl msg =>
            c st
            = (Returned (ErrorValue (UserError msg)),
               {| world := w1;
                  trace :=
                    trace st ++ [EvLoadThread (Message.threadId stored) r] |})
        | inr None =>
            c st
            = (Returned
                 (ErrorValue
                    (UserError
                       (TypeError_message R
                          "{ communityId } = await loaders.thread.load(message.threadId)"))),
               {| world := w1;
                  trace :=
                    trace st ++ [EvLoadThread (Message.threadId stored) r] |})
        | inr (Some thread) =>
            forall (p : Answer (option Permissions.t)) (w2 : World),
              loadUserPermissionsInCommunity Md (Message.senderId stored)
                (Thread.communityId thread) w1 = (p, w2) ->
              c st
              = (match p with
                 | inl msg => Returned (ErrorValue (UserError msg))
                 | inr permissions =>
                     Returned
                       (Enriched stored (context_view media thread permissions))
                 end,
                 {| world := w2;
                    trace :=
                      trace st
                      ++ [EvLoadThread (Message.threadId stored) r;
                          EvLoadUserPermissionsInCommunity
                            (Message.senderId stored)
                            (Thread.communityId thread) p] |})
        end).
Proof.
  assert (Hboth : forall c,
    c = Mutation.attach_context_permissions_media R Md stored /\ media = true
    \/ c = Mutation.attach_context_permissions R Md stored /\ media = false ->
    (Message.threadType stored = "directMessageThread" ->
     catch c Mutation.as_user_error st = (Returned (Plain stored), st))
    /\ (Message.threadType stored <> "directMessageThread" ->
        forall (r : Answer (option Thread.t)) (w1 : World),
          loadThread Md (Message.threadId stored) (world st) = (r, w1) ->
          match r with
          | inl msg =>
              catch c Mutation.as_user_error st
              = (Returned (ErrorValue (UserError msg)),
                 {| world := w1;
                    trace :=
                      trace st ++ [EvLoadThread (Message.threadId stored) r] |})
          | inr None =>
              catch c Mutation.as_user_error st
              = (Returned
                   (ErrorValue
                      (UserError
                         (TypeError_message R
                            "{ communityId } = await loaders.thread.load(message.threadId)"))),
                 {| world := w1;
                    trace :=
                      trace st ++ [EvLoadThread (Message.threadId stored) r] |})
          | inr (Some thread) =>
              forall (p : Answer (option Permissions.t)) (w2 : World),
                loadUserPermissionsInCommunity Md (Message.senderId stored)
                  (Thread.communityId thread) w1 = (p, w2) ->
                catch c Mutation.as_user_error st
                = (match p with
                   | inl msg => Returned (ErrorValue (UserError msg))
                   | inr permissions =>
                       Returned
                         (Enriched stored
                            (context_view media thread permissions))
                   end,
                   {| world := w2;
                      trace :=
                        trace st
                        ++ [EvLoadThread (Message.threadId stored) r;
                            EvLoadUserPermissionsInCommunity
                              (Message.senderId stored)
                              (Thread.communityId thread) p] |})
          end)).
  { intros c [[-> ->] | [-> ->]];
      unfold Mutation.attach_context_permissions_media,
        Mutation.attach_context_permissions;
      (split;
       [ intros Hdm; rewrite Hdm; reflexivity
       | intros Hdm; apply String.eqb_neq in Hdm; rewrite Hdm;
         intros r w1 Hthread; destruct r as [msg | [thread |]];
         [ erewrite catch_bind_thrown by (apply call_rejected; exact Hthread);
           reflexivity
         | erewrite catch_bind_returned by (apply call_fulfilled; exact Hthread);
           intros p w2 Hperm; destruct p as [msg | permissions];
           [ erewrite catch_bind_thrown by (apply call_rejected; exact Hperm)
           | erewrite catch_bind_returned by (apply call_fulfilled; exact Hperm) ];
           cbn [trace]; rewrite <- app_assoc; reflexivity
         | erewrite catch_bind_returned by (apply call_fulfilled; exact Hthread);
           reflexivity ] ]). }
  intros c. apply Hboth. destruct media; auto.
Qed.

(** The [draftjs] branch leaves the store as it is. *)
Lemma tag_code_language_world message (st : State World) :
  world (snd (Mutation.tag_code_language R message st)) = world st.
Proof.
  assert (Hguess : forall parsedMessage,
            world (snd (Mutation.guess_language R parsedMessage st)) = world st).
  { intros parsedMessage. unfold Mutation.guess_language.
    destruct (toPlainText_toState R parsedMessage) as [err | text];
      [reflexivity |].
    destruct (detectLang R text); reflexivity. }
  unfold Mutation.tag_code_language.
  destruct (JSON_parse R _) as [msg | parsedMessage]; [reflexivity |].
  assert (Hrest : forall blocks,
    world
      (snd
         (match has_positive_length R blocks with
          | None => throw (TypeError (TypeError_message R "blocks.length > 0"))
          | Some false => ret message
          | Some true =>
              match type_is_code_block (first_block blocks) with
              | None => throw (TypeError (TypeError_message R "blocks[0].type"))
              | Some false => ret message
              | Some true =>
                  bind (Mutation.guess_language R parsedMessage)
                    (fun lang =>
                       if lang_is_known lang then
                         match lang with
                         | Some l =>
                             ret (Message.with_body message
                                    (JSON_stringify R
                                       (set_document_first_block_data
                                          (syntax_data R l) parsedMessage)))
                         | None => ret message
                         end
                       else ret message)
              end
          end st)) = world st).
  { intros blocks.
    destruct (has_positive_length R blocks) as [[|] |]; try reflexivity.
    destruct (type_is_code_block _) as [[|] |]; try reflexivity.
    unfold bind. specialize (Hguess parsedMessage).
    destruct (Mutation.guess_language R parsedMessage st) as [[lang | err] st1];
      cbn [snd] in *; [| exact Hguess].
    destruct (lang_is_known lang); [destruct lang |]; exact Hguess. }
  destruct parsedMessage; try reflexivity; apply Hrest.
Qed.

(** The user error that [catch] returns adds no call. *)
Lemma caught_trace (c : M World AddResult) (st : State World) :
  snd (catch c Mutation.as_user_error st) = snd (c st).
Proof. unfold catch. destruct (c st) as [[res | err] st1]; reflexivity. Qed.

(** Classification up to the store: either the request ends with no message
    handed to the store, or it is the promise chain that starts at
    [storeMessage], entered after the parsing or the upload. *)
Lemma classify_and_store_reaches message currentUser (st : State World) :
  let run := Mutation.classify_and_store R Md message currentUser st in
  (exists pre,
     trace (snd run) = trace st ++ pre
     /\ forallb (fun e => is_console_error e || is_upload e) pre = true)
  \/ (exists pre m (st0 : State World),
        trace st0 = trace st ++ pre
        /\ forallb (fun e => is_console_error e || is_upload e) pre = true
        /\ (if String.eqb (Message.messageType message) "media"
            then exists url,
                   uploadImage Md (Message.file message) "threads"
                     (Message.threadId message) (world st)
                   = (inr url, world st0)
            else world st0 = world st)
        /\ run
           = catch
               (bind
                  (call (EvStoreMessage m (User.id currentUser))
                     (storeMessage Md m (User.id currentUser)))
                  (fun stored =>
                     if String.eqb (Message.messageType message) "media"
                     then Mutation.attach_context_permissions_media R Md stored
                     else Mutation.attach_context_permissions R Md stored))
               Mutation.as_user_error st0).
Proof.
  intros run. unfold run, Mutation.classify_and_store.
  destruct (String.eqb_spec (Message.messageType message) "text") as [Htext | Htext];
    cbn [orb].
  { right. exists [], message, st. rewrite app_nil_r, Htext.
    repeat split; reflexivity. }
  destruct (String.eqb_spec (Message.messageType message) "draftjs")
    as [Hdraft | Hdraft].
  { destruct (tag_code_language_emits message st) as (log & Hlog & Hconsole).
    assert (Hpre : forallb (fun e => is_console_error e || is_upload e) log = true).
    { rewrite forallb_forall in *. intros e He. rewrite (Hconsole e He). reflexivity. }
    destruct (Mutation.tag_code_language R message st) as [[m | err] st1] eqn:Htag;
      cbn [snd] in Hlog;
      [erewrite bind_returned by exact Htag | erewrite bind_thrown by exact Htag].
    - right. exists log, m, st1. rewrite Hdraft.
      split; [exact Hlog |]. split; [exact Hpre |]. split; [| reflexivity].
      pose proof (tag_code_language_world message st) as Hworld.
      rewrite Htag in Hworld. exact Hworld.
    - left. exists log. auto. }
  destruct (String.eqb_spec (Message.messageType message) "media")
    as [Hmedia | Hmedia].
  { destruct (uploadImage Md (Message.file message) "threads"
                (Message.threadId message) (world st)) as [[msg | url] w1] eqn:Hup.
    - left. erewrite catch_bind_thrown by (apply call_rejected; exact Hup).
      eexists. split; reflexivity.
    - erewrite catch_bind_returned by (apply call_fulfilled; exact Hup).
      unfold Mutation.build_media_message.
      destruct (Message.file message) as [f |] eqn:Hfile.
      + right. erewrite catch_bind_returned by reflexivity.
        eexists _, _, _.
        (split; [| split; [| split; [| reflexivity]]]);
          [reflexivity | reflexivity |].
        exists url. reflexivity.
      + left. erewrite catch_bind_thrown by reflexivity.
        eexists. split; reflexivity. }
  left. exists []. cbn. rewrite app_nil_r. auto.
Qed.

(** A message that the store accepted in a submission: the call was the only
    store call of the request, made in the submitter's name, and the request
    went on with the continuation under [catch], in the store that the call
    left. *)
Lemma addMessage_stored message currentUser (st : State World)
    (new : list Event) m userId stored :
  trace (snd (Mutation.addMessage R Md message (Some currentUser) st))
  = trace st ++ new ->
  In (EvStoreMessage m userId (inr stored)) new ->
  exists (before : list Event) (thread : option Thread.t) (w1 w0 w : World),
    getThread Md (Message.threadId message) (world st) = (inr thread, w1)
    /\ (if String.eqb (Message.messageType message) "media"
        then exists url,
               uploadImage Md (Message.file message) "threads"
                 (Message.threadId message)
                 (world (after_thread_calls Md message currentUser st thread w1))
               = (inr url, w0)
        else w0 = world (after_thread_calls Md message currentUser st thread w1))
    /\ forallb (fun e => negb (is_store e)) before = true
    /\ userId = User.id currentUser
    /\ storeMessage Md m userId w0 = (inr stored, w)
    /\ Mutation.addMessage R Md message (Some currentUser) st
       = catch
           (if String.eqb (Message.messageType message) "media"
            then Mutation.attach_context_permissions_media R Md stored
            else Mutation.attach_context_permissions R Md stored)
           Mutation.as_user_error
           {| world := w;
              trace :=
                trace st ++ before ++ [EvStoreMessage m userId (inr stored)] |}.
Proof.
  intros Htrace Hin.
  assert (Hquiet : forall l,
            forallb is_thread_side_effect l = true
            \/ forallb (fun e => is_console_error e || is_upload e) l = true
            \/ forallb is_loader l = true ->
            forallb (fun e => negb (is_store e)) l = true).
  { intros l Hl. rewrite forallb_forall. intros e He.
    destruct Hl as [Hl | [Hl | Hl]]; rewrite forallb_forall in Hl;
      specialize (Hl e He); destruct e; simpl in *; congruence. }
  destruct (getThread Md (Message.threadId message) (world st))
    as [[msg | thread] w1] eqn:Hget.
  { exfalso. unfold Mutation.addMessage in Htrace.
    erewrite bind_thrown in Htrace
      by exact (thread_side_effects_run message currentUser st _ _ Hget).
    cbn [snd trace] in Htrace. apply app_inv_head in Htrace. subst new.
    destruct Hin as [Hin | []]. discriminate. }
  rewrite (addMessage_exact message currentUser st thread w1 Hget) in Htrace |- *.
  pose proof (side_effect_events message currentUser thread) as Hside.
  set (ready := after_thread_calls Md message currentUser st thread w1) in *.
  destruct (classify_and_store_reaches message currentUser ready)
    as [(pre & Hrun & Hpre) | (pre & m0 & st0 & Hst0 & Hpre & Hworld & Hrun)];
    cbv zeta in Hrun.
  { exfalso. rewrite Hrun in Htrace. unfold ready in Htrace.
    cbn [after_thread_calls trace] in Htrace.
    rewrite <- app_assoc in Htrace. apply app_inv_head in Htrace. subst new.
    apply in_app_or in Hin. destruct Hin as [Hin | Hin]; revert Hin.
    - apply (forallb_not_in _ _ _ Hside). reflexivity.
    - apply (forallb_not_in _ _ _ Hpre). reflexivity. }
  rewrite Hrun in Htrace |- *.
  destruct (storeMessage Md m0 (User.id currentUser) (world st0))
    as [r w] eqn:Hstore.
  rewrite (caught_store_exact _ _ _ _ _ _ Hstore) in Htrace |- *.
  unfold ready in Hst0. cbn [after_thread_calls trace] in Hst0.
  rewrite <- app_assoc in Hst0. clear Hrun.
  remember (EvGetThread (Message.threadId message) (inr thread)
            :: direct_message_events message currentUser
            ++ registration_events message currentUser thread) as side
    eqn:Eside.
  clear Eside.
  destruct r as [msg | s].
  { exfalso. cbn [snd trace] in Htrace. rewrite Hst0 in Htrace.
    rewrite <- !app_assoc in Htrace. apply app_inv_head in Htrace. subst new.
    split_in Hin; try discriminate; revert Hin.
    - apply (forallb_not_in _ _ _ Hside). reflexivity.
    - apply (forallb_not_in _ _ _ Hpre). reflexivity. }
  rewrite caught_trace in Htrace.
  match type of Htrace with
  | trace (snd ((if ?b then _ else _) ?st1)) = _ =>
      destruct (attach_run b s st1) as (rest & Hrest & Hload & _)
  end.
  cbv zeta in Hrest. rewrite Hrest in Htrace. cbn [trace] in Htrace.
  rewrite Hst0 in Htrace. rewrite <- !app_assoc in Htrace.
  apply app_inv_head in Htrace. subst new.
  assert (Hthis : m = m0 /\ userId = User.id currentUser /\ stored = s).
  { split_in Hin.
    - exfalso. revert Hin. apply (forallb_not_in _ _ _ Hside). reflexivity.
    - exfalso. revert Hin. apply (forallb_not_in _ _ _ Hpre). reflexivity.
    - injection Hin as <- <- <-. auto.
    - exfalso. revert Hin. apply (forallb_not_in _ _ _ Hload). reflexivity. }
  destruct Hthis as (-> & -> & ->).
  exists (side ++ pre), thread, w1, (world st0), w.
  split; [reflexivity |]. split; [exact Hworld |].
  split; [| split; [reflexivity | split; [exact Hstore |]]].
  - rewrite forallb_app. rewrite (Hquiet _ (or_introl Hside)).
    rewrite (Hquiet _ (or_intror (or_introl Hpre))). reflexivity.
  - rewrite Hst0. rewrite <- !app_assoc. reflexivity.
Qed.

(** C7. In the submission of a [media] message, any message handed to the
    store is the input message with its content replaced by the url that the
    upload returned and its file replaced by the name, size and type of the
    input file; and when the upload is rejected nothing is handed to the
    store. Once the thread lookup has answered, the upload is made on the
    store that the thread calls left. When it is rejected the request ends
    there with a user error, in the store that the upload left. When it is
    fulfilled and the message has a file, the rebuilt message is handed to
    [storeMessage] on the store that the upload left; the request goes on in
    the store that [storeMessage] left, with the user error of a rejected
    store or with the enrichment of the stored message. *)
Theorem media_message_is_stored_with_uploaded_url
    (message : Message.t) (currentUser : User.t) (st : State World)
    (new : list Event) :
  Message.messageType message = "media" ->
  trace (snd (Mutation.addMessage R Md message (Some currentUser) st))
  = trace st ++ new ->
  (forall m userId r,
     In (EvStoreMessage m userId r) new ->
     exists url f,
       In (EvUploadImage (Message.file message) "threads"
             (Message.threadId message) (inr url)) new
       /\ Message.file message = Some f
       /\ Message.content m = {| Content.body := url |}
       /\ Message.file m
          = Some {| File.name := File.name f; File.size := File.size f;
                    File.type := File.type f; File.data := None |}
       /\ m = Message.assign_content_file message {| Content.body := url |}
                (file_metadata f)
       /\ userId = User.id currentUser)
  /\ (forall file namespace threadId msg,
        In (EvUploadImage file namespace threadId (inl msg)) new ->
        forall m userId r, ~ In (EvStoreMessage m userId r) new)
  /\ (forall (thread : option Thread.t) (w1 : World),
        getThread Md (Message.threadId message) (world st) = (inr thread, w1) ->
        let run := Mutation.addMessage R Md message (Some currentUser) st in
        let ready := after_thread_calls Md message currentUser st thread w1 in
        forall (u : Answer string) (w2 : World),
          uploadImage Md (Message.file message) "threads"
            (Message.threadId message) (world ready) = (u, w2) ->
          let upload :=
            EvUploadImage (Message.file message) "threads"
              (Message.threadId message) u in
          match u with
          | inl msg =>
              run
              = (Returned (ErrorValue (UserError msg)),
                 {| world := w2; trace := trace ready ++ [upload] |})
          | inr url =>
              forall f : File.t,
                Message.file message = Some f ->
                let newMessage :=
                  Message.assign_content_file message {| Content.body := url |}
                    (file_metadata f) in
                forall (r : Answer Message.t) (w3 : World),
                  storeMessage Md newMessage (User.id currentUser) w2 = (r, w3) ->
                  let kept :=
                    {| world := w3;
                       trace :=
                         trace ready
                         ++ [upload;
                             EvStoreMessage newMessage (User.id currentUser) r] |} in
                  match r with
                  | inl msg => run = (Returned (ErrorValue (UserError msg)), kept)
                  | inr stored =>
                      run
                      = catch
                          (Mutation.attach_context_permissions_media R Md stored)
                          Mutation.as_user_error kept
                  end
          end).
Proof.
  intros Hmedia Htrace.
  assert (Hexact :
    forall (thread : option Thread.t) (w1 : World),
      getThread Md (Message.threadId message) (world st) = (inr thread, w1) ->
      let run := Mutation.addMessage R Md message (Some currentUser) st in
      let ready := after_thread_calls Md message currentUser st thread w1 in
      forall (u : Answer string) (w2 : World),
        uploadImage Md (Message.file message) "threads"
          (Message.threadId message) (world ready) = (u, w2) ->
        let upload :=
          EvUploadImage (Message.file message) "threads"
            (Message.threadId message) u in
        match u with
        | inl msg =>
            run
            = (Returned (ErrorValue (UserError msg)),
               {| world := w2; trace := trace ready ++ [upload] |})
        | inr url =>
            forall f : File.t,
              Message.file message = Some f ->
              let newMessage :=
                Message.assign_content_file message {| Content.body := url |}
                  (file_metadata f) in
              forall (r : Answer Message.t) (w3 : World),
                storeMessage Md newMessage (User.id currentUser) w2 = (r, w3) ->
                let kept :=
                  {| world := w3;
                     trace :=
                       trace ready
                       ++ [upload;
                           EvStoreMessage newMessage (User.id currentUser) r] |} in
                match r with
                | inl msg => run = (Returned (ErrorValue (UserError msg)), kept)
                | inr stored =>
                    run
                    = catch
                        (Mutation.attach_context_permissions_media R Md stored)
                        Mutation.as_user_error kept
                end
        end).
  { intros thread w1 Hget run ready u w2 Hup upload.
    unfold run. rewrite (addMessage_exact message currentUser st thread w1 Hget).
    fold ready. unfold Mutation.classify_and_store.
    destruct (String.eqb_spec (Message.messageType message) "text");
      [congruence |].
    destruct (String.eqb_spec (Message.messageType message) "draftjs");
      [congruence |].
    destruct (String.eqb_spec (Message.messageType message) "media");
      [| congruence].
    cbn [orb]. unfold upload.
    destruct u as [msg | url].
    { erewrite catch_bind_thrown by (apply call_rejected; exact Hup).
      reflexivity. }
    intros f Hfile r w3 Hstore.
    erewrite catch_bind_returned by (apply call_fulfilled; exact Hup).
    unfold Mutation.build_media_message. rewrite Hfile.
    erewrite catch_bind_returned by reflexivity.
    pose proof (caught_store_exact true
                  (Message.assign_content_file message {| Content.body := url |}
                     (file_metadata f))
                  (User.id currentUser)
                  {| world := w2;
                     trace :=
                       trace ready
                       ++ [EvUploadImage (Some f) "threads"
                             (Message.threadId message) (inr url)] |}
                  r w3 Hstore) as Hcaught.
    cbv beta iota in Hcaught. cbn [trace] in Hcaught.
    unfold file_metadata in Hcaught.
    rewrite Hcaught. unfold file_metadata.
    rewrite <- app_assoc. destruct r; reflexivity. }
  split; [| split; [| exact Hexact]]; clear Hexact;
    destruct (addMessage_run message currentUser st)
      as (side & Hside & [(pre & Hrun & Hpre) | (pre & m0 & r0 & rest & Hrun & Hpre & Hrest & _ & Hm & _)]);
    cbv zeta in Hrun; rewrite Hrun in Htrace; apply app_inv_head in Htrace;
    subst new.
  - intros m userId r Hin. exfalso. split_in Hin.
    + revert Hin. apply (forallb_not_in _ _ _ Hside). reflexivity.
    + revert Hin. apply (forallb_not_in _ _ _ Hpre). reflexivity.
  - destruct (Hm Hmedia) as (url & f & -> & Hfile & ->).
    intros m userId r Hin. split_in Hin.
    + exfalso. revert Hin. apply (forallb_not_in _ _ _ Hside). reflexivity.
    + discriminate.
    + injection Hin as <- <- <-. exists url, f. repeat split; auto.
      apply in_or_app. right. left. reflexivity.
    + exfalso. revert Hin. apply (forallb_not_in _ _ _ Hrest). reflexivity.
  - intros _ _ _ _ _ m userId r Hin. split_in Hin.
    + revert Hin. apply (forallb_not_in _ _ _ Hside). reflexivity.
    + revert Hin. apply (forallb_not_in _ _ _ Hpre). reflexivity.
  - destruct (Hm Hmedia) as (url & f & -> & Hfile & ->).
    intros file namespace threadId msg Hin. exfalso. split_in Hin.
    + revert Hin. apply (forallb_not_in _ _ _ Hside). reflexivity.
    + discriminate.
    + discriminate.
    + revert Hin. apply (forallb_not_in _ _ _ Hrest). reflexivity.
Qed.

(** C9, amended. Once the store has accepted a submission, the call that
    stored the message was the only store call of the request and the
    request ends as follows, in the store that the loaders left. A stored
    message of a direct-message thread is returned as it is, with no view
    attached and no loader called. For any other stored message the thread
    loader is asked, on the store that [storeMessage] left: when it is
    rejected, or finds no thread, a user error is returned in place of the
    message; when it finds the thread, the permission loader is asked for the
    sender's record in the thread's community: when it is rejected a user
    error is returned, and when it answers the stored message is returned
    with a view built from the record, with reputation 0 and both flags
    false when there is no record, and with the thread's community id when,
    and only when, the message type is [media]. *)
Theorem stored_message_is_returned_with_context_permissions
    (message : Message.t) (currentUser : User.t) (st : State World)
    (new : list Event) (m : Message.t) (userId : string) (stored : Message.t) :
  trace (snd (Mutation.addMessage R Md message (Some currentUser) st))
  = trace st ++ new ->
  In (EvStoreMessage m userId (inr stored)) new ->
  let run := Mutation.addMessage R Md message (Some currentUser) st in
  let out := fst run in
  let media := String.eqb (Message.messageType message) "media" in
  (exists res, out = Returned res)
  /\ (Message.threadType stored = "directMessageThread" ->
      out = Returned (Plain stored))
  /\ (Message.threadType stored <> "directMessageThread" ->
      (forall m', out <> Returned (Plain m'))
      /\ forall m' view,
           out = Returned (Enriched m' view) ->
           m' = stored
           /\ exists thread permissions,
                In (EvLoadThread (Message.threadId stored) (inr (Some thread))) new
                /\ In (EvLoadUserPermissionsInCommunity (Message.senderId stored)
                         (Thread.communityId thread) (inr permissions)) new
                /\ (permissions = None ->
                    ContextPermissions.reputation view = 0%Z
                    /\ ContextPermissions.isModerator view = false
                    /\ ContextPermissions.isOwner view = false)
                /\ (forall p,
                      permissions = Some p ->
                      ContextPermissions.reputation view = Permissions.reputation p
                      /\ ContextPermissions.isModerator view
                         = Permissions.isModerator p
                      /\ ContextPermissions.isOwner view = Permissions.isOwner p)
                /\ (Message.messageType message = "media" ->
                    ContextPermissions.communityId view
                    = Some (Thread.communityId thread))
                /\ (Message.messageType message <> "media" ->
                    ContextPermissions.communityId view = None))
  /\ exists (before : list Event) (found : option Thread.t) (w1 w0 w : World),
       getThread Md (Message.threadId message) (world st) = (inr found, w1)
       /\ (if media
           then exists url,
                  uploadImage Md (Message.file message) "threads"
                    (Message.threadId message)
                    (world (after_thread_calls Md message currentUser st found w1))
                  = (inr url, w0)
           else w0 = world (after_thread_calls Md message currentUser st found w1))
       /\ forallb (fun e => negb (is_store e)) before = true
       /\ userId = User.id currentUser
       /\ storeMessage Md m userId w0 = (inr stored, w)
       /\ let kept :=
            trace st ++ before ++ [EvStoreMessage m userId (inr stored)] in
          (Message.threadType stored = "directMessageThread" ->
           run = (Returned (Plain stored), {| world := w; trace := kept |}))
          /\ (Message.threadType stored <> "directMessageThread" ->
              forall (r : Answer (option Thread.t)) (w2 : World),
                loadThread Md (Message.threadId stored) w = (r, w2) ->
                match r with
                | inl msg =>
                    run
                    = (Returned (ErrorValue (UserError msg)),
                       {| world := w2;
                          trace :=
                            kept ++ [EvLoadThread (Message.threadId stored) r] |})
                | inr None =>
                    run
                    = (Returned
                         (ErrorValue
                            (UserError
                               (TypeError_message R
                                  "{ communityId } = await loaders.thread.load(message.threadId)"))),
                       {| world := w2;
                          trace :=
                            kept ++ [EvLoadThread (Message.threadId stored) r] |})
                | inr (Some thread) =>
                    forall (p : Answer (option Permissions.t)) (w3 : World),
                      loadUserPermissionsInCommunity Md (Message.senderId stored)
                        (Thread.communityId thread) w2 = (p, w3) ->
                      run
                      = (match p with
                         | inl msg => Returned (ErrorValue (UserError msg))
                         | inr permissions =>
                             Returned
                               (Enriched stored
                                  (context_view media thread permissions))
                         end,
                         {| world := w3;
                            trace :=
                              kept
                              ++ [EvLoadThread (Message.threadId stored) r;
                                  EvLoadUserPermissionsInCommunity
                                    (Message.senderId stored)
                                    (Thread.communityId thread) p] |})
                end).
Proof.
  intros Htrace Hin run out media.
  assert (Hexact :
    exists (before : list Event) (found : option Thread.t) (w1 w0 w : World),
      getThread Md (Message.threadId message) (world st) = (inr found, w1)
      /\ (if media
          then exists url,
                 uploadImage Md (Message.file message) "threads"
                   (Message.threadId message)
                   (world (after_thread_calls Md message currentUser st found w1))
                 = (inr url, w0)
          else w0 = world (after_thread_calls Md message currentUser st found w1))
      /\ forallb (fun e => negb (is_store e)) before = true
      /\ userId = User.id currentUser
      /\ storeMessage Md m userId w0 = (inr stored, w)
      /\ run
         = catch
             (if media
              then Mutation.attach_context_permissions_media R Md stored
              else Mutation.attach_context_permissions R Md stored)
             Mutation.as_user_error
             {| world := w;
                trace :=
                  trace st ++ before ++ [EvStoreMessage m userId (inr stored)] |}).
  { apply (addMessage_stored message currentUser st new); assumption. }
  repeat apply conj.
  4:{ destruct Hexact
        as (before & found & w1 & w0 & w & Hget & Hw0 & Hbefore & Huser
            & Hstore & Hrun).
      exists before, found, w1, w0, w. split; [exact Hget |].
      split; [exact Hw0 |]. split; [exact Hbefore |]. split; [exact Huser |].
      split; [exact Hstore |]. cbv zeta. rewrite Hrun.
      match goal with |- context [catch _ _ ?s] =>
        destruct (enrichment_exact media stored s) as [Hdm Hother] end.
      split; [exact Hdm |].
      intros Hne r w2 Hthread. exact (Hother Hne r w2 Hthread). }
  all: clear Hexact.
  all: destruct (addMessage_run message currentUser st)
    as (side & Hside & [(pre & Hrun & Hpre) | (pre & m0 & r0 & rest & Hrun & Hpre & Hrest & Hout & _)]);
    cbv zeta in Hrun; rewrite Hrun in Htrace; apply app_inv_head in Htrace;
    subst new;
    [ exfalso; split_in Hin;
      [ revert Hin; apply (forallb_not_in _ _ _ Hside); reflexivity
      | revert Hin; apply (forallb_not_in _ _ _ Hpre); reflexivity ] |].
  all: assert (Hr : r0 = inr stored)
    by (split_in Hin;
        [ exfalso; revert Hin; apply (forallb_not_in _ _ _ Hside); reflexivity
        | exfalso; revert Hin; apply (forallb_not_in _ _ _ Hpre); reflexivity
        | congruence
        | exfalso; revert Hin; apply (forallb_not_in _ _ _ Hrest); reflexivity ]).
  all: subst r0; cbv zeta in Hout; fold run in Hout; fold out in Hout;
    unfold settles in Hout; destruct Hout as [Hdm Hother].
  all: destruct (String.eqb_spec (Message.threadType stored) "directMessageThread")
    as [Heq | Hne].
  - destruct (Hdm Heq) as [Ho _]. eauto.
  - destruct (Hother Hne) as [(text & Ho & _) | (thread & permissions & Ho & ->)];
      eauto.
  - intros _. destruct (Hdm Heq) as [Ho _]. exact Ho.
  - contradiction.
  - contradiction.
  - intros _.
    destruct (Hother Hne) as [(text & Ho & _) | (thread & permissions & Ho & ->)].
    + rewrite Ho. split; [discriminate |]. intros m' view He. discriminate.
    + rewrite Ho. split; [discriminate |]. intros m' view He.
      injection He as <- <-.
      split; [reflexivity |]. exists thread, permissions.
      split; [| split].
      { apply in_or_app. right. apply in_or_app. right. simpl. auto. }
      { apply in_or_app. right. apply in_or_app. right. simpl. auto. }
      unfold context_view. cbn.
      split; [intros ->; auto |]. split; [intros p ->; auto |].
      destruct (String.eqb_spec (Message.messageType message) "media");
        split; intros; congruence.
Qed.

(** *** Code messages *)

Section CodeMessage.
Variable message : Message.t.
Variable props first : list (string * JSON).
Variable others : list JSON.
Hypothesis Hparse :
  JSON_parse R (Content.body (Message.content message)) = inr (JObj props).
Hypothesis Hblocks :
  getProp "blocks" props = Some (JArr (JObj first :: others)).
Hypothesis Htype : getProp "type" first = Some (JStr "code-block").







End CodeMessage.

End Submission.

(** ** Error reporting *)

Section ErrorReporting.
Context {World : Type}.
Variable R : Runtime.
Variable Md : Models World.







End ErrorReporting.

(** ** Concrete runs on the in-memory instance *)

Module Runs.
Import InMemory.

(** carol, a community moderator, deletes bob's only message in thread t1. *)
Lemma moderation_role_decides_deletion_witness :
  has_moderation_role member moderator = true
  /\ fst (Mutation.deleteMessage runtime models "m3" (Some carol) (start world0))
     = Returned true.
Proof.
  split; [reflexivity |].
  apply (moderation_role_decides_deletion runtime models "m3" carol
           (start world0) m3 channel_thread member moderator
           world0 world0 world0 world0).
  - reflexivity.
  - discriminate.
  - discriminate.
  - reflexivity.
  - reflexivity.
  - reflexivity.
  - split; vm_compute; reflexivity.
Defined.

(** C1 as stated fails. bob is not the sender of m1, m1 is in a channel
    thread, bob holds no role (no channel record, a plain community record),
    and yet the request ends with a type error, not with the no-permission
    error. And carol, who holds a role, does not succeed in deleting m3 when
    the store rejects the delete. *)
Lemma absent_permission_record_is_not_forbidden :
  getMessage models "m1" world0 = (inr (Some m1), world0)
  /\ Message.senderId m1 <> Some (User.id bob)
  /\ Message.threadType m1 <> "directMessageThread"
  /\ getUserPermissionsInCommunity models (Some "c1") "bob" world0
     = (inr (Some member), world0)
  /\ getUserPermissionsInChannel models (Some "ch1") "bob" world0
     = (inr None, world0)
  /\ fst (Mutation.deleteMessage runtime models "m1" (Some bob) (start world0))
     = Thrown (TypeError "Cannot read properties: channelPermissions.isOwner")
  /\ fst (Mutation.deleteMessage runtime models "m1" (Some bob) (start world0))
     <> Returned true
  /\ fst (Mutation.deleteMessage runtime models "m1" (Some bob) (start world0))
     <> Thrown (UserError "You don't have permission to delete this message.")
  /\ has_moderation_role member moderator = true
  /\ fst (Mutation.deleteMessage runtime models "m3" (Some carol)
            (start (with_rejecting ["deleteMessage"] world0)))
     = Thrown (UpstreamError "deleteMessage failed").
Proof.
  repeat split; try reflexivity; try discriminate;
    vm_compute; discriminate || reflexivity.
Qed.



(** alice deletes her own direct message; carol, a moderator, may not. *)
Lemma sender_may_delete_and_direct_messages_are_own_only_witness :
  (exists r w2 rest,
     deleteMessage models "alice" "m4" world0 = (r, w2)
     /\ trace (snd (Mutation.deleteMessage runtime models "m4" (Some alice)
                      (start world0)))
        = EvGetMessage "m4" (inr (Some m4))
          :: EvDeleteMessage "alice" "m4" r :: rest
     /\ forallb (fun e => negb (is_authorization_lookup e)) rest = true
     /\ (fst (Mutation.deleteMessage runtime models "m4" (Some alice)
                (start world0)) = Returned true
         \/ exists msg,
             fst (Mutation.deleteMessage runtime models "m4" (Some alice)
                    (start world0)) = Thrown (UpstreamError msg)))
  /\ Mutation.deleteMessage runtime models "m4" (Some carol) (start world0)
     = (Thrown (UserError "You can only delete your own messages."),
        {| world := world0; trace := [EvGetMessage "m4" (inr (Some m4))] |}).
Proof.
  split.
  - apply (proj1 (sender_may_delete_and_direct_messages_are_own_only
                    runtime models "m4" alice (start world0) m4 world0 eq_refl)).
    reflexivity.
  - apply (proj2 (sender_may_delete_and_direct_messages_are_own_only
                    runtime models "m4" carol (start world0) m4 world0 eq_refl)).
    + discriminate.
    + reflexivity.
Defined.

(** carol posts a text message into the channel thread t1: she is registered
    with notifications, and her record is in the store in which the message
    is then stored. bob posts a photo into the watercooler thread w1: he is
    registered there without notifications. *)
Lemma participant_registration_follows_thread_kind_witness :
  (exists new,
     trace (snd (Mutation.addMessage runtime models text_request (Some carol)
                   (start world0))) = new
     /\ filter is_participant_creation new
        = [EvCreateParticipantInThread "t1" "carol"])
  /\ Mutation.addMessage runtime models text_request (Some carol) (start world0)
     = Mutation.classify_and_store runtime models text_request carol
         {| world :=
              set_participants world0
                (("t1", "carol", true) :: participants world0);
            trace :=
              [EvGetThread "t1" (inr (Some channel_thread));
               EvCreateParticipantInThread "t1" "carol"] |}
  /\ participants
       (world (snd (Mutation.addMessage runtime models text_request
                      (Some carol) (start world0))))
     = [("t1", "carol", true); ("t1", "alice", true); ("t1", "bob", true)]
  /\ participants
       (world (snd (Mutation.addMessage runtime models media_request
                      (Some bob) (start world0))))
     = [("w1", "bob", false); ("t1", "alice", true); ("t1", "bob", true)].
Proof.
  destruct (participant_registration_follows_thread_kind runtime models
              text_request carol (start world0) (inr (Some channel_thread))
              world0 eq_refl)
    as ((new & Htrace & Hstory & _) & Hregistered & _).
  pose proof (Hregistered channel_thread eq_refl eq_refl eq_refl) as Hrun.
  destruct (participant_registration_follows_thread_kind runtime models
              media_request bob (start world0) (inr (Some watercooler_thread))
              world0 eq_refl)
    as (_ & _ & Hquiet & _).
  pose proof (Hquiet watercooler_thread eq_refl eq_refl) as Hrun'.
  split; [| split; [| split]].
  - exists new. split; [exact Htrace |].
    apply (Hstory channel_thread); reflexivity.
  - exact Hrun.
  - rewrite Hrun. vm_compute. reflexivity.
  - rewrite Hrun'. vm_compute. reflexivity.
Defined.



(** bob posts a photo into the watercooler thread w1: the rebuilt message is
    the one in the store afterwards. When the upload service is down, bob
    gets a user error and the store has no new message. *)
Lemma media_message_is_stored_with_uploaded_url_witness :
  (exists url f,
     In (EvUploadImage (Some photo) "threads" "w1" (inr url))
       (trace (snd (Mutation.addMessage runtime models media_request (Some bob)
                      (start world0))))
     /\ Message.file media_request = Some f
     /\ Message.content media_stored = {| Content.body := url |}
     /\ Message.file media_stored
        = Some {| File.name := File.name f; File.size := File.size f;
                  File.type := File.type f; File.data := None |})
  /\ messages
       (world (snd (Mutation.addMessage runtime models media_request (Some bob)
                      (start world0))))
     = stored_form media_stored "bob" world0 :: messages world0
  /\ fst (Mutation.addMessage runtime models media_request (Some bob)
            (start (with_rejecting ["uploadImage"] world0)))
     = Returned (ErrorValue (UserError "uploadImage failed"))
  /\ messages
       (world (snd (Mutation.addMessage runtime models media_request (Some bob)
                      (start (with_rejecting ["uploadImage"] world0)))))
     = messages world0.
Proof.
  destruct (media_message_is_stored_with_uploaded_url runtime models
              media_request bob (start world0)
              (trace (snd (Mutation.addMessage runtime models media_request
                             (Some bob) (start world0))))
              eq_refl eq_refl)
    as (Hstored & _ & Hexact).
  destruct (media_message_is_stored_with_uploaded_url runtime models
              media_request bob (start (with_rejecting ["uploadImage"] world0))
              (trace (snd (Mutation.addMessage runtime models media_request
                             (Some bob)
                             (start (with_rejecting ["uploadImage"] world0)))))
              eq_refl eq_refl)
    as (_ & _ & Hdown).
  split; [| split; [| split]].
  - destruct (Hstored media_stored "bob"
                (inr (stored_form media_stored "bob" world0)))
      as (url & f & Hupload & Hfile & Hcontent & Hmeta & _).
    + vm_compute. right. right. right. left. reflexivity.
    + exists url, f. repeat split; assumption.
  - pose proof (Hexact (Some watercooler_thread) world0 eq_refl
                  (inr "https://images.example/threads/w1/cat.png")
                  (set_participants world0
                     (("w1", "bob", false) :: participants world0))
                  eq_refl photo eq_refl
                  (inr (stored_form media_stored "bob" world0))
                  (set_messages
                     (set_participants world0
                        (("w1", "bob", false) :: participants world0))
                     (stored_form media_stored "bob" world0 :: messages world0))
                  eq_refl) as Hrun.
    cbv beta iota zeta in Hrun. rewrite Hrun. vm_compute. reflexivity.
  - pose proof (Hdown (Some watercooler_thread)
                  (with_rejecting ["uploadImage"] world0) eq_refl
                  (inl "uploadImage failed")
                  (set_participants (with_rejecting ["uploadImage"] world0)
                     (("w1", "bob", false) :: participants world0))
                  eq_refl) as Hrun.
    cbv beta iota zeta in Hrun. rewrite Hrun. reflexivity.
  - pose proof (Hdown (Some watercooler_thread)
                  (with_rejecting ["uploadImage"] world0) eq_refl
                  (inl "uploadImage failed")
                  (set_participants (with_rejecting ["uploadImage"] world0)
                     (("w1", "bob", false) :: participants world0))
                  eq_refl) as Hrun.
    cbv beta iota zeta in Hrun. rewrite Hrun. reflexivity.
Defined.

(** carol deletes bob's only message in t1: the message leaves the store,
    the store then says bob has nothing left in t1, and bob's participant
    record is removed last; alice's record stays. *)
Lemma successful_deletion_retracts_last_participant_witness :
  exists final : State World,
    snd (Mutation.deleteMessage runtime models "m3" (Some carol) (start world0))
    = final
    /\ trace final
       = [EvGetMessage "m3" (inr (Some m3));
          EvGetThread "t1" (inr (Some channel_thread));
          EvGetUserPermissionsInCommunity (Some "c1") "carol"
            (inr (Some moderator));
          EvGetUserPermissionsInChannel (Some "ch1") "carol"
            (inr (Some member));
          EvDeleteMessage "carol" "m3" (inr tt);
          EvUserHasMessagesInThread "t1" (Some "bob") (inr false);
          EvDeleteParticipantInThread "t1" (Some "bob") (inr tt)]
    /\ messages (world final) = [m1; m2; m4]
    /\ participants (world final) = [("t1", "alice", true)].
Proof.
  destruct (successful_deletion_retracts_last_participant runtime models
              "m3" carol (start world0) m3 world0 true eq_refl
              ltac:(vm_compute; reflexivity))
    as (auth & w2 & w3 & _ & Hcheck & _ & Hdel & _ & Hother).
  destruct Hother as (hasMore & w4 & Hasked & _ & Hnone); [discriminate |].
  vm_compute in Hcheck. injection Hcheck as <- <-.
  vm_compute in Hdel. injection Hdel as <-.
  vm_compute in Hasked. injection Hasked as <- <-.
  destruct (Hnone eq_refl) as (w5 & Hgone & Hfinal).
  vm_compute in Hgone. injection Hgone as <-.
  eexists. split; [exact Hfinal |].
  repeat split; vm_compute; reflexivity.
Defined.

(** alice, who has no community record, posts a text message into t1: the
    message is stored on the store in which she was registered, both loaders
    answer on the store that holds the message, and the stored message comes
    back with the default view. *)
Lemma stored_message_is_returned_with_context_permissions_witness :
  fst (Mutation.addMessage runtime models text_request (Some alice)
         (start world0))
  = Returned
      (Enriched (stored_form text_request "alice" world0)
         {| ContextPermissions.communityId := None;
            ContextPermissions.reputation := 0;
            ContextPermissions.isModerator := false;
            ContextPermissions.isOwner := false |})
  /\ messages
       (world (snd (Mutation.addMessage runtime models text_request (Some alice)
                      (start world0))))
     = stored_form text_request "alice" world0 :: messages world0
  /\ exists thread permissions,
       In (EvLoadThread "t1" (inr (Some thread)))
         (trace (snd (Mutation.addMessage runtime models text_request
                        (Some alice) (start world0))))
       /\ In (EvLoadUserPermissionsInCommunity (Some "alice")
                (Thread.communityId thread) (inr permissions))
            (trace (snd (Mutation.addMessage runtime models text_request
                           (Some alice) (start world0))))
       /\ (Message.messageType text_request <> "media" ->
           ContextPermissions.communityId
             {| ContextPermissions.communityId := None;
                ContextPermissions.reputation := 0;
                ContextPermissions.isModerator := false;
                ContextPermissions.isOwner := false |} = None).
Proof.
  destruct (stored_message_is_returned_with_context_permissions runtime models
              text_request alice (start world0)
              (trace (snd (Mutation.addMessage runtime models text_request
                             (Some alice) (start world0))))
              text_request "alice" (stored_form text_request "alice" world0)
              eq_refl
              ltac:(vm_compute; right; right; left; reflexivity))
    as (_ & _ & Hother & Hexact).
  destruct Hexact
    as (before & found & w1 & w0 & w & Hget & Hw0 & _ & _ & Hstore & _ & Hrun).
  vm_compute in Hget. injection Hget as <- <-.
  vm_compute in Hw0. subst w0.
  vm_compute in Hstore. injection Hstore as <-.
  pose proof (Hrun ltac:(discriminate) (inr (Some channel_thread)) _ eq_refl
                (inr None) _ eq_refl) as Hfinal.
  cbv beta iota in Hfinal.
  split; [rewrite Hfinal; reflexivity |].
  split; [rewrite Hfinal; reflexivity |].
  destruct Hother as [_ Hview]; [discriminate |].
  destruct (Hview (stored_form text_request "alice" world0)
              {| ContextPermissions.communityId := None;
                 ContextPermissions.reputation := 0;
                 ContextPermissions.isModerator := false;
                 ContextPermissions.isOwner := false |})
    as (_ & thread & permissions & Hthread & Hperm & _ & _ & _ & Hbare).
  - rewrite Hfinal. reflexivity.
  - exists thread, permissions. repeat split; assumption.
Defined.

(** C9 as stated fails: a message can be persisted and yet come back with no
    view. bob posts into a thread that the thread loader does not find:
    the message is in the store and bob gets a user error. alice posts into
    t1 while the permission loader is down: the message is in the store and
    alice gets a user error. *)
Lemma persisted_message_comes_back_as_an_error_when_a_loader_fails :
  In (EvStoreMessage orphan_request "bob"
        (inr (stored_form orphan_request "bob" world0)))
    (trace (snd (Mutation.addMessage runtime models orphan_request (Some bob)
                   (start world0))))
  /\ messages
       (world (snd (Mutation.addMessage runtime models orphan_request (Some bob)
                      (start world0))))
     = stored_form orphan_request "bob" world0 :: messages world0
  /\ Message.threadType (stored_form orphan_request "bob" world0)
     <> "directMessageThread"
  /\ fst (Mutation.addMessage runtime models orphan_request (Some bob)
            (start world0))
     = Returned
         (ErrorValue
            (UserError
               "Cannot read properties: { communityId } = await loaders.thread.load(message.threadId)"))
  /\ (forall m view,
        fst (Mutation.addMessage runtime models orphan_request (Some bob)
               (start world0))
        <> Returned (Enriched m view))
  /\ In (EvStoreMessage text_request "alice"
           (inr (stored_form text_request "alice" world0)))
       (trace (snd (Mutation.addMessage runtime models text_request (Some alice)
                      (start (with_rejecting ["loadUserPermissionsInCommunity"]
                                world0)))))
  /\ messages
       (world (snd (Mutation.addMessage runtime models text_request (Some alice)
                      (start (with_rejecting ["loadUserPermissionsInCommunity"]
                                world0)))))
     = stored_form text_request "alice" world0 :: messages world0
  /\ fst (Mutation.addMessage runtime models text_request (Some alice)
            (start (with_rejecting ["loadUserPermissionsInCommunity"] world0)))
     = Returned (ErrorValue (UserError "loadUserPermissionsInCommunity failed"))
  /\ (forall m view,
        fst (Mutation.addMessage runtime models text_request (Some alice)
               (start (with_rejecting ["loadUserPermissionsInCommunity"]
                         world0)))
        <> Returned (Enriched m view)).
Proof.
  repeat apply conj;
    try (intros m view; vm_compute; discriminate);
    try discriminate;
    vm_compute; auto 10.
Qed.

End Runs.

(** ** Deletion: the gate before the store, absent records, the clean-up *)

Section DeletionEdges.
Context {World : Type}.
Variable R : Runtime.
Variable Md : Models World.

(** What a permission check that lets the request through has seen. *)
Lemma authorize_passed message currentUser (st st2 : State World) :
  Mutation.authorize R Md message currentUser st = (Returned tt, st2) ->
  exists auth,
    trace st2 = trace st ++ auth
    /\ forallb is_authorization_lookup auth = true
    /\ (Message.senderId message = Some (User.id currentUser)
        \/ (Message.threadType message <> "directMessageThread"
            /\ exists thread channel community,
                 auth
                 = [EvGetThread (Message.threadId message) (inr (Some thread));
                    EvGetUserPermissionsInCommunity (Thread.communityId thread)
                      (User.id currentUser) (inr community);
                    EvGetUserPermissionsInChannel (Thread.channelId thread)
                      (User.id currentUser) (inr (Some channel))]
                 /\ (Permissions.isOwner channel = true
                     \/ exists record,
                          community = Some record
                          /\ has_moderation_role channel record = true))).
Proof.
  unfold Mutation.authorize.
  destruct (Mutation.differs _ _) eqn:Hdiff.
  2:{ intros H. injection H as <-. exists []. rewrite app_nil_r.
      split; [reflexivity |]. split; [reflexivity |]. left.
      destruct (Message.senderId message) as [s |]; [| discriminate].
      simpl in Hdiff. apply negb_false_iff, String.eqb_eq in Hdiff.
      congruence. }
  destruct (String.eqb_spec (Message.threadType message) "directMessageThread")
    as [Hdm | Hdm]; [discriminate |].
  unfold bind, call, Mutation.canModerate, ret, throw. cbn [world trace].
  destruct (getThread Md _ _) as [[msg | [thread |]] w2]; try discriminate.
  cbn [world trace].
  destruct (getUserPermissionsInCommunity Md _ _ _) as [[msg | community] w3];
    [discriminate |].
  cbn [world trace].
  destruct (getUserPermissionsInChannel Md _ _ _) as [[msg | [channel |]] w4];
    try discriminate.
  cbn [world trace]. rewrite <- !app_assoc. cbn [app].
  destruct (Permissions.isOwner channel) eqn:Hco.
  { intros H. injection H as <-. eexists. split; [reflexivity |].
    split; [reflexivity |]. right. split; [exact Hdm |].
    exists thread, channel, community. auto. }
  destruct community as [record |]; [| discriminate].
  destruct (Permissions.isOwner record) eqn:Hro;
    [| destruct (Permissions.isModerator channel) eqn:Hcm;
       [| destruct (Permissions.isModerator record) eqn:Hrm]];
    cbn [negb]; try discriminate;
    intros H; injection H as <-; (eexists; split; [reflexivity |]);
    (split; [reflexivity |]); right; (split; [exact Hdm |]);
    exists thread, channel, (Some record); (split; [reflexivity |]); right;
    exists record; (split; [reflexivity |]);
    unfold has_moderation_role; rewrite Hco, Hro, ?Hcm, ?Hrm; reflexivity.
Qed.

(** X1. The store's delete is never called without authorization: whenever
    a [deleteMessage] request reaches it, the requester is signed in, the
    call is made in the requester's name for the requested id, the message
    was found, and either the requester is its sender, or the message is
    outside direct-message threads and the requester's channel record says
    owner, or the channel and community records together give one of the
    four roles. *)
Theorem store_delete_is_called_only_after_authorization
    (id : string) (user : option User.t) (st : State World)
    (new : list Event) (userId id' : string) (r : Answer unit) :
  trace (snd (Mutation.deleteMessage R Md id user st)) = trace st ++ new ->
  In (EvDeleteMessage userId id' r) new ->
  exists currentUser message,
    user = Some currentUser
    /\ userId = User.id currentUser
    /\ id' = id
    /\ In (EvGetMessage id (inr (Some message))) new
    /\ (Message.senderId message = Some (User.id currentUser)
        \/ (Message.threadType message <> "directMessageThread"
            /\ exists thread channel community,
                 In (EvGetThread (Message.threadId message) (inr (Some thread)))
                   new
                 /\ In (EvGetUserPermissionsInCommunity
                          (Thread.communityId thread) (User.id currentUser)
                          (inr community)) new
                 /\ In (EvGetUserPermissionsInChannel (Thread.channelId thread)
                          (User.id currentUser) (inr (Some channel))) new
                 /\ (Permissions.isOwner channel = true
                     \/ exists record,
                          community = Some record
                          /\ has_moderation_role channel record = true))).
Proof.
  intros Htrace Hin. destruct user as [currentUser |].
  2:{ cbn in Htrace. rewrite <- (app_nil_r (trace st)) in Htrace at 1.
      apply app_inv_head in Htrace. subst new. destruct Hin. }
  destruct (getMessage Md id (world st)) as [[msg | [message |]] w1] eqn:Hget.
  - unfold Mutation.deleteMessage in Htrace.
    erewrite bind_thrown in Htrace by (apply call_rejected; exact Hget).
    cbn [snd trace] in Htrace. apply app_inv_head in Htrace. subst new.
    destruct Hin as [Hin | []]. discriminate.
  - rewrite (deleteMessage_found R Md _ _ _ _ _ Hget) in Htrace.
    set (st1 := {| world := w1; trace := _ |}) in Htrace.
    unfold bind at 1 in Htrace.
    destruct (authorize_emits R Md message currentUser st1)
      as (auth' & Hauth' & Hlook').
    destruct (Mutation.authorize R Md message currentUser st1)
      as [[[] | err] st2] eqn:Hauth.
    + destruct (authorize_passed message currentUser st1 st2 Hauth)
        as (auth & Hst2 & Hlook & Hwhy).
      destruct (delete_and_retract_trace Md message currentUser id st2)
        as (r0 & w5 & rest & _ & Hdel & Hrest).
      rewrite Hdel in Htrace. rewrite Hst2 in Htrace.
      unfold st1 in Htrace. cbn [trace] in Htrace.
      rewrite <- !app_assoc in Htrace. apply app_inv_head in Htrace.
      cbn [app] in Htrace. subst new.
      exists currentUser, message. split; [reflexivity |].
      assert (Hthis : userId = User.id currentUser /\ id' = id).
      { destruct Hin as [Hin | Hin]; [discriminate |].
        apply in_app_or in Hin. destruct Hin as [Hin | Hin].
        - exfalso. revert Hin. apply (forallb_not_in _ _ _ Hlook). reflexivity.
        - destruct Hin as [Hin | Hin]; [injection Hin; auto |].
          exfalso. revert Hin. apply (forallb_not_in _ _ _ Hrest). reflexivity. }
      destruct Hthis as [-> ->]. split; [reflexivity |]. split; [reflexivity |].
      split; [left; reflexivity |].
      destruct Hwhy as [Hsender | (Hdm & thread & channel & community & -> & Hrole)];
        [left; exact Hsender | right].
      split; [exact Hdm |]. exists thread, channel, community.
      repeat split; try exact Hrole; right; apply in_or_app; left; simpl; auto.
    + cbn [snd] in Hauth', Htrace. rewrite Hauth' in Htrace.
      unfold st1 in Htrace.
      cbn [trace snd] in Htrace. rewrite <- app_assoc in Htrace.
      apply app_inv_head in Htrace. cbn [app] in Htrace. subst new.
      exfalso. destruct Hin as [Hin | Hin]; [discriminate |].
      revert Hin. apply (forallb_not_in _ _ _ Hlook'). reflexivity.
  - unfold Mutation.deleteMessage in Htrace.
    erewrite bind_returned in Htrace by (apply call_fulfilled; exact Hget).
    cbn [snd trace throw] in Htrace. apply app_inv_head in Htrace. subst new.
    destruct Hin as [Hin | []]. discriminate.
Qed.

(** Once the message, the thread and the answers of both permission lookups
    are in, the request is the evaluation of [canModerate] followed by the
    store deletion. *)
Lemma deleteMessage_checked id currentUser (st : State World) message thread
    (channel community : option Permissions.t) w1 w2 w3 w4 :
  getMessage Md id (world st) = (inr (Some message), w1) ->
  Message.senderId message <> Some (User.id currentUser) ->
  Message.threadType message <> "directMessageThread" ->
  getThread Md (Message.threadId message) w1 = (inr (Some thread), w2) ->
  getUserPermissionsInCommunity Md (Thread.communityId thread)
    (User.id currentUser) w2 = (inr community, w3) ->
  getUserPermissionsInChannel Md (Thread.channelId thread)
    (User.id currentUser) w3 = (inr channel, w4) ->
  Mutation.deleteMessage R Md id (Some currentUser) st
  = bind
      (bind (Mutation.canModerate R channel community)
         (fun allowed =>
            if negb allowed
            then throw (UserError "You don't have permission to delete this message.")
            else ret tt))
      (fun _ => Mutation.delete_and_retract Md message currentUser id)
      {| world := w4;
         trace :=
           trace st
           ++ [EvGetMessage id (inr (Some message));
               EvGetThread (Message.threadId message) (inr (Some thread));
               EvGetUserPermissionsInCommunity (Thread.communityId thread)
                 (User.id currentUser) (inr community);
               EvGetUserPermissionsInChannel (Thread.channelId thread)
                 (User.id currentUser) (inr channel)] |}.
Proof.
  intros Hget Hother Hkind Hthread Hcommunity Hchannel.
  rewrite (deleteMessage_found R Md _ _ _ _ _ Hget).
  unfold Mutation.authorize.
  apply differs_true_iff in Hother. rewrite Hother.
  apply String.eqb_neq in Hkind. rewrite Hkind.
  unfold bind at 1 2. unfold call at 1. cbn [world trace].
  rewrite Hthread. cbn [world trace].
  unfold bind at 1. unfold call at 1. cbn [world trace].
  rewrite Hcommunity. cbn [world trace].
  unfold bind at 1. unfold call at 1. cbn [world trace].
  rewrite Hchannel. cbn [world trace].
  rewrite <- !app_assoc. cbn [app].
  unfold bind. reflexivity.
Qed.

(** X2. The owner of the channel needs no community record: with the
    channel record saying owner, the request goes on to the store's delete
    whatever the community lookup returned, an absent record included. *)
Theorem channel_owner_deletes_without_community_record
    (id : string) (currentUser : User.t) (st : State World)
    (message : Message.t) (thread : Thread.t) (channel : Permissions.t)
    (community : option Permissions.t) (w1 w2 w3 w4 : World) :
  getMessage Md id (world st) = (inr (Some message), w1) ->
  Message.senderId message <> Some (User.id currentUser) ->
  Message.threadType message <> "directMessageThread" ->
  getThread Md (Message.threadId message) w1 = (inr (Some thread), w2) ->
  getUserPermissionsInCommunity Md (Thread.communityId thread)
    (User.id currentUser) w2 = (inr community, w3) ->
  getUserPermissionsInChannel Md (Thread.channelId thread)
    (User.id currentUser) w3 = (inr (Some channel), w4) ->
  Permissions.isOwner channel = true ->
  exists r rest,
    trace (snd (Mutation.deleteMessage R Md id (Some currentUser) st))
    = trace st
      ++ [EvGetMessage id (inr (Some message));
          EvGetThread (Message.threadId message) (inr (Some thread));
          EvGetUserPermissionsInCommunity (Thread.communityId thread)
            (User.id currentUser) (inr community);
          EvGetUserPermissionsInChannel (Thread.channelId thread)
            (User.id currentUser) (inr (Some channel))]
      ++ EvDeleteMessage (User.id currentUser) id r :: rest
    /\ (fst (Mutation.deleteMessage R Md id (Some currentUser) st) = Returned true
        \/ exists msg,
            fst (Mutation.deleteMessage R Md id (Some currentUser) st)
            = Thrown (UpstreamError msg)).
Proof.
  intros Hget Hother Hkind Hthread Hcommunity Hchannel Howner.
  rewrite (deleteMessage_checked _ _ _ _ _ _ _ _ _ _ _
             Hget Hother Hkind Hthread Hcommunity Hchannel).
  unfold Mutation.canModerate. rewrite Howner.
  set (checked := {| world := w4; trace := _ |}).
  change (bind (bind (ret true) ?k1) ?k2 checked) with (k2 tt checked).
  cbv beta.
  destruct (delete_and_retract_trace Md message currentUser id checked)
    as (r & w5 & rest & _ & Htrace & _).
  exists r, rest. split; [| apply delete_and_retract_outcome].
  rewrite Htrace. unfold checked. cbn [trace]. rewrite <- app_assoc.
  reflexivity.
Qed.

(** X3. An absent permission record that has to be read ends the request
    with a type error before anything is deleted: an absent channel record
    always, whatever the community record grants, and an absent community
    record whenever the channel record does not say owner, a channel
    moderator included. *)
Theorem absent_permission_record_stops_deletion
    (id : string) (currentUser : User.t) (st : State World)
    (message : Message.t) (thread : Thread.t)
    (channel community : option Permissions.t) (w1 w2 w3 w4 : World) :
  getMessage Md id (world st) = (inr (Some message), w1) ->
  Message.senderId message <> Some (User.id currentUser) ->
  Message.threadType message <> "directMessageThread" ->
  getThread Md (Message.threadId message) w1 = (inr (Some thread), w2) ->
  getUserPermissionsInCommunity Md (Thread.communityId thread)
    (User.id currentUser) w2 = (inr community, w3) ->
  getUserPermissionsInChannel Md (Thread.channelId thread)
    (User.id currentUser) w3 = (inr channel, w4) ->
  let checked :=
    {| world := w4;
       trace :=
         trace st
         ++ [EvGetMessage id (inr (Some message));
             EvGetThread (Message.threadId message) (inr (Some thread));
             EvGetUserPermissionsInCommunity (Thread.communityId thread)
               (User.id currentUser) (inr community);
             EvGetUserPermissionsInChannel (Thread.channelId thread)
               (User.id currentUser) (inr channel)] |} in
  (channel = None ->
   Mutation.deleteMessage R Md id (Some currentUser) st
   = (Thrown (TypeError (TypeError_message R "channelPermissions.isOwner")),
      checked))
  /\ (forall record,
        channel = Some record ->
        Permissions.isOwner record = false ->
        community = None ->
        Mutation.deleteMessage R Md id (Some currentUser) st
        = (Thrown (TypeError (TypeError_message R "communityPermissions.isOwner")),
           checked)).
Proof.
  intros Hget Hother Hkind Hthread Hcommunity Hchannel checked.
  rewrite (deleteMessage_checked _ _ _ _ _ _ _ _ _ _ _
             Hget Hother Hkind Hthread Hcommunity Hchannel).
  fold checked. split.
  - intros ->. reflexivity.
  - intros record -> Howner ->. unfold Mutation.canModerate.
    rewrite Howner. reflexivity.
Qed.

(** X4. When the message's thread is not found, a requester who is not the
    sender gets a type error right after the thread lookup: no permission
    is looked up and nothing is deleted. *)
Theorem absent_thread_stops_deletion
    (id : string) (currentUser : User.t) (st : State World)
    (message : Message.t) (w1 w2 : World) :
  getMessage Md id (world st) = (inr (Some message), w1) ->
  Message.senderId message <> Some (User.id currentUser) ->
  Message.threadType message <> "directMessageThread" ->
  getThread Md (Message.threadId message) w1 = (inr None, w2) ->
  Mutation.deleteMessage R Md id (Some currentUser) st
  = (Thrown (TypeError (TypeError_message R "thread.communityId")),
     {| world := w2;
        trace :=
          trace st
          ++ [EvGetMessage id (inr (Some message));
              EvGetThread (Message.threadId message) (inr None)] |}).
Proof.
  intros Hget Hother Hkind Hthread.
  rewrite (deleteMessage_found R Md _ _ _ _ _ Hget).
  unfold Mutation.authorize.
  apply differs_true_iff in Hother. rewrite Hother.
  apply String.eqb_neq in Hkind. rewrite Hkind.
  unfold bind at 1 2. unfold call at 1. cbn [world trace].
  rewrite Hthread. cbn [world trace throw].
  rewrite <- !app_assoc. reflexivity.
Qed.

End DeletionEdges.

Section Retraction.
Context {World : Type}.
Variable R : Runtime.
Variable Md : Models World.

(** X5. A participant record is removed by [deleteMessage] only for the
    sender of the deleted message, in that message's thread, outside
    direct-message threads, and only as the last call of the request: the
    permission check has passed, then the store has deleted the message,
    then the store, asked on the store that the deletion left, has answered
    that the sender has no message left in the thread, and only then is the
    record removed, on the store that this question left. In particular a
    moderator who deletes someone's message never loses, or removes, any
    other participant record. *)
Theorem participant_is_removed_only_for_a_sender_without_messages
    (id : string) (user : option User.t) (st : State World)
    (new : list Event) (threadId : string) (senderId : option string)
    (r : Answer unit) :
  trace (snd (Mutation.deleteMessage R Md id user st)) = trace st ++ new ->
  In (EvDeleteParticipantInThread threadId senderId r) new ->
  exists (currentUser : User.t) (message : Message.t) (auth : list Event)
         (w1 w2 w3 w4 w5 : World),
    user = Some currentUser
    /\ getMessage Md id (world st) = (inr (Some message), w1)
    /\ threadId = Message.threadId message
    /\ senderId = Message.senderId message
    /\ Message.threadType message <> "directMessageThread"
    /\ Mutation.authorize R Md message currentUser
         {| world := w1;
            trace := trace st ++ [EvGetMessage id (inr (Some message))] |}
       = (Returned tt,
          {| world := w2;
             trace := trace st ++ EvGetMessage id (inr (Some message)) :: auth |})
    /\ forallb is_authorization_lookup auth = true
    /\ deleteMessage Md (User.id currentUser) id w2 = (inr tt, w3)
    /\ userHasMessagesInThread Md threadId senderId w3 = (inr false, w4)
    /\ deleteParticipantInThread Md threadId senderId w4 = (r, w5)
    /\ new
       = EvGetMessage id (inr (Some message))
         :: auth
         ++ [EvDeleteMessage (User.id currentUser) id (inr tt);
             EvUserHasMessagesInThread threadId senderId (inr false);
             EvDeleteParticipantInThread threadId senderId r]
    /\ world (snd (Mutation.deleteMessage R Md id user st)) = w5.
Proof.
  intros Htrace Hin. destruct user as [currentUser |].
  2:{ cbn in Htrace. rewrite <- (app_nil_r (trace st)) in Htrace at 1.
      apply app_inv_head in Htrace. subst new. destruct Hin. }
  destruct (getMessage Md id (world st)) as [[msg | [message |]] w1] eqn:Hget.
  - unfold Mutation.deleteMessage in Htrace.
    erewrite bind_thrown in Htrace by (apply call_rejected; exact Hget).
    cbn [snd trace] in Htrace. apply app_inv_head in Htrace. subst new.
    destruct Hin as [Hin | []]. discriminate.
  - pose proof (deleteMessage_found R Md id currentUser st message w1 Hget)
      as Hfound.
    rewrite Hfound in Htrace |- *. clear Hfound.
    set (st1 := {| world := w1; trace := _ |}) in *.
    destruct (authorize_emits R Md message currentUser st1)
      as (auth & Hauth & Hlook).
    destruct (Mutation.authorize R Md message currentUser st1)
      as [[[] | err] [w2 t2]] eqn:Hcheck;
      cbn [snd trace] in Hauth; unfold st1 in Hauth; cbn [trace] in Hauth;
      rewrite <- app_assoc in Hauth; cbn [app] in Hauth; subst t2.
    2:{ erewrite bind_thrown in Htrace by exact Hcheck.
        cbn [snd trace] in Htrace. apply app_inv_head in Htrace. subst new.
        exfalso. destruct Hin as [Hin | Hin]; [discriminate |].
        revert Hin. apply (forallb_not_in _ _ _ Hlook). reflexivity. }
    erewrite bind_returned in Htrace |- * by exact Hcheck.
    match goal with |- context [Mutation.delete_and_retract _ _ _ _ ?s] =>
      set (st2 := s) in * end.
    destruct (deleteMessage Md (User.id currentUser) id w2) as [d w3] eqn:Hdel.
    pose proof (delete_and_retract_exact Md message currentUser id st2 d w3 Hdel)
      as Hrun.
    cbv zeta in Hrun.
    assert (Hquiet : forall tail : list Event,
              forallb (fun e => negb (match e with
                                      | EvDeleteParticipantInThread _ _ _ => true
                                      | _ => false
                                      end)) tail = true ->
              trace st2 ++ tail = trace st ++ new -> False).
    { intros tail Htail Heq. unfold st2 in Heq. cbn [trace] in Heq.
      rewrite <- app_assoc in Heq. apply app_inv_head in Heq.
      cbn [app] in Heq. subst new.
      destruct Hin as [Hin | Hin]; [discriminate |].
      apply in_app_or in Hin. destruct Hin as [Hin | Hin].
      - revert Hin. apply (forallb_not_in _ _ _ Hlook). reflexivity.
      - revert Hin. apply (forallb_not_in _ _ _ Htail). reflexivity. }
    destruct d as [msg | []].
    { exfalso. rewrite Hrun in Htrace. cbn [snd trace] in Htrace.
      revert Htrace. apply Hquiet. reflexivity. }
    destruct Hrun as [Hdm Hother].
    destruct (String.eqb_spec (Message.threadType message) "directMessageThread")
      as [Heq | Hne].
    { exfalso. rewrite (Hdm Heq) in Htrace. cbn [snd trace] in Htrace.
      revert Htrace. apply Hquiet. reflexivity. }
    destruct (userHasMessagesInThread Md (Message.threadId message)
                (Message.senderId message) w3) as [h w4] eqn:Hasked.
    specialize (Hother Hne h w4 eq_refl).
    destruct h as [msg | [|]];
      try (exfalso; rewrite Hother in Htrace; cbn [snd trace] in Htrace;
           revert Htrace; apply Hquiet; reflexivity).
    destruct (deleteParticipantInThread Md (Message.threadId message)
                (Message.senderId message) w4) as [p w5] eqn:Hgone.
    specialize (Hother p w5 eq_refl).
    rewrite Hother in Htrace |- *. cbn [snd trace world] in Htrace |- *.
    unfold st2 in Htrace. cbn [trace] in Htrace.
    rewrite <- app_assoc in Htrace. apply app_inv_head in Htrace.
    cbn [app] in Htrace. subst new.
    assert (Hlast : threadId = Message.threadId message
                    /\ senderId = Message.senderId message /\ r = p).
    { destruct Hin as [Hin | Hin]; [discriminate |].
      apply in_app_or in Hin. destruct Hin as [Hin | Hin].
      - exfalso. revert Hin. apply (forallb_not_in _ _ _ Hlook). reflexivity.
      - destruct Hin as [Hin | [Hin | [Hin | []]]]; try discriminate.
        injection Hin as <- <- <-. auto. }
    destruct Hlast as (-> & -> & ->).
    exists currentUser, message, auth, w1, w2, w3, w4, w5.
    repeat split; auto.
  - unfold Mutation.deleteMessage in Htrace.
    erewrite bind_returned in Htrace by (apply call_fulfilled; exact Hget).
    cbn [snd trace throw] in Htrace. apply app_inv_head in Htrace. subst new.
    destruct Hin as [Hin | []]. discriminate.
Qed.

Lemma delete_and_retract_emits message currentUser id :
  emits is_deletion_call
    (Mutation.delete_and_retract Md message currentUser id).
Proof.
  unfold Mutation.delete_and_retract.
  emits_step; [emits_step |].
  destruct (String.eqb _ _); [emits_step |].
  emits_step; [emits_step |].
  destruct a0; [emits_step |].
  emits_step; emits_step.
Qed.

Lemma thread_side_effects_emits message currentUser :
  emits is_submission_call
    (Mutation.thread_side_effects Md message currentUser).
Proof.
  unfold Mutation.thread_side_effects.
  emits_step; [emits_step |].
  emits_step; [emits_step; emits_step; emits_step |].
  emits_step; [emits_step; emits_step |].
  emits_step. emits_step.
Qed.

(** X6. A deletion request, signed in or not, and whatever the
    collaborators answer, never stores or uploads anything, never registers
    a participant and never touches a time stamp: its only calls are the
    message, thread and permission lookups, the store's delete and the two
    clean-up calls. *)
Theorem deletion_makes_no_submission_call
    (id : string) (user : option User.t) (st : State World) :
  exists new,
    trace (snd (Mutation.deleteMessage R Md id user st)) = trace st ++ new
    /\ forallb is_deletion_call new = true
    /\ forall e, In e new ->
         is_store e = false /\ is_upload e = false
         /\ is_participant_creation e = false /\ is_timestamp e = false.
Proof.
  assert (Hemits : emits is_deletion_call (Mutation.deleteMessage R Md id user)).
  { unfold Mutation.deleteMessage. destruct user as [currentUser |];
      [| emits_step].
    emits_step; [emits_step |].
    destruct a as [message |]; [| emits_step].
    emits_step; [| apply delete_and_retract_emits].
    apply (emits_weaken is_authorization_lookup); [| apply authorize_emits].
    intros []; simpl; congruence. }
  destruct (Hemits st) as (new & Htrace & Hall). exists new.
  split; [exact Htrace |]. split; [exact Hall |].
  intros e He. rewrite forallb_forall in Hall. specialize (Hall e He).
  destruct e; simpl in *; repeat split; congruence.
Qed.

(** X7. A submission, signed in or not, and whatever the collaborators
    answer, never fetches or deletes a message, never removes a participant
    and never reads the permission services used by deletion. *)
Theorem submission_makes_no_deletion_call
    (message : Message.t) (user : option User.t) (st : State World) :
  exists new,
    trace (snd (Mutation.addMessage R Md message user st)) = trace st ++ new
    /\ forallb is_submission_call new = true
    /\ forall e, In e new ->
         is_retraction e = false
         /\ match e with
            | EvGetMessage _ _ | EvDeleteMessage _ _ _
            | EvGetUserPermissionsInCommunity _ _ _
            | EvGetUserPermissionsInChannel _ _ _ => False
            | _ => True
            end.
Proof.
  assert (Hemits :
    emits is_submission_call (Mutation.addMessage R Md message user)).
  { unfold Mutation.addMessage. destruct user as [currentUser |];
      [| emits_step].
    emits_step; [apply thread_side_effects_emits |].
    apply (emits_weaken is_classification);
      [| apply classify_and_store_emits].
    intros []; simpl; congruence. }
  destruct (Hemits st) as (new & Htrace & Hall). exists new.
  split; [exact Htrace |]. split; [exact Hall |].
  intros e He. rewrite forallb_forall in Hall. specialize (Hall e He).
  destruct e; simpl in *; split; congruence || exact I.
Qed.

End Retraction.

(** ** Submission: the calls around classification *)

Ltac flatten_trace :=
  cbn [trace]; repeat first [rewrite <- app_assoc | rewrite <- app_comm_cons].

Section SubmissionEdges.
Context {World : Type}.
Variable R : Runtime.
Variable Md : Models World.

(** Once the thread lookup has answered, a signed-in submission is
    classification run after the thread calls. *)
Lemma addMessage_after_lookup message currentUser (st : State World) thread w1 :
  getThread Md (Message.threadId message) (world st) = (inr thread, w1) ->
  exists w2,
    Mutation.addMessage R Md message (Some currentUser) st
    = Mutation.classify_and_store R Md message currentUser
        {| world := w2;
           trace :=
             trace st
             ++ EvGetThread (Message.threadId message) (inr thread)
             :: direct_message_events message currentUser
             ++ registration_events message currentUser thread |}.
Proof.
  intros Hget.
  destruct (thread_side_effects_run Md message currentUser st _ _ Hget)
    as [w2 Hside].
  exists w2. unfold Mutation.addMessage.
  erewrite bind_returned by exact Hside. reflexivity.
Qed.

(** The calls of a signed-in submission, split at classification. *)
Lemma addMessage_calls message currentUser (st : State World) r w1 :
  getThread Md (Message.threadId message) (world st) = (r, w1) ->
  exists rest,
    trace (snd (Mutation.addMessage R Md message (Some currentUser) st))
    = trace st
      ++ EvGetThread (Message.threadId message) r
      :: match r with
         | inl _ => []
         | inr thread =>
             direct_message_events message currentUser
             ++ registration_events message currentUser thread ++ rest
         end
    /\ forallb is_classification rest = true.
Proof.
  intros Hget. destruct r as [msg | thread].
  - exists []. split; [| reflexivity]. unfold Mutation.addMessage.
    erewrite bind_thrown
      by exact (thread_side_effects_run Md message currentUser st _ _ Hget).
    reflexivity.
  - destruct (addMessage_after_lookup message currentUser st thread w1 Hget)
      as [w2 ->].
    match goal with |- context [Mutation.classify_and_store _ _ _ _ ?s] =>
      destruct (classify_and_store_emits R Md message currentUser s)
        as (rest & Hrest & Hclass) end.
    exists rest. split; [| exact Hclass].
    rewrite Hrest. flatten_trace. reflexivity.
Qed.

(** X8. A signed-in submission whose message type is none of [text],
    [draftjs] and [media] returns the unknown-type error after the thread
    calls have been made: the time stamps and the participant registration
    of its thread kind are there, and nothing is parsed, uploaded, stored or
    loaded. *)
Theorem unknown_message_type_keeps_the_thread_calls
    (message : Message.t) (currentUser : User.t) (st : State World)
    (thread : option Thread.t) (w1 : World) :
  getThread Md (Message.threadId message) (world st) = (inr thread, w1) ->
  Message.messageType message <> "text" ->
  Message.messageType message <> "draftjs" ->
  Message.messageType message <> "media" ->
  exists w2,
    Mutation.addMessage R Md message (Some currentUser) st
    = (Returned (ErrorValue (UserError "Unknown message type")),
       {| world := w2;
          trace :=
            trace st
            ++ EvGetThread (Message.threadId message) (inr thread)
            :: direct_message_events message currentUser
            ++ registration_events message currentUser thread |}).
Proof.
  intros Hget Htext Hdraft Hmedia.
  destruct (addMessage_after_lookup message currentUser st thread w1 Hget)
    as [w2 ->].
  exists w2. unfold Mutation.classify_and_store.
  apply String.eqb_neq in Htext, Hdraft, Hmedia.
  rewrite Htext, Hdraft, Hmedia. reflexivity.
Qed.

(** X9. The two time-stamp calls depend on the message's own thread type
    and on nothing else: a signed-in submission makes them, last-active
    first, exactly when the message says [directMessageThread] and the thread
    lookup was fulfilled, whatever thread, if any, the lookup found. *)
Theorem time_stamps_follow_the_message_thread_type
    (message : Message.t) (currentUser : User.t) (st : State World)
    (r : Answer (option Thread.t)) (w1 : World) (new : list Event) :
  getThread Md (Message.threadId message) (world st) = (r, w1) ->
  trace (snd (Mutation.addMessage R Md message (Some currentUser) st))
  = trace st ++ new ->
  (forall thread,
     r = inr thread ->
     Message.threadType message = "directMessageThread" ->
     filter is_timestamp new
     = [EvSetDirectMessageThreadLastActive (Message.threadId message);
        EvSetUserLastSeenInDirectMessageThread (Message.threadId message)
          (User.id currentUser)])
  /\ (Message.threadType message <> "directMessageThread" ->
      filter is_timestamp new = [])
  /\ (forall msg, r = inl msg -> filter is_timestamp new = []).
Proof.
  intros Hget Htrace.
  destruct (addMessage_calls message currentUser st r w1 Hget)
    as (rest & Hcalls & Hclass).
  rewrite Hcalls in Htrace. apply app_inv_head in Htrace. subst new.
  assert (Hrest : filter is_timestamp rest = []).
  { apply (filter_rejected is_classification); [exact Hclass |].
    intros []; simpl; congruence. }
  assert (Hreg : forall thread,
            filter is_timestamp (registration_events message currentUser thread)
            = []).
  { intros thread. unfold registration_events.
    destruct (String.eqb _ _ && _); destruct (Mutation.is_watercooler thread);
      reflexivity. }
  split; [| split].
  - intros thread -> Hdm. cbn [filter is_timestamp].
    rewrite !filter_app, Hrest, Hreg, !app_nil_r.
    unfold direct_message_events. rewrite Hdm. reflexivity.
  - intros Hdm. destruct r as [msg | thread]; [reflexivity |].
    cbn [filter is_timestamp]. rewrite !filter_app, Hrest, Hreg, !app_nil_r.
    unfold direct_message_events. apply String.eqb_neq in Hdm. rewrite Hdm.
    reflexivity.
  - intros msg ->. reflexivity.
Qed.

(** X10. Outside watercooler threads only [story] messages register their
    sender: a signed-in submission whose message says another thread type,
    [directMessageThread] included, into an existing thread that is not a
    watercooler registers no participant. *)
Theorem only_story_messages_register_outside_watercoolers
    (message : Message.t) (currentUser : User.t) (st : State World)
    (thread : Thread.t) (w1 : World) (new : list Event) :
  getThread Md (Message.threadId message) (world st)
  = (inr (Some thread), w1) ->
  trace (snd (Mutation.addMessage R Md message (Some currentUser) st))
  = trace st ++ new ->
  Message.threadType message <> "story" ->
  Thread.watercooler thread = false ->
  filter is_participant_creation new = [].
Proof.
  intros Hget Htrace Hstory Hwater.
  destruct (addMessage_calls message currentUser st _ w1 Hget)
    as (rest & Hcalls & Hclass).
  rewrite Hcalls in Htrace. apply app_inv_head in Htrace. subst new.
  cbn [filter is_participant_creation]. rewrite !filter_app.
  rewrite (filter_rejected is_classification is_participant_creation rest Hclass)
    by (intros []; simpl; congruence).
  unfold direct_message_events, registration_events.
  apply String.eqb_neq in Hstory. rewrite Hstory.
  cbn [andb Mutation.is_watercooler Mutation.is_not_watercooler].
  rewrite Hwater.
  destruct (String.eqb (Message.threadType message) "directMessageThread");
    reflexivity.
Qed.

(** X11. A rejected thread lookup ends a signed-in submission at once: the
    rejection is thrown on, and no time stamp, no registration, no parse, no
    upload and no store follow, whatever the message. *)
Theorem rejected_thread_lookup_stops_submission
    (message : Message.t) (currentUser : User.t) (st : State World)
    (msg : string) (w1 : World) :
  getThread Md (Message.threadId message) (world st) = (inl msg, w1) ->
  Mutation.addMessage R Md message (Some currentUser) st
  = (Thrown (UpstreamError msg),
     {| world := w1;
        trace := trace st ++ [EvGetThread (Message.threadId message) (inl msg)] |}).
Proof.
  intros Hget. unfold Mutation.addMessage.
  erewrite bind_thrown
    by exact (thread_side_effects_run Md message currentUser st _ _ Hget).
  reflexivity.
Qed.

(** X12. A [draftjs] body that cannot be read is thrown, not returned, and
    only after the thread calls: a body that does not parse throws the
    parser's syntax error, the body [null] and a document whose first block
    is [null] throw a type error; in each case nothing is stored and the
    detector is not called. *)
Theorem unreadable_draft_body_is_thrown_after_the_thread_calls
    (message : Message.t) (currentUser : User.t) (st : State World)
    (thread : option Thread.t) (w1 : World) :
  Message.messageType message = "draftjs" ->
  getThread Md (Message.threadId message) (world st) = (inr thread, w1) ->
  exists w2,
    let after :=
      {| world := w2;
         trace :=
           trace st
           ++ EvGetThread (Message.threadId message) (inr thread)
           :: direct_message_events message currentUser
           ++ registration_events message currentUser thread |} in
    (forall msg,
       JSON_parse R (Content.body (Message.content message)) = inl msg ->
       Mutation.addMessage R Md message (Some currentUser) st
       = (Thrown (SyntaxError msg), after))
    /\ (JSON_parse R (Content.body (Message.content message)) = inr JNull ->
        Mutation.addMessage R Md message (Some currentUser) st
        = (Thrown (TypeError (TypeError_message R "{ blocks } = parsedMessage")),
           after))
    /\ (forall props others,
          JSON_parse R (Content.body (Message.content message))
          = inr (JObj props) ->
          getProp "blocks" props = Some (JArr (JNull :: others)) ->
          Mutation.addMessage R Md message (Some currentUser) st
          = (Thrown (TypeError (TypeError_message R "blocks[0].type")), after)).
Proof.
  intros Hdraft Hget.
  destruct (addMessage_after_lookup message currentUser st thread w1 Hget)
    as [w2 ->].
  exists w2. cbv zeta. unfold Mutation.classify_and_store. rewrite Hdraft.
  change (String.eqb "draftjs" "text") with false.
  change (String.eqb "draftjs" "draftjs") with true. cbn [orb].
  unfold Mutation.tag_code_language. split; [| split].
  - intros msg ->. reflexivity.
  - intros ->. reflexivity.
  - intros props others -> Hblocks. unfold bind at 1 2. cbn [ret].
    rewrite Hblocks. reflexivity.
Qed.

(** X18. In a [draftjs] document whose [blocks] is an object, the test
    [blocks.length > 0] converts [blocks.length] to a number. A [length]
    that is an object with a [toString] key of its own cannot be converted:
    the test throws a type error, which ends the request after the thread
    calls, with nothing stored and the detector not called. A [length] that
    is an object without such a key is converted through the text
    [\[object Object\]]. *)
Theorem unconvertible_block_count_is_thrown_before_the_store
    (message : Message.t) (currentUser : User.t) (st : State World)
    (thread : option Thread.t) (w1 : World) (props : list (string * JSON)) :
  Message.messageType message = "draftjs" ->
  getThread Md (Message.threadId message) (world st) = (inr thread, w1) ->
  JSON_parse R (Content.body (Message.content message)) = inr (JObj props) ->
  (has_positive_length R (getProp "blocks" props) = None ->
   Mutation.addMessage R Md message (Some currentUser) st
   = (Thrown (TypeError (TypeError_message R "blocks.length > 0")),
      after_thread_calls Md message currentUser st thread w1))
  /\ (forall blocks len conv,
        getProp "blocks" props = Some (JObj blocks) ->
        getProp "length" blocks = Some (JObj len) ->
        getProp "toString" len = Some conv ->
        has_positive_length R (getProp "blocks" props) = None)
  /\ (forall blocks len,
        getProp "blocks" props = Some (JObj blocks) ->
        getProp "length" blocks = Some (JObj len) ->
        getProp "toString" len = None ->
        has_positive_length R (getProp "blocks" props)
        = Some (PrimFloat.ltb 0%float (StringToNumber R "[object Object]"))).
Proof.
  intros Hdraft Hget Hparse. split; [| split].
  - intros Hnone.
    rewrite (addMessage_exact R Md message currentUser st thread w1 Hget).
    unfold Mutation.classify_and_store. rewrite Hdraft.
    change (String.eqb "draftjs" "text") with false.
    change (String.eqb "draftjs" "draftjs") with true. cbn [orb].
    unfold Mutation.tag_code_language. rewrite Hparse.
    unfold bind at 1 2. cbn [ret]. rewrite Hnone. reflexivity.
  - intros blocks len conv Hblocks Hlength Hconv. rewrite Hblocks.
    cbn [has_positive_length]. rewrite Hlength.
    cbn [gt_zero ToNumber ToString]. rewrite Hconv. reflexivity.
  - intros blocks len Hblocks Hlength Hconv. rewrite Hblocks.
    cbn [has_positive_length]. rewrite Hlength.
    cbn [gt_zero ToNumber ToString]. rewrite Hconv. reflexivity.
Qed.

(** The [draftjs] branch leaves alone a document that does not open with a
    code block. *)
Lemma tag_code_language_untouched message doc (st : State World) :
  JSON_parse R (Content.body (Message.content message)) = inr doc ->
  match doc with
  | JBool _ | JNum _ | JStr _ | JArr _ => True
  | JNull => False
  | JObj props =>
      getProp "blocks" props = None
      \/ getProp "blocks" props = Some (JArr [])
      \/ exists first others,
           getProp "blocks" props = Some (JArr (JObj first :: others))
           /\ getProp "type" first <> Some (JStr "code-block")
  end ->
  Mutation.tag_code_language R message st = (Returned message, st).
Proof.
  intros Hparse Hshape. unfold Mutation.tag_code_language. rewrite Hparse.
  destruct doc as [| b | n | s | elems | props]; try reflexivity;
    [contradiction |].
  change (bind (ret ?b) ?k st) with (k b st). cbv beta.
  destruct Hshape as [-> | [-> | (first & others & -> & Htype)]];
    try reflexivity.
  cbn [has_positive_length List.length Nat.ltb Nat.leb first_block
       List.hd_error type_is_code_block].
  destruct (getProp "type" first) as [[| b | n | t | elems | kvs] |];
    try reflexivity.
  destruct (String.eqb_spec t "code-block") as [-> | Hne];
    [contradiction | reflexivity].
Qed.

(** X13. A [draftjs] message whose document does not open with a code
    block (no [blocks], no block at all, a first block of another type, or a
    body that is not an object) is handed to the store exactly as it came,
    right after the thread calls: the detector is not called and nothing is
    printed, whatever the detector would have done. *)
Theorem draft_without_leading_code_block_is_stored_as_it_came
    (message : Message.t) (currentUser : User.t) (st : State World)
    (thread : option Thread.t) (w1 : World) (doc : JSON) :
  Message.messageType message = "draftjs" ->
  getThread Md (Message.threadId message) (world st) = (inr thread, w1) ->
  JSON_parse R (Content.body (Message.content message)) = inr doc ->
  match doc with
  | JBool _ | JNum _ | JStr _ | JArr _ => True
  | JNull => False
  | JObj props =>
      getProp "blocks" props = None
      \/ getProp "blocks" props = Some (JArr [])
      \/ exists first others,
           getProp "blocks" props = Some (JArr (JObj first :: others))
           /\ getProp "type" first <> Some (JStr "code-block")
  end ->
  exists r rest,
    trace (snd (Mutation.addMessage R Md message (Some currentUser) st))
    = trace st
      ++ EvGetThread (Message.threadId message) (inr thread)
      :: direct_message_events message currentUser
      ++ registration_events message currentUser thread
      ++ EvStoreMessage message (User.id currentUser) r :: rest
    /\ forallb is_loader rest = true.
Proof.
  intros Hdraft Hget Hparse Hshape.
  destruct (addMessage_after_lookup message currentUser st thread w1 Hget)
    as [w2 ->].
  unfold Mutation.classify_and_store. rewrite Hdraft.
  change (String.eqb "draftjs" "text") with false.
  change (String.eqb "draftjs" "draftjs") with true. cbn [orb].
  erewrite bind_returned
    by (apply (tag_code_language_untouched message doc); assumption).
  match goal with |- context [catch _ _ ?s] =>
    destruct (caught_store_run R Md false message (User.id currentUser) s)
      as (r & rest & Htrace & Hrest & _) end.
  exists r, rest. split; [| exact Hrest].
  cbv zeta in Htrace. rewrite Htrace. flatten_trace. reflexivity.
Qed.

(** X14. A [text] message is handed to the store exactly as it came, in the
    requester's name, right after the thread calls: its body is never
    parsed, so this holds whatever the body is and whatever the parser and
    the detector would do with it. *)
Theorem text_message_is_stored_as_it_came
    (message : Message.t) (currentUser : User.t) (st : State World)
    (thread : option Thread.t) (w1 : World) :
  Message.messageType message = "text" ->
  getThread Md (Message.threadId message) (world st) = (inr thread, w1) ->
  exists r rest,
    trace (snd (Mutation.addMessage R Md message (Some currentUser) st))
    = trace st
      ++ EvGetThread (Message.threadId message) (inr thread)
      :: direct_message_events message currentUser
      ++ registration_events message currentUser thread
      ++ EvStoreMessage message (User.id currentUser) r :: rest
    /\ forallb is_loader rest = true.
Proof.
  intros Htext Hget.
  destruct (addMessage_after_lookup message currentUser st thread w1 Hget)
    as [w2 ->].
  unfold Mutation.classify_and_store. rewrite Htext.
  change (String.eqb "text" "text") with true.
  change (String.eqb "text" "draftjs") with false. cbn [orb].
  erewrite bind_returned by reflexivity.
  match goal with |- context [catch _ _ ?s] =>
    destruct (caught_store_run R Md false message (User.id currentUser) s)
      as (r & rest & Htrace & Hrest & _) end.
  exists r, rest. split; [| exact Hrest].
  cbv zeta in Htrace. rewrite Htrace. flatten_trace. reflexivity.
Qed.

(** X15. A [media] message that carries no file still has the upload
    called, with no file; whatever the upload answers, nothing is stored and
    the submitter gets a user error: the upload's own message when it was
    rejected, the engine's type-error text when it was fulfilled. *)
Theorem media_message_without_file_uploads_and_stores_nothing
    (message : Message.t) (currentUser : User.t) (st : State World)
    (thread : option Thread.t) (w1 : World) :
  Message.messageType message = "media" ->
  Message.file message = None ->
  getThread Md (Message.threadId message) (world st) = (inr thread, w1) ->
  exists r,
    trace (snd (Mutation.addMessage R Md message (Some currentUser) st))
    = trace st
      ++ EvGetThread (Message.threadId message) (inr thread)
      :: direct_message_events message currentUser
      ++ registration_events message currentUser thread
      ++ [EvUploadImage None "threads" (Message.threadId message) r]
    /\ fst (Mutation.addMessage R Md message (Some currentUser) st)
       = Returned
           (ErrorValue
              (UserError
                 match r with
                 | inl msg => msg
                 | inr _ => TypeError_message R "message.file.name"
                 end)).
Proof.
  intros Hmedia Hfile Hget.
  destruct (addMessage_after_lookup message currentUser st thread w1 Hget)
    as [w2 ->].
  unfold Mutation.classify_and_store. rewrite Hmedia.
  change (String.eqb "media" "text") with false.
  change (String.eqb "media" "draftjs") with false.
  change (String.eqb "media" "media") with true. cbn [orb].
  rewrite Hfile.
  match goal with |- context [catch _ _ ?s] => set (st1 := s) end.
  destruct (uploadImage Md None "threads" (Message.threadId message) (world st1))
    as [[msg | url] w3] eqn:Hup.
  - exists (inl msg).
    erewrite catch_bind_thrown by (apply call_rejected; exact Hup).
    unfold st1. cbn [fst snd Mutation.as_user_error ret message_of].
    flatten_trace. split; reflexivity.
  - exists (inr url).
    erewrite catch_bind_returned by (apply call_fulfilled; exact Hup).
    unfold Mutation.build_media_message. rewrite Hfile.
    erewrite catch_bind_thrown by reflexivity.
    unfold st1. cbn [fst snd Mutation.as_user_error ret message_of].
    flatten_trace. split; reflexivity.
Qed.

End SubmissionEdges.

(** ** Submission: what reaches the store and the uploader, and what comes
    back *)

Section StoreAndUpload.
Context {World : Type}.
Variable R : Runtime.
Variable Md : Models World.

(** X16. After the store has accepted a message that is not of a
    direct-message thread, the submitter gets the message back exactly when
    both loaders answered. When the thread loader or the permission loader
    is rejected, or the thread loader finds nothing, the submitter gets a
    user error although the message is stored. *)
Theorem stored_message_comes_back_only_if_the_loaders_answer
    (message : Message.t) (currentUser : User.t) (st : State World)
    (new : list Event) (m : Message.t) (userId : string) (stored : Message.t) :
  trace (snd (Mutation.addMessage R Md message (Some currentUser) st))
  = trace st ++ new ->
  In (EvStoreMessage m userId (inr stored)) new ->
  Message.threadType stored <> "directMessageThread" ->
  let out := fst (Mutation.addMessage R Md message (Some currentUser) st) in
  (existsb (fun e => is_loader e && is_failure e) new = true ->
   exists text, out = Returned (ErrorValue (UserError text)))
  /\ (existsb (fun e => is_loader e && is_failure e) new = false ->
      exists view, out = Returned (Enriched stored view)).
Proof.
  intros Htrace Hin Hkind out.
  destruct (addMessage_run R Md message currentUser st)
    as (side & Hside & [(pre & Hrun & Hpre) | (pre & m0 & r0 & rest & Hrun & Hpre & Hrest & Hout & _)]);
    cbv zeta in Hrun; rewrite Hrun in Htrace; apply app_inv_head in Htrace;
    subst new.
  { exfalso. split_in Hin.
    - revert Hin. apply (forallb_not_in _ _ _ Hside). reflexivity.
    - revert Hin. apply (forallb_not_in _ _ _ Hpre). reflexivity. }
  assert (Hr : r0 = inr stored).
  { split_in Hin.
    - exfalso. revert Hin. apply (forallb_not_in _ _ _ Hside). reflexivity.
    - exfalso. revert Hin. apply (forallb_not_in _ _ _ Hpre). reflexivity.
    - congruence.
    - exfalso. revert Hin. apply (forallb_not_in _ _ _ Hrest). reflexivity. }
  subst r0. cbv zeta in Hout. fold out in Hout. unfold settles in Hout.
  destruct Hout as [_ Hother].
  assert (Hquiet : forall l,
            forallb (fun e => is_console_error e || is_upload e) l = true
            \/ forallb is_thread_side_effect l = true ->
            existsb (fun e => is_loader e && is_failure e) l = false).
  { intros l Hl. induction l as [| e l IH]; [reflexivity |].
    cbn [existsb forallb] in *.
    assert (He : is_loader e = false /\ existsb (fun e => is_loader e && is_failure e) l = false).
    { destruct Hl as [Hl | Hl]; apply andb_true_iff in Hl;
        destruct Hl as [He Hl];
        (split; [destruct e; simpl in He |- *; congruence | apply IH; auto]). }
    destruct He as [-> ->]. reflexivity. }
  rewrite !existsb_app, (Hquiet side), (Hquiet pre) by auto.
  cbn [existsb is_loader andb orb].
  destruct (Hother Hkind) as [(text & Ho & Hfail & _) | (thread & permissions & Ho & ->)].
  - split; [eauto |]. intros Hnone. exfalso.
    clear - Hfail Hrest Hnone. induction rest as [| e rest IH]; [discriminate |].
    cbn in *. apply andb_true_iff in Hrest. destruct Hrest as [He Hrest].
    rewrite He in Hnone. cbn in Hnone.
    destruct (is_failure e); [discriminate | auto].
  - split; [discriminate | eauto].
Qed.

Lemma attach_context_permissions_loads message :
  emits is_loader (Mutation.attach_context_permissions R Md message).
Proof.
  unfold Mutation.attach_context_permissions.
  destruct (String.eqb _ _); [emits_step |].
  emits_step; [emits_step |].
  destruct a as [thread |]; [| emits_step].
  emits_step; emits_step.
Qed.

Lemma attach_context_permissions_media_loads message :
  emits is_loader (Mutation.attach_context_permissions_media R Md message).
Proof.
  unfold Mutation.attach_context_permissions_media.
  destruct (String.eqb _ _); [emits_step |].
  emits_step; [emits_step |].
  destruct a as [thread |]; [| emits_step].
  emits_step; emits_step.
Qed.

(** The uploads of classification: one for a [media] message, none
    otherwise. *)
Lemma classify_and_store_uploads message currentUser (st : State World) :
  exists new,
    trace (snd (Mutation.classify_and_store R Md message currentUser st))
    = trace st ++ new
    /\ (filter is_upload new = []
        \/ Message.messageType message = "media"
           /\ exists r,
                filter is_upload new
                = [EvUploadImage (Message.file message) "threads"
                     (Message.threadId message) r]).
Proof.
  set (quiet := fun e => is_classification e && negb (is_upload e)).
  assert (Hquiet : forall l, forallb quiet l = true -> filter is_upload l = []).
  { intros l Hl. apply (filter_rejected quiet); [exact Hl |].
    intros e He. unfold quiet in He. apply andb_true_iff in He.
    destruct He as [_ He]. apply negb_true_iff in He. exact He. }
  assert (Hloader : forall e, is_loader e = true -> quiet e = true)
    by (intros []; unfold quiet; simpl; congruence).
  assert (Hconsole : forall e, is_console_error e = true -> quiet e = true)
    by (intros []; unfold quiet; simpl; congruence).
  unfold Mutation.classify_and_store.
  destruct (String.eqb _ "text" || String.eqb _ "draftjs").
  { match goal with |- context [snd (?c st)] =>
      assert (Hemits : emits quiet c) end.
    { emits_step.
      - destruct (String.eqb _ _); [| emits_step].
        apply (emits_weaken is_console_error);
          [exact Hconsole | apply tag_code_language_emits].
      - emits_step; [| unfold Mutation.as_user_error; emits_step].
        emits_step; [emits_step |].
        apply (emits_weaken is_loader);
          [exact Hloader | apply attach_context_permissions_loads]. }
    destruct (Hemits st) as (new & Htrace & Hall).
    exists new. split; [exact Htrace | left; auto]. }
  destruct (String.eqb_spec (Message.messageType message) "media")
    as [Hmedia | Hmedia].
  2:{ exists []. cbn. rewrite app_nil_r. auto. }
  destruct (uploadImage Md (Message.file message) "threads"
              (Message.threadId message) (world st)) as [[msg | url] w1] eqn:Hup.
  - erewrite catch_bind_thrown by (apply call_rejected; exact Hup).
    eexists. split; [reflexivity |]. right. split; [exact Hmedia |].
    eexists. reflexivity.
  - erewrite catch_bind_returned by (apply call_fulfilled; exact Hup).
    match goal with |- context [snd (?c ?s)] =>
      assert (Hemits : emits quiet c); [| destruct (Hemits s)
                                            as (rest & Htrace & Hall)] end.
    { emits_step; [| unfold Mutation.as_user_error; emits_step].
      emits_step.
      - unfold Mutation.build_media_message.
        destruct (Message.file message); emits_step.
      - emits_step; [emits_step |].
        apply (emits_weaken is_loader);
          [exact Hloader | apply attach_context_permissions_media_loads]. }
    rewrite Htrace. cbn [trace]. rewrite <- app_assoc. eexists.
    split; [reflexivity |]. right. split; [exact Hmedia |].
    eexists. cbn [app filter is_upload]. rewrite (Hquiet rest Hall).
    reflexivity.
Qed.

(** X17. One submission hands at most one message to the store, in the
    requester's name, and calls the uploader at most once: never for a
    message that is not [media], and for a [media] message with the
    message's own file, the namespace [threads] and the message's thread
    id. *)
Theorem submission_stores_and_uploads_at_most_once
    (message : Message.t) (currentUser : User.t) (st : State World)
    (new : list Event) :
  trace (snd (Mutation.addMessage R Md message (Some currentUser) st))
  = trace st ++ new ->
  (List.length (filter is_store new) <= 1)%nat
  /\ (forall m userId r,
        In (EvStoreMessage m userId r) new -> userId = User.id currentUser)
  /\ (List.length (filter is_upload new) <= 1)%nat
  /\ (Message.messageType message <> "media" -> filter is_upload new = [])
  /\ (forall file namespace threadId r,
        In (EvUploadImage file namespace threadId r) new ->
        file = Message.file message
        /\ namespace = "threads"
        /\ threadId = Message.threadId message).
Proof.
  intros Htrace.
  assert (Hstore :
    filter is_store new = []
    \/ exists m r, filter is_store new = [EvStoreMessage m (User.id currentUser) r]).
  { destruct (addMessage_run R Md message currentUser st)
      as (side & Hside & [(pre & Hrun & Hpre) | (pre & m0 & r0 & rest & Hrun & Hpre & Hrest & _)]);
      cbv zeta in Hrun; rewrite Hrun in Htrace; apply app_inv_head in Htrace;
      subst new; rewrite !filter_app;
      rewrite (filter_rejected is_thread_side_effect is_store side Hside)
        by (intros []; simpl; congruence);
      rewrite (filter_rejected _ is_store pre Hpre)
        by (intros []; simpl; congruence).
    - left. reflexivity.
    - right. exists m0, r0. cbn [filter is_store app].
      rewrite (filter_rejected is_loader is_store rest Hrest)
        by (intros []; simpl; congruence).
      reflexivity. }
  assert (Hupload :
    filter is_upload new = []
    \/ Message.messageType message = "media"
       /\ exists r,
            filter is_upload new
            = [EvUploadImage (Message.file message) "threads"
                 (Message.threadId message) r]).
  { destruct (getThread Md (Message.threadId message) (world st))
      as [[msg | thread] w1] eqn:Hget.
    - unfold Mutation.addMessage in Htrace.
      erewrite bind_thrown in Htrace
        by exact (thread_side_effects_run Md message currentUser st _ _ Hget).
      cbn [snd trace] in Htrace. apply app_inv_head in Htrace. subst new.
      left. reflexivity.
    - destruct (thread_side_effects_run Md message currentUser st _ _ Hget)
        as [w2 Hside].
      unfold Mutation.addMessage in Htrace.
      erewrite bind_returned in Htrace by exact Hside.
      match type of Htrace with context [Mutation.classify_and_store _ _ _ _ ?s] =>
        destruct (classify_and_store_uploads message currentUser s)
          as (cnew & Hcnew & Hup) end.
      rewrite Hcnew in Htrace. cbn [trace] in Htrace.
      rewrite <- app_assoc in Htrace. apply app_inv_head in Htrace. subst new.
      rewrite filter_app.
      rewrite (filter_rejected is_thread_side_effect is_upload _
                 (side_effect_events message currentUser thread))
        by (intros []; simpl; congruence).
      exact Hup. }
  split; [| split; [| split; [| split]]].
  - destruct Hstore as [-> | (m & r & ->)]; simpl; auto.
  - intros m userId r Hin.
    assert (Hf : In (EvStoreMessage m userId r) (filter is_store new))
      by (apply filter_In; auto).
    destruct Hstore as [He | (m0 & r0 & He)]; rewrite He in Hf;
      [destruct Hf |].
    destruct Hf as [Hf | []]. congruence.
  - destruct Hupload as [-> | (_ & r & ->)]; simpl; auto.
  - intros Hmedia. destruct Hupload as [He | (Hm & _)];
      [exact He | contradiction].
  - intros file namespace threadId r Hin.
    assert (Hf : In (EvUploadImage file namespace threadId r)
                   (filter is_upload new))
      by (apply filter_In; auto).
    destruct Hupload as [He | (_ & r0 & He)]; rewrite He in Hf;
      [destruct Hf |].
    destruct Hf as [Hf | []]. injection Hf as <- <- <- _. auto.
Qed.

End StoreAndUpload.


(** ** More concrete runs on the in-memory instance *)

Module MoreRuns.
Import InMemory.

(** carol's deletion of m3 reached the store: she is signed in and the
    message was found. *)
Lemma store_delete_is_called_only_after_authorization_witness :
  exists currentUser message,
    Some carol = Some currentUser
    /\ In (EvGetMessage "m3" (inr (Some message)))
         (trace (snd (Mutation.deleteMessage runtime models "m3" (Some carol)
                        (start world0)))).
Proof.
  destruct (store_delete_is_called_only_after_authorization runtime models
              "m3" (Some carol) (start world0)
              (trace (snd (Mutation.deleteMessage runtime models "m3"
                             (Some carol) (start world0))))
              "carol" "m3" (inr tt) eq_refl
              ltac:(vm_compute; do 4 right; left; reflexivity))
    as (currentUser & message & Huser & _ & _ & Hfound & _).
  exists currentUser, message. split; assumption.
Defined.

(** dave owns the channel and has no community record: he deletes m1. *)
Lemma channel_owner_deletes_without_community_record_witness :
  getUserPermissionsInCommunity models (Some "c1") "dave" world1
  = (inr None, world1)
  /\ exists r rest,
       trace (snd (Mutation.deleteMessage runtime models "m1" (Some dave)
                     (start world1)))
       = [EvGetMessage "m1" (inr (Some m1));
          EvGetThread "t1" (inr (Some channel_thread));
          EvGetUserPermissionsInCommunity (Some "c1") "dave" (inr None);
          EvGetUserPermissionsInChannel (Some "ch1") "dave" (inr (Some owner))]
         ++ EvDeleteMessage "dave" "m1" r :: rest.
Proof.
  split; [reflexivity |].
  destruct (channel_owner_deletes_without_community_record runtime models
              "m1" dave (start world1) m1 channel_thread owner None
              world1 world1 world1 world1
              eq_refl ltac:(discriminate) ltac:(discriminate)
              eq_refl eq_refl eq_refl eq_refl)
    as (r & rest & Htrace & _).
  exists r, rest. exact Htrace.
Defined.

(** erin moderates the channel and has no community record: her deletion
    of m1 ends with a type error. *)
Lemma absent_permission_record_stops_deletion_witness :
  Permissions.isModerator moderator = true
  /\ fst (Mutation.deleteMessage runtime models "m1" (Some erin) (start world1))
     = Thrown (TypeError "Cannot read properties: communityPermissions.isOwner").
Proof.
  split; [reflexivity |].
  apply (f_equal fst
           (proj2 (absent_permission_record_stops_deletion runtime models
                     "m1" erin (start world1) m1 channel_thread
                     (Some moderator) None world1 world1 world1 world1
                     eq_refl ltac:(discriminate) ltac:(discriminate)
                     eq_refl eq_refl eq_refl)
              moderator eq_refl eq_refl eq_refl)).
Defined.

(** carol cannot delete m5: its thread is gone. *)
Lemma absent_thread_stops_deletion_witness :
  fst (Mutation.deleteMessage runtime models "m5" (Some carol) (start world1))
  = Thrown (TypeError "Cannot read properties: thread.communityId").
Proof.
  apply (f_equal fst
           (absent_thread_stops_deletion runtime models "m5" carol
              (start world1) m5 world1 world1
              eq_refl ltac:(discriminate) ltac:(discriminate) eq_refl)).
Defined.

(** carol's deletion of m3 removed bob's record as its last call, on the
    store from which m3 was gone, after that store had said that bob has no
    message left in t1. *)
Lemma participant_is_removed_only_for_a_sender_without_messages_witness :
  exists (auth : list Event) (w5 : World),
    trace (snd (Mutation.deleteMessage runtime models "m3" (Some carol)
                  (start world0)))
    = EvGetMessage "m3" (inr (Some m3))
      :: auth
      ++ [EvDeleteMessage "carol" "m3" (inr tt);
          EvUserHasMessagesInThread "t1" (Some "bob") (inr false);
          EvDeleteParticipantInThread "t1" (Some "bob") (inr tt)]
    /\ world (snd (Mutation.deleteMessage runtime models "m3" (Some carol)
                     (start world0))) = w5
    /\ messages w5 = [m1; m2; m4]
    /\ participants w5 = [("t1", "alice", true)].
Proof.
  destruct (participant_is_removed_only_for_a_sender_without_messages
              runtime models "m3" (Some carol) (start world0)
              (trace (snd (Mutation.deleteMessage runtime models "m3"
                             (Some carol) (start world0))))
              "t1" (Some "bob") (inr tt) eq_refl
              ltac:(vm_compute; do 6 right; left; reflexivity))
    as (currentUser & message & auth & w1 & w2 & w3 & w4 & w5
        & Huser & Hget & _ & _ & _ & Hcheck & _ & Hdel & Hasked & Hgone
        & Hnew & Hfinal).
  injection Huser as <-.
  vm_compute in Hget. injection Hget as <- <-.
  vm_compute in Hcheck. injection Hcheck as <- <-.
  vm_compute in Hdel. injection Hdel as <-.
  vm_compute in Hasked. injection Hasked as <-.
  vm_compute in Hgone. injection Hgone as <-.
  eexists _, _. split; [exact Hnew |]. split; [exact Hfinal |].
  split; reflexivity.
Defined.

(** bob sends a sticker into t1: he is registered, the sticker is not
    stored. *)
Lemma unknown_message_type_keeps_the_thread_calls_witness :
  exists w2,
    Mutation.addMessage runtime models sticker_request (Some bob) (start world0)
    = (Returned (ErrorValue (UserError "Unknown message type")),
       {| world := w2;
          trace := [EvGetThread "t1" (inr (Some channel_thread));
                    EvCreateParticipantInThread "t1" "bob"] |}).
Proof.
  apply (unknown_message_type_keeps_the_thread_calls runtime models
           sticker_request bob (start world0) (Some channel_thread) world0
           eq_refl);
    discriminate.
Defined.

(** alice writes into the direct-message thread d1, which the thread store
    does not know. *)
Lemma time_stamps_follow_the_message_thread_type_witness :
  filter is_timestamp
    (trace (snd (Mutation.addMessage runtime models direct_request (Some alice)
                   (start world0))))
  = [EvSetDirectMessageThreadLastActive "d1";
     EvSetUserLastSeenInDirectMessageThread "d1" "alice"].
Proof.
  apply (proj1 (time_stamps_follow_the_message_thread_type runtime models
                  direct_request alice (start world0) (inr None) world0
                  (trace (snd (Mutation.addMessage runtime models
                                 direct_request (Some alice) (start world0))))
                  eq_refl eq_refl)
           None eq_refl eq_refl).
Defined.

(** bob files a direct message under the channel thread t1. *)
Lemma only_story_messages_register_outside_watercoolers_witness :
  filter is_participant_creation
    (trace (snd (Mutation.addMessage runtime models misfiled_request (Some bob)
                   (start world0))))
  = [].
Proof.
  apply (only_story_messages_register_outside_watercoolers runtime models
           misfiled_request bob (start world0) channel_thread world0
           (trace (snd (Mutation.addMessage runtime models misfiled_request
                          (Some bob) (start world0))))
           eq_refl eq_refl ltac:(discriminate) eq_refl).
Defined.

(** The thread store is down. *)
Lemma rejected_thread_lookup_stops_submission_witness :
  Mutation.addMessage runtime models text_request (Some bob)
    (start (with_rejecting ["getThread"] world0))
  = (Thrown (UpstreamError "getThread failed"),
     {| world := with_rejecting ["getThread"] world0;
        trace := [EvGetThread "t1" (inl "getThread failed")] |}).
Proof.
  apply (rejected_thread_lookup_stops_submission runtime models text_request
           bob (start (with_rejecting ["getThread"] world0))
           "getThread failed" (with_rejecting ["getThread"] world0)).
  reflexivity.
Defined.

(** bob sends a draft whose body is not JSON. *)
Lemma unreadable_draft_body_is_thrown_after_the_thread_calls_witness :
  fst (Mutation.addMessage runtime models broken_request (Some bob)
         (start world0))
  = Thrown (SyntaxError "Unexpected token in JSON").
Proof.
  destruct (unreadable_draft_body_is_thrown_after_the_thread_calls runtime
              models broken_request bob (start world0) (Some channel_thread)
              world0 eq_refl eq_refl)
    as (w2 & Hsyntax & _).
  apply (f_equal fst (Hsyntax "Unexpected token in JSON" eq_refl)).
Defined.

(** bob sends a draft that opens with plain words. *)
Lemma draft_without_leading_code_block_is_stored_as_it_came_witness :
  exists r rest,
    trace (snd (Mutation.addMessage runtime1 models plain_request (Some bob)
                  (start world0)))
    = EvGetThread "t1" (inr (Some channel_thread))
      :: EvCreateParticipantInThread "t1" "bob"
      :: EvStoreMessage plain_request "bob" r :: rest.
Proof.
  destruct (draft_without_leading_code_block_is_stored_as_it_came runtime1
              models plain_request bob (start world0) (Some channel_thread)
              world0 (JObj plain_props) eq_refl eq_refl
              ltac:(vm_compute; reflexivity)
              ltac:(right; right; exists plain_first, []; split;
                    [reflexivity | discriminate]))
    as (r & rest & Htrace & _).
  exists r, rest. exact Htrace.
Defined.

(** bob sends a text message. *)
Lemma text_message_is_stored_as_it_came_witness :
  exists r rest,
    trace (snd (Mutation.addMessage runtime models text_request (Some bob)
                  (start world0)))
    = EvGetThread "t1" (inr (Some channel_thread))
      :: EvCreateParticipantInThread "t1" "bob"
      :: EvStoreMessage text_request "bob" r :: rest.
Proof.
  destruct (text_message_is_stored_as_it_came runtime models text_request bob
              (start world0) (Some channel_thread) world0 eq_refl eq_refl)
    as (r & rest & Htrace & _).
  exists r, rest. exact Htrace.
Defined.

(** bob sends a media message with no file attached. *)
Lemma media_message_without_file_uploads_and_stores_nothing_witness :
  exists r,
    trace (snd (Mutation.addMessage runtime models fileless_request (Some bob)
                  (start world0)))
    = [EvGetThread "t1" (inr (Some channel_thread));
       EvCreateParticipantInThread "t1" "bob";
       EvUploadImage None "threads" "t1" r]
    /\ fst (Mutation.addMessage runtime models fileless_request (Some bob)
              (start world0))
       = Returned
           (ErrorValue
              (UserError
                 match r with
                 | inl msg => msg
                 | inr _ => "Cannot read properties: message.file.name"
                 end)).
Proof.
  destruct (media_message_without_file_uploads_and_stores_nothing runtime
              models fileless_request bob (start world0)
              (Some channel_thread) world0 eq_refl eq_refl eq_refl)
    as (r & Htrace & Hout).
  exists r. split; [exact Htrace | exact Hout].
Defined.

(** bob writes into t9, a thread that is gone: the message is stored and
    bob gets an error. *)
Lemma stored_message_comes_back_only_if_the_loaders_answer_witness :
  In (EvStoreMessage orphan_request "bob"
        (inr (stored_form orphan_request "bob" world0)))
    (trace (snd (Mutation.addMessage runtime models orphan_request (Some bob)
                   (start world0))))
  /\ exists text,
       fst (Mutation.addMessage runtime models orphan_request (Some bob)
              (start world0))
       = Returned (ErrorValue (UserError text)).
Proof.
  assert (Hin :
    In (EvStoreMessage orphan_request "bob"
          (inr (stored_form orphan_request "bob" world0)))
      (trace (snd (Mutation.addMessage runtime models orphan_request
                     (Some bob) (start world0)))))
    by (vm_compute; right; left; reflexivity).
  split; [exact Hin |].
  apply (proj1 (stored_message_comes_back_only_if_the_loaders_answer runtime
                  models orphan_request bob (start world0)
                  (trace (snd (Mutation.addMessage runtime models
                                 orphan_request (Some bob) (start world0))))
                  orphan_request "bob" (stored_form orphan_request "bob" world0)
                  eq_refl Hin ltac:(discriminate))).
  vm_compute. reflexivity.
Defined.

(** bob's photo: one upload, one store. *)
Lemma submission_stores_and_uploads_at_most_once_witness :
  (List.length
     (filter is_store
        (trace (snd (Mutation.addMessage runtime models media_request
                       (Some bob) (start world0))))) <= 1)%nat
  /\ (List.length
        (filter is_upload
           (trace (snd (Mutation.addMessage runtime models media_request
                          (Some bob) (start world0))))) <= 1)%nat.
Proof.
  destruct (submission_stores_and_uploads_at_most_once runtime models
              media_request bob (start world0)
              (trace (snd (Mutation.addMessage runtime models media_request
                             (Some bob) (start world0))))
              eq_refl)
    as (Hstore & _ & Hupload & _).
  split; assumption.
Defined.

(** bob sends a draft whose block list has an unconvertible length: the
    request is rejected with a type error and no message is stored. *)
Lemma unconvertible_block_count_is_thrown_before_the_store_witness :
  Mutation.addMessage runtime2 models odd_request (Some bob) (start world0)
  = (Thrown (TypeError "Cannot read properties: blocks.length > 0"),
     {| world :=
          set_participants world0 (("t1", "bob", true) :: participants world0);
        trace :=
          [EvGetThread "t1" (inr (Some channel_thread));
           EvCreateParticipantInThread "t1" "bob"] |})
  /\ messages
       (world (snd (Mutation.addMessage runtime2 models odd_request (Some bob)
                      (start world0))))
     = messages world0.
Proof.
  destruct (unconvertible_block_count_is_thrown_before_the_store runtime2
              models odd_request bob (start world0) (Some channel_thread)
              world0 odd_props eq_refl eq_refl
              ltac:(vm_compute; reflexivity))
    as (Hthrown & Hnone & _).
  pose proof (Hthrown
                (Hnone [("length", JObj [("toString", JBool true)])]
                   [("toString", JBool true)] (JBool true)
                   eq_refl eq_refl eq_refl)) as Hrun.
  split; [exact Hrun | rewrite Hrun; reflexivity].
Defined.

End MoreRuns.
